(** * csv-researcher: ingestion, history store and tool layer

    A shallow embedding of the TypeScript sources
    - [src/shared/lib/utils.ts]          (column-name normalisation),
    - [src/app/api/files/upload/route.ts] (type inference, bulk load),
    - [src/lib/database.ts]               (the storage wrapper),
    - [src/lib/chat-history.ts]           (conversation history),
    - [src/lib/react-state.ts]            (agent state, reasoning callback),
    - [src/lib/react-tools.ts]            (the seven tools of the agent),
    - [src/app/api/files/[id]/route.ts]   (dataset deletion and renaming),
    - [src/app/api/chat-history/route.ts] (the history route),
    followed by the properties of the specification that concern them. *)

From Stdlib Require Import List ZArith NArith Arith Lia Bool String Ascii.
From Stdlib Require Import Permutation Sorted.
From Stdlib Require Import DecimalString DecimalNat.
Import ListNotations.

Set Implicit Arguments.

(* ================================================================= *)
(** * JavaScript strings *)

(** A JavaScript string is a sequence of UTF-16 code units; regular
    expressions without the [u] flag, [trim], [startsWith] and [includes]
    all work on code units, so that is the representation used here. *)

Module JsString.

Definition jsstring := list N.

(** An ASCII literal as a JavaScript string. *)
Definition lit (s : string) : jsstring :=
  map N_of_ascii (list_ascii_of_string s).

Fixpoint jseqb (a b : jsstring) : bool :=
  match a, b with
  | [], [] => true
  | x :: a', y :: b' => N.eqb x y && jseqb a' b'
  | _, _ => false
  end.

Definition between (lo hi c : N) : bool := N.leb lo c && N.leb c hi.

(** [\d] *)
Definition isDigit (c : N) : bool := between 48 57 c.

(** [\w], that is [[A-Za-z0-9_]] *)
Definition isWordChar (c : N) : bool :=
  between 65 90 c || between 97 122 c || isDigit c || N.eqb c 95.

(** [[가-힣]], U+AC00 to U+D7A3 *)
Definition isHangul (c : N) : bool := between 44032 55203 c.

(** [\s], which is also the set removed by [String.prototype.trim]:
    WhiteSpace and LineTerminator of ECMAScript. *)
Definition isWhiteSpace (c : N) : bool :=
  between 9 13 c || N.eqb c 32 || N.eqb c 160 || N.eqb c 5760
  || between 8192 8202 c || N.eqb c 8232 || N.eqb c 8233
  || N.eqb c 8239 || N.eqb c 8287 || N.eqb c 12288 || N.eqb c 65279.

Fixpoint dropWhile (p : N -> bool) (s : jsstring) : jsstring :=
  match s with
  | [] => []
  | c :: t => if p c then dropWhile p t else s
  end.

Definition dropWhileEnd (p : N -> bool) (s : jsstring) : jsstring :=
  rev (dropWhile p (rev s)).

Definition trim (s : jsstring) : jsstring :=
  dropWhileEnd isWhiteSpace (dropWhile isWhiteSpace s).

(** The ASCII case mapping.  Every code unit outside [A-Z] is left as it
    is, which is what [toLowerCase] does for the digits, the underscore,
    the Hangul syllables and all ASCII punctuation.  [utils.ts] applies
    [toLowerCase] to normalized names only, which are made of such code
    units, so there this is the function of the source. *)
Definition lowerUnit (c : N) : N :=
  if between 65 90 c then (c + 32)%N else c.

Definition toLowerCase (s : jsstring) : jsstring := map lowerUnit s.

Definition upperUnit (c : N) : N :=
  if between 97 122 c then (c - 32)%N else c.

Definition toUpperCase (s : jsstring) : jsstring := map upperUnit s.

Fixpoint startsWith (p s : jsstring) : bool :=
  match p, s with
  | [], _ => true
  | x :: p', y :: s' => N.eqb x y && startsWith p' s'
  | _ :: _, [] => false
  end.

Fixpoint includes (sub s : jsstring) : bool :=
  startsWith sub s ||
  match s with
  | [] => false
  | _ :: t => includes sub t
  end.

Definition endsWith (p s : jsstring) : bool := startsWith (rev p) (rev s).

(** [Set.prototype.has] / [Array.prototype.includes] on strings. *)
Definition has (set : list jsstring) (x : jsstring) : bool :=
  existsb (jseqb x) set.

(** [String(n)] for a non-negative integer. *)
Definition decimal (n : nat) : jsstring :=
  lit (NilEmpty.string_of_uint (Nat.to_uint n)).

(** [s.replace(/X+/g, r)] for a one-character class [X]: every maximal
    run of [p]-characters becomes the single character [r]. *)
Fixpoint collapseRunsFrom (inRun : bool) (p : N -> bool) (r : N)
                          (s : jsstring) : jsstring :=
  match s with
  | [] => []
  | c :: t =>
      if p c
      then (if inRun then collapseRunsFrom true p r t
            else r :: collapseRunsFrom true p r t)
      else c :: collapseRunsFrom false p r t
  end.

Definition collapseRuns := collapseRunsFrom false.

(** [s.replace(/[X]/g, r)] for a one-character class. *)
Definition replaceEach (p : N -> bool) (r : N) (s : jsstring) : jsstring :=
  map (fun c => if p c then r else c) s.

End JsString.

Import JsString.

(* ================================================================= *)
(** * [src/shared/lib/utils.ts] *)

Module Utils.

Definition reservedWords : list jsstring :=
  map lit
    [ "select"; "from"; "where"; "insert"; "update"; "delete"; "create"; "drop";
      "table"; "index"; "view"; "database"; "schema"; "primary"; "key"; "foreign";
      "references"; "constraint"; "unique"; "not"; "null"; "default"; "check";
      "and"; "or"; "in"; "like"; "between"; "exists"; "case"; "when"; "then";
      "else"; "end"; "as"; "order"; "by"; "group"; "having"; "limit"; "offset";
      "union"; "intersect"; "except"; "join"; "inner"; "left"; "right"; "full";
      "outer"; "on"; "using"; "distinct"; "all"; "any"; "some" ]%string.

Definition underscore : N := 95.

(** The chain of [replace] calls applied to one original column name. *)
Definition cleanName (originalColumn : jsstring) : jsstring :=
  let s := trim originalColumn in
  let s := collapseRuns isWhiteSpace underscore s in
  let s := replaceEach (fun c => negb (isWordChar c || isHangul c)) underscore s in
  let s := collapseRuns (N.eqb underscore) underscore s in
  dropWhileEnd (N.eqb underscore) (dropWhile (N.eqb underscore) s).

(** [!normalizedColumn || /^\d/.test(normalizedColumn)] *)
Definition emptyOrDigitLeading (s : jsstring) : bool :=
  match s with
  | [] => true
  | c :: _ => isDigit c
  end.

(** The name before the duplicate check: the cleaned name, replaced by
    [column_<index + 1>] when empty or digit-leading, then suffixed with
    [_col] when it is a reserved word. *)
Definition baseName (index : nat) (originalColumn : jsstring) : jsstring :=
  let n := cleanName originalColumn in
  let n := if emptyOrDigitLeading n then lit "column_" ++ decimal (index + 1) else n in
  if has reservedWords (toLowerCase n) then n ++ lit "_col" else n.

Definition candidate (normalizedColumn : jsstring) (counter : nat) : jsstring :=
  normalizedColumn ++ lit "_" ++ decimal counter.

(** The [while (usedNames.has(finalColumnName.toLowerCase()))] loop.  The
    loop of the source is unbounded; [fuel] bounds the number of tests. *)
Fixpoint whileUsed (fuel : nat) (usedNames : list jsstring)
    (normalizedColumn finalColumnName : jsstring) (counter : nat)
    : option jsstring :=
  match fuel with
  | O => None
  | S fuel' =>
      if has usedNames (toLowerCase finalColumnName)
      then whileUsed fuel' usedNames normalizedColumn
                     (candidate normalizedColumn counter) (S counter)
      else Some finalColumnName
  end.

(** [Set.prototype.add] *)
Definition setAdd (set : list jsstring) (x : jsstring) : list jsstring :=
  if has set x then set else set ++ [x].

(** [columnMapping[originalColumn] = finalColumnName] on a JS object. *)
Fixpoint objSet (o : list (jsstring * jsstring)) (k v : jsstring)
    : list (jsstring * jsstring) :=
  match o with
  | [] => [(k, v)]
  | (k', v') :: o' => if jseqb k k' then (k', v) :: o' else (k', v') :: objSet o' k v
  end.

Record NormState := mkNormState {
  normalizedColumns : list jsstring;
  columnMapping : list (jsstring * jsstring);
  usedNames : list jsstring
}.

(** The body of [columns.forEach((originalColumn, index) => ...)],
    iterated from [index] on. *)
Fixpoint forEachColumn (columns : list jsstring) (index : nat) (st : NormState)
    : option NormState :=
  match columns with
  | [] => Some st
  | originalColumn :: rest =>
      let normalizedColumn := baseName index originalColumn in
      match whileUsed (S (S (List.length (usedNames st)))) (usedNames st)
                      normalizedColumn normalizedColumn 1 with
      | None => None
      | Some finalColumnName =>
          forEachColumn rest (S index)
            {| normalizedColumns := normalizedColumns st ++ [finalColumnName];
               columnMapping := objSet (columnMapping st) originalColumn finalColumnName;
               usedNames := setAdd (usedNames st) (toLowerCase finalColumnName) |}
      end
  end.

(** [None] stands for a duplicate loop that did not end within its bound;
    [whileUsed_resolves] below shows that this never happens. *)
Definition normalizeColumnNames (columns : list jsstring) : option NormState :=
  forEachColumn columns 0 (mkNormState [] [] []).

(** ** What the specification asks of the result *)

Definition isNameChar (c : N) : bool := isWordChar c || isHangul c.

(** A storage-safe identifier: not empty, made of letters, digits,
    underscores and Hangul syllables only, not beginning with a digit, and
    not a reserved word in any letter case. *)
Definition storageSafe (s : jsstring) : Prop :=
  s <> []
  /\ Forall (fun c => isNameChar c = true) s
  /\ emptyOrDigitLeading s = false
  /\ has reservedWords (toLowerCase s) = false.

Definition NameChars (s : jsstring) : Prop :=
  Forall (fun c => isNameChar c = true) s.

(** The state between two iterations: the set of used names is the list
    of lower-cased names produced so far, without repetition, and every
    name produced is storage-safe. *)
Definition wellFormed (st : NormState) : Prop :=
  usedNames st = map toLowerCase (normalizedColumns st)
  /\ NoDup (usedNames st)
  /\ Forall storageSafe (normalizedColumns st).

(** How a name is settled against the lower-cased names produced before
    it: unchanged when free, and otherwise with the smallest counter, from
    1 on, whose candidate is free. *)
Definition resolves (earlier : list jsstring) (normalizedColumn final : jsstring)
    : Prop :=
  (~ In (toLowerCase normalizedColumn) earlier /\ final = normalizedColumn)
  \/ (In (toLowerCase normalizedColumn) earlier
      /\ exists k, 1 <= k
           /\ final = candidate normalizedColumn k
           /\ ~ In (toLowerCase final) earlier
           /\ forall j, 1 <= j < k ->
                In (toLowerCase (candidate normalizedColumn j)) earlier).

End Utils.

(* ================================================================= *)
(** * Regular expressions *)

(** The patterns of the source are built from character classes,
    sequence, alternation and repetition only, so acceptance is decided
    by derivatives.  [test] of a pattern anchored at both ends is
    [matchesWhole]; a pattern anchored at [^] only is [matchesPrefix]. *)

Module Regex.

Inductive regex : Type :=
| Never
| Eps
| Class (p : N -> bool)
| Seq (r1 r2 : regex)
| Alt (r1 r2 : regex)
| Star (r : regex).

Definition Chr (c : N) : regex := Class (N.eqb c).
Definition Opt (r : regex) : regex := Alt Eps r.
Definition Plus (r : regex) : regex := Seq r (Star r).

Fixpoint Times (n : nat) (r : regex) : regex :=
  match n with
  | O => Eps
  | S n' => Seq r (Times n' r)
  end.

(** [r{1,2}] *)
Definition OneOrTwo (r : regex) : regex := Seq r (Opt r).

Fixpoint nullable (r : regex) : bool :=
  match r with
  | Never => false
  | Eps => true
  | Class _ => false
  | Seq r1 r2 => nullable r1 && nullable r2
  | Alt r1 r2 => nullable r1 || nullable r2
  | Star _ => true
  end.

Fixpoint deriv (c : N) (r : regex) : regex :=
  match r with
  | Never => Never
  | Eps => Never
  | Class p => if p c then Eps else Never
  | Seq r1 r2 =>
      if nullable r1
      then Alt (Seq (deriv c r1) r2) (deriv c r2)
      else Seq (deriv c r1) r2
  | Alt r1 r2 => Alt (deriv c r1) (deriv c r2)
  | Star r1 => Seq (deriv c r1) (Star r1)
  end.

Fixpoint matchesWhole (r : regex) (s : jsstring) : bool :=
  match s with
  | [] => nullable r
  | c :: t => matchesWhole (deriv c r) t
  end.

Fixpoint matchesPrefix (r : regex) (s : jsstring) : bool :=
  nullable r ||
  match s with
  | [] => false
  | c :: t => matchesPrefix (deriv c r) t
  end.

Definition digit : regex := Class isDigit.
Definition minus : regex := Chr 45.
Definition dot : regex := Chr 46.
(** [[-\/]] *)
Definition dashOrSlash : regex := Class (fun c => N.eqb c 45 || N.eqb c 47).

End Regex.

(* ================================================================= *)
(** * [src/app/api/files/upload/route.ts] *)

Module Upload.

Import Regex.

(** A cell as the parsers deliver it: csv-parser yields strings, the
    spreadsheet reader may yield other values, of which only their
    [String(value)] rendering is used. *)
Inductive JsValue : Type :=
| JNull
| JUndefined
| JString (s : jsstring)
| JOther (rendering : jsstring).

(** [String(value)] *)
Definition String_ (v : JsValue) : jsstring :=
  match v with
  | JNull => lit "null"
  | JUndefined => lit "undefined"
  | JString s => s
  | JOther r => r
  end.

(** [v !== null && v !== undefined && v !== ''] *)
Definition isPresent (v : JsValue) : bool :=
  match v with
  | JNull => false
  | JUndefined => false
  | JString [] => false
  | _ => true
  end.

Inductive ColumnType : Type := INTEGER | REAL | DATE | TEXT.

(** [/^-?\d+$/] *)
Definition integerPattern : regex := Seq (Opt minus) (Plus digit).

(** [/^-?\d*\.?\d+$/] *)
Definition realPattern : regex :=
  Seq (Opt minus) (Seq (Star digit) (Seq (Opt dot) (Plus digit))).

(** [/^\d{4}[-\/]\d{1,2}[-\/]\d{1,2}/] *)
Definition datePatternYMD : regex :=
  Seq (Times 4 digit) (Seq dashOrSlash (Seq (OneOrTwo digit)
      (Seq dashOrSlash (OneOrTwo digit)))).

(** [/^\d{1,2}[-\/]\d{1,2}[-\/]\d{4}/] *)
Definition datePatternDMY : regex :=
  Seq (OneOrTwo digit) (Seq dashOrSlash (Seq (OneOrTwo digit)
      (Seq dashOrSlash (Times 4 digit)))).

(** [/^\d{4}\d{2}\d{2}$/] *)
Definition datePatternCompact : regex :=
  Seq (Times 4 digit) (Seq (Times 2 digit) (Times 2 digit)).

Definition hasDatePattern (strValue : jsstring) : bool :=
  matchesPrefix datePatternYMD strValue
  || matchesPrefix datePatternDMY strValue
  || matchesWhole datePatternCompact strValue.

(** ** Number parsing *)

Fixpoint span (p : N -> bool) (s : jsstring) : jsstring * jsstring :=
  match s with
  | [] => ([], [])
  | c :: t =>
      if p c then let '(a, b) := span p t in (c :: a, b) else ([], s)
  end.

Definition digitsValue (ds : jsstring) : Z :=
  fold_left (fun acc c => (acc * 10 + (Z.of_N c - 48))%Z) ds 0%Z.

(** [parseInt(s, 10)]: leading white space, an optional sign, then the
    longest run of decimal digits; [None] is [NaN].  The result is held
    as the mathematical integer of the digits: the JavaScript number is
    that integer itself up to 2^53 in magnitude, and a double near it
    beyond. *)
Definition parseInt10 (s : jsstring) : option Z :=
  let s := dropWhile isWhiteSpace s in
  let '(neg, s) :=
    match s with
    | 45%N :: t => (true, t)
    | 43%N :: t => (false, t)
    | _ => (false, s)
    end in
  let '(ds, _) := span isDigit s in
  match ds with
  | [] => None
  | _ => Some (if neg then (- digitsValue ds)%Z else digitsValue ds)
  end.

(** A JavaScript number as [parseFloat] produces it: the longest prefix
    that is a decimal literal, kept as text (the number is the double
    nearest to it), or an infinity. *)
Inductive ParsedFloat : Type :=
| DecimalLiteral (text : jsstring)
| Infinite (negative : bool).

Definition isExponentMark (c : N) : bool := N.eqb c 101 || N.eqb c 69.
Definition isSign (c : N) : bool := N.eqb c 43 || N.eqb c 45.

(** The exponent part at the head of [s], if there is a well-formed one. *)
Definition exponentPart (s : jsstring) : jsstring :=
  match s with
  | e :: t =>
      if isExponentMark e then
        match t with
        | sg :: t' =>
            if isSign sg then
              match fst (span isDigit t') with
              | [] => []
              | ds => e :: sg :: ds
              end
            else
              match fst (span isDigit t) with
              | [] => []
              | ds => e :: ds
              end
        | [] => []
        end
      else []
  | [] => []
  end.

(** [parseFloat(s)]; [None] is [NaN]. *)
Definition parseFloat (s : jsstring) : option ParsedFloat :=
  let s := dropWhile isWhiteSpace s in
  let '(sign, s) :=
    match s with
    | c :: t => if isSign c then ([c], t) else ([], s)
    | [] => ([], s)
    end in
  if startsWith (lit "Infinity") s
  then Some (Infinite (jseqb sign [45%N]))
  else
    let '(intPart, rest) := span isDigit s in
    let '(fracPart, rest) :=
      match rest with
      | 46%N :: t => let '(f, r) := span isDigit t in (46%N :: f, r)
      | _ => ([], rest)
      end in
    match intPart, fracPart with
    | [], [] => None
    | [], [_] => None
    | _, _ => Some (DecimalLiteral (sign ++ intPart ++ fracPart ++ exponentPart rest))
    end.

(** What one cell becomes in the [INSERT] statement. *)
Inductive Cell : Type :=
| CellNull
| CellInteger (z : Z)
| CellFloat (f : ParsedFloat)
| CellString (s : jsstring).

Section WithDate.

(** [new Date(s).getTime()], [None] for an invalid date.  Outside the
    ISO format the result depends on the engine, so the date parser is a
    parameter; so is [Date.prototype.toISOString] on a valid time value. *)
Variable dateParse : jsstring -> option Z.
Variable toISOString : Z -> jsstring.

(** [!isNaN(dateValue.getTime())] for [dateValue = new Date(strValue)] *)
Definition isValidDate (strValue : jsstring) : bool :=
  match dateParse strValue with
  | Some _ => true
  | None => false
  end.

Record Flags := mkFlags {
  isAllInteger : bool;
  isAllReal : bool;
  isAllDate : bool
}.

(** [String(value).trim()] *)
Definition strValueOf (value : JsValue) : jsstring := trim (String_ value).

(** One iteration of [for (const value of sampleValues)]. *)
Definition inferStep (f : Flags) (value : JsValue) : Flags :=
  let strValue := trim (String_ value) in
  let isAllInteger' :=
    if isAllInteger f && negb (matchesWhole integerPattern strValue)
    then false else isAllInteger f in
  let isAllReal' :=
    if isAllReal f && negb (matchesWhole realPattern strValue)
    then false else isAllReal f in
  let isAllDate' :=
    if isAllDate f then
      if negb (isValidDate strValue) || negb (hasDatePattern strValue)
      then false else isAllDate f
    else isAllDate f in
  mkFlags isAllInteger' isAllReal' isAllDate'.

Definition inferColumnType (values : list JsValue) : ColumnType :=
  let nonNullValues := filter isPresent values in
  match nonNullValues with
  | [] => TEXT
  | _ =>
      let sampleValues := firstn 100 nonNullValues in
      let f := fold_left inferStep sampleValues (mkFlags true true true) in
      if isAllInteger f then INTEGER
      else if isAllReal f then REAL
      else if isAllDate f then DATE
      else TEXT
  end.

(** The callback of [normalizedColumns.map(col => ...)] inside the load
    transaction, for one cell of a column of type [columnType]. *)
Definition convertValue (columnType : ColumnType) (value : JsValue) : Cell :=
  if negb (isPresent value) then CellNull
  else
    let strValue := trim (String_ value) in
    match columnType with
    | INTEGER =>
        match parseInt10 strValue with
        | None => CellNull
        | Some intValue => CellInteger intValue
        end
    | REAL =>
        match parseFloat strValue with
        | None => CellNull
        | Some floatValue => CellFloat floatValue
        end
    | DATE =>
        match dateParse strValue with
        | None => CellString strValue
        | Some dateValue => CellString (toISOString dateValue)
        end
    | TEXT => CellString strValue
    end.

(** The values bound for one row: [normalizedColumns.map(col => ...)].
    A row is a JavaScript object, a missing key reads as [undefined]. *)
Definition rowValues (normalizedColumns : list jsstring)
    (columnTypes : jsstring -> ColumnType) (row : jsstring -> JsValue)
    : list Cell :=
  map (fun col => convertValue (columnTypes col) (row col)) normalizedColumns.

(** The classification as the specification words it. *)
Definition specColumnType (values : list JsValue) : ColumnType :=
  let samples := map (fun v => trim (String_ v)) (firstn 100 (filter isPresent values)) in
  match samples with
  | [] => TEXT
  | _ =>
      if forallb (matchesWhole integerPattern) samples then INTEGER
      else if forallb (matchesWhole realPattern) samples then REAL
      else if forallb (fun s => hasDatePattern s && isValidDate s) samples then DATE
      else TEXT
  end.

End WithDate.

(** ** A date parser for the ISO date-only form

    [YYYY-MM-DD] is the one date-only form whose meaning ECMAScript fixes
    (midnight UTC of that day); other strings are rejected here. *)

Definition daysFromCivil (y m d : Z) : Z :=
  let y' := if (m <=? 2)%Z then (y - 1)%Z else y in
  let era := (y' / 400)%Z in
  let yoe := (y' - era * 400)%Z in
  let mp := if (m >? 2)%Z then (m - 3)%Z else (m + 9)%Z in
  let doy := ((153 * mp + 2) / 5 + d - 1)%Z in
  let doe := (yoe * 365 + yoe / 4 - yoe / 100 + doy)%Z in
  (era * 146097 + doe - 719468)%Z.

Definition isLeap (y : Z) : bool :=
  ((y mod 4 =? 0) && negb (y mod 100 =? 0) || (y mod 400 =? 0))%Z.

Definition daysInMonth (y m : Z) : Z :=
  if (m =? 2)%Z then (if isLeap y then 29 else 28)%Z
  else if ((m =? 4) || (m =? 6) || (m =? 9) || (m =? 11))%Z then 30%Z
  else 31%Z.

Definition isoDateParse (s : jsstring) : option Z :=
  match s with
  | [y1; y2; y3; y4; 45%N; m1; m2; 45%N; d1; d2] =>
      if forallb isDigit [y1; y2; y3; y4; m1; m2; d1; d2] then
        let y := digitsValue [y1; y2; y3; y4] in
        let m := digitsValue [m1; m2] in
        let d := digitsValue [d1; d2] in
        if ((1 <=? m) && (m <=? 12) && (1 <=? d) && (d <=? daysInMonth y m))%Z
        then Some (daysFromCivil y m d * 86400000)%Z
        else None
      else None
  | _ => None
  end.

Definition pad (width : nat) (n : Z) : jsstring :=
  let ds := decimal (Z.to_nat n) in
  repeat 48%N (width - List.length ds) ++ ds.

(** [toISOString] for time values of the years 0000 to 9999. *)
Definition isoFormat (t : Z) : jsstring :=
  let days := (t / 86400000)%Z in
  let ms := (t mod 86400000)%Z in
  let z := (days + 719468)%Z in
  let era := (z / 146097)%Z in
  let doe := (z - era * 146097)%Z in
  let yoe := ((doe - doe / 1460 + doe / 36524 - doe / 146096) / 365)%Z in
  let doy := (doe - (365 * yoe + yoe / 4 - yoe / 100))%Z in
  let mp := ((5 * doy + 2) / 153)%Z in
  let d := (doy - (153 * mp + 2) / 5 + 1)%Z in
  let m := if (mp <? 10)%Z then (mp + 3)%Z else (mp - 9)%Z in
  let y := (yoe + era * 400 + (if (m <=? 2)%Z then 1 else 0))%Z in
  pad 4 y ++ lit "-" ++ pad 2 m ++ lit "-" ++ pad 2 d ++ lit "T"
  ++ pad 2 (ms / 3600000) ++ lit ":" ++ pad 2 ((ms / 60000) mod 60) ++ lit ":"
  ++ pad 2 ((ms / 1000) mod 60) ++ lit "." ++ pad 3 (ms mod 1000) ++ lit "Z".

(** ** The shape of a number at the head of a text *)

(** The sign that [parseInt] and [parseFloat] accept before the digits. *)
Definition optionalSign (sign : jsstring) : Prop :=
  sign = [] \/ sign = [43%N] \/ sign = [45%N].

(** A text begins as a number does: with [Infinity], with a digit, or
    with a point and a digit. *)
Definition numericStart (body : jsstring) : Prop :=
  startsWith (lit "Infinity") body = true
  \/ (exists d rest, body = d :: rest /\ isDigit d = true)
  \/ (exists d rest, body = 46%N :: d :: rest /\ isDigit d = true).

(** [parseFloat] from behind the white space and the sign, with the
    parts of the literal named by projections. *)
Definition unsignedFloat (sign s : jsstring) : option ParsedFloat :=
  if startsWith (lit "Infinity") s
  then Some (Infinite (jseqb sign [45%N]))
  else
    let intPart := fst (span isDigit s) in
    let rest := snd (span isDigit s) in
    let fracPart :=
      match rest with
      | c :: t => if N.eqb c 46 then 46%N :: fst (span isDigit t) else []
      | [] => []
      end in
    let rest' :=
      match rest with
      | c :: t => if N.eqb c 46 then snd (span isDigit t) else rest
      | [] => rest
      end in
    match intPart, fracPart with
    | [], [] => None
    | [], [_] => None
    | _, _ => Some (DecimalLiteral (sign ++ intPart ++ fracPart ++ exponentPart rest'))
    end.

End Upload.

(* ================================================================= *)
(** * [src/lib/database.ts] *)

(** The wrapper around the embedded SQL engine.  The store holds the two
    fixed tables and the per-dataset tables; every statement handed to the
    engine is recorded in a journal, so that what was asked of the storage,
    and in which order, can be stated.  The engine itself is outside the
    repository: what it needs to answer is gathered in [Engine]. *)

Module Database.

Definition DatabaseRow := list (jsstring * Upload.Cell).

(** A row of [PRAGMA table_info]. *)
Record ColumnInfo := mkColumnInfo {
  cid : nat;
  name : jsstring;
  type : jsstring;
  notnull : bool;
  dflt_value : option jsstring;
  pk : bool
}.

Record Table := mkTable {
  tableColumns : list ColumnInfo;
  tableRows : list DatabaseRow
}.

(** A row of [files]; the columns that no modelled function reads are
    left out. *)
Record FileRow := mkFileRow {
  file_id : jsstring;
  file_name : jsstring;
  file_displayName : option jsstring
}.

(** A row of [chat_history].  [timestamp] is the [CURRENT_TIMESTAMP]
    text, held as the number of seconds it denotes: the text order of
    that format is the numeric order. *)
Record ChatHistoryItem := mkChatHistoryItem {
  id : nat;
  fileId : jsstring;
  userMessage : jsstring;
  aiResponse : jsstring;
  timestamp : N
}.

Record Store := mkStore {
  files : list FileRow;
  chat_history : list ChatHistoryItem;
  tables : list (jsstring * Table)
}.

(** The statements the modelled functions prepare. *)
Inductive Stmt : Type :=
| SelectFileById (id : jsstring)
    (** [SELECT * FROM files WHERE id = ?] *)
| DeleteFileById (id : jsstring)
    (** [DELETE FROM files WHERE id = ?] *)
| DropTableIfExists (tableName : jsstring)
    (** [DROP TABLE IF EXISTS "<tableName>"] *)
| DeleteChatHistory (fileId : jsstring)
    (** [DELETE FROM chat_history WHERE fileId = ?] *)
| SelectHistoryAsc (fileId : jsstring)
    (** [SELECT * FROM chat_history WHERE fileId = ? ORDER BY timestamp ASC] *)
| SelectHistoryDesc (fileId : jsstring) (limit offset : Z)
    (** [... ORDER BY timestamp DESC LIMIT ? OFFSET ?] *)
| CountHistory (fileId : jsstring)
    (** [SELECT COUNT( * ) as count FROM chat_history WHERE fileId = ?] *)
| TableInfo (tableName : jsstring)
    (** [PRAGMA table_info("<tableName>")] *)
| Query (sql : jsstring)
    (** a statement text built at run time by the SQL tool *).

Record Engine := mkEngine {
  (** the statements on which the engine raises (I/O error, lock, ...),
      with the message of the error *)
  raises : Stmt -> option jsstring;
  (** whether foreign keys are enforced; [chat_history.fileId] is declared
      [REFERENCES files (id) ON DELETE CASCADE] *)
  foreign_keys : bool;
  (** rows of a run-time query, or the message of the error it raises *)
  evalQuery : Store -> jsstring -> jsstring + list DatabaseRow
}.

Record Db := mkDb {
  engine : Engine;
  store : Store;
  journal : list Stmt
}.

Record DatabaseResult (R : Type) := mkDatabaseResult {
  success : bool;
  data : option (list R);
  rowCount : option nat;
  error : option jsstring;
  lastInsertRowid : option nat;
  changes : option nat
}.

Definition failed {R} (message : jsstring) : DatabaseResult R :=
  mkDatabaseResult false None None (Some message) None None.

Definition recorded (s : Stmt) (db : Db) : Db :=
  mkDb (engine db) (store db) (journal db ++ [s]).

(** [select]: [stmt.all(...params)] inside [try]/[catch]. *)
Definition select {R} (s : Stmt) (eval : Store -> jsstring + list R) (db : Db)
    : DatabaseResult R * Db :=
  match raises (engine db) s with
  | Some message => (failed message, recorded s db)
  | None =>
      match eval (store db) with
      | inl message => (failed message, recorded s db)
      | inr rows =>
          (mkDatabaseResult true (Some rows) (Some (List.length rows)) None None None,
           recorded s db)
      end
  end.

(** [selectOne]: [stmt.get(...params)], the first row if there is one. *)
Definition selectOne {R} (s : Stmt) (eval : Store -> jsstring + list R) (db : Db)
    : DatabaseResult R * Db :=
  match raises (engine db) s with
  | Some message => (failed message, recorded s db)
  | None =>
      match eval (store db) with
      | inl message => (failed message, recorded s db)
      | inr [] => (mkDatabaseResult true (Some []) (Some 0) None None None, recorded s db)
      | inr (row :: _) =>
          (mkDatabaseResult true (Some [row]) (Some 1) None None None, recorded s db)
      end
  end.

(** Table names compare without regard to ASCII case. *)
Definition sameTable (a b : jsstring) : bool :=
  jseqb (toLowerCase a) (toLowerCase b).

Definition lookupTable (tableName : jsstring) (st : Store) : option Table :=
  match find (fun e => sameTable tableName (fst e)) (tables st) with
  | Some e => Some (snd e)
  | None => None
  end.

Definition historyOf (fileId' : jsstring) (st : Store) : list ChatHistoryItem :=
  filter (fun h => jseqb (fileId h) fileId') (chat_history st).

(** The effect of a data-changing statement: the new store and the
    number of rows changed. *)
Definition applyStmt (fk : bool) (s : Stmt) (st : Store) : Store * nat :=
  match s with
  | DeleteChatHistory f =>
      (mkStore (files st)
               (filter (fun h => negb (jseqb (fileId h) f)) (chat_history st))
               (tables st),
       List.length (historyOf f st))
  | DropTableIfExists t =>
      (mkStore (files st) (chat_history st)
               (filter (fun e => negb (sameTable t (fst e))) (tables st)),
       0)
  | DeleteFileById i =>
      let gone := filter (fun r => jseqb (file_id r) i) (files st) in
      (mkStore (filter (fun r => negb (jseqb (file_id r) i)) (files st))
               (match fk, gone with
                | true, _ :: _ =>
                    filter (fun h => negb (jseqb (fileId h) i)) (chat_history st)
                | _, _ => chat_history st
                end)
               (tables st),
       List.length gone)
  | _ => (st, 0)
  end.

(** [execute]: [stmt.run(...params)] inside [try]/[catch]. *)
Definition execute (s : Stmt) (db : Db) : DatabaseResult DatabaseRow * Db :=
  match raises (engine db) s with
  | Some message => (failed message, recorded s db)
  | None =>
      let '(st', n) := applyStmt (foreign_keys (engine db)) s (store db) in
      (mkDatabaseResult true None None None None (Some n),
       mkDb (engine db) st' (journal db ++ [s]))
  end.

(** ** The meaning of the fixed [SELECT] statements *)

(** [ORDER BY timestamp]: rows with equal time stamps keep the order in
    which the table scan meets them. *)
Fixpoint insertBy (le : N -> N -> bool) (x : ChatHistoryItem)
    (l : list ChatHistoryItem) : list ChatHistoryItem :=
  match l with
  | [] => [x]
  | y :: l' =>
      if le (timestamp x) (timestamp y) then x :: l else y :: insertBy le x l'
  end.

Definition orderBy (le : N -> N -> bool) (l : list ChatHistoryItem)
    : list ChatHistoryItem :=
  fold_right (insertBy le) [] l.

(** Two rows in the order that a comparison of time stamps puts them. *)
Definition inOrder (le : N -> N -> bool) (a b : ChatHistoryItem) : Prop :=
  le (timestamp a) (timestamp b) = true.

Definition orderAsc := orderBy N.leb.
Definition orderDesc := orderBy (fun a b => N.leb b a).

(** [LIMIT l OFFSET o]: a negative offset counts as none, a negative
    limit as no limit. *)
Definition limitOffset {A} (limit offset : Z) (rows : list A) : list A :=
  let rest := skipn (Z.to_nat offset) rows in
  if (limit <? 0)%Z then rest else firstn (Z.to_nat limit) rest.

Definition filesById (i : jsstring) (st : Store) : list FileRow :=
  filter (fun r => jseqb (file_id r) i) (files st).

Definition historyAsc (f : jsstring) (st : Store) : list ChatHistoryItem :=
  orderAsc (historyOf f st).

Definition historyDesc (f : jsstring) (limit offset : Z) (st : Store)
    : list ChatHistoryItem :=
  limitOffset limit offset (orderDesc (historyOf f st)).

(** [PRAGMA table_info] yields one row per column of the named table,
    and no row, without raising, when there is no such table. *)
Definition tableInfo (tableName : jsstring) (st : Store) : list ColumnInfo :=
  match lookupTable tableName st with
  | Some t => tableColumns t
  | None => []
  end.

(** [tableExists] *)
Definition tableExists (tableName : jsstring) (st : Store) : bool :=
  match lookupTable tableName st with
  | Some _ => true
  | None => false
  end.

(** [db.select(sql)] for a statement text built at run time. *)
Definition selectQuery (sql : jsstring) (db : Db) : DatabaseResult DatabaseRow * Db :=
  select (Query sql) (fun st => evalQuery (engine db) st sql) db.

End Database.

(* ================================================================= *)
(** * Exceptions and state *)

(** A computation over a mutable state [S] that may [throw]. *)

Module Js.

Inductive Completion (A : Type) : Type :=
| Normal (a : A)
| Throw (message : jsstring).
Arguments Normal {A} a.
Arguments Throw {A} message.

Definition M (S A : Type) : Type := S -> Completion A * S.

Definition ret {S A} (a : A) : M S A := fun s => (Normal a, s).

Definition throw {S A} (message : jsstring) : M S A := fun s => (Throw message, s).

Definition bind {S A B} (m : M S A) (k : A -> M S B) : M S B :=
  fun s =>
    match m s with
    | (Normal a, s') => k a s'
    | (Throw e, s') => (Throw e, s')
    end.

(** [try { m } catch (error) { handler(error.message) }] *)
Definition tryCatch {S A} (m : M S A) (handler : jsstring -> M S A) : M S A :=
  fun s =>
    match m s with
    | (Normal a, s') => (Normal a, s')
    | (Throw e, s') => handler e s'
    end.

Definition get {S} : M S S := fun s => (Normal s, s).
Definition modify {S} (f : S -> S) : M S unit := fun s => (Normal tt, f s).

(** A call of the storage wrapper, which never throws. *)
Definition call {S A} (f : S -> A * S) : M S A :=
  fun s => let '(a, s') := f s in (Normal a, s').

(** What a run returned, what it threw, and the state it left. *)
Definition returned {S A} (run : Completion A * S) : option A :=
  match fst run with
  | Normal a => Some a
  | Throw _ => None
  end.

Definition thrown {S A} (run : Completion A * S) : option jsstring :=
  match fst run with
  | Normal _ => None
  | Throw e => Some e
  end.

End Js.

Declare Scope js_scope.
Delimit Scope js_scope with js.
Notation "x <- m ;; k" := (Js.bind m (fun x => k))
  (at level 61, m at next level, right associativity) : js_scope.
Notation "m ;;; k" := (Js.bind m (fun _ => k))
  (at level 61, right associativity) : js_scope.

(* ================================================================= *)
(** * [src/lib/chat-history.ts] *)

Module ChatHistory.

Import Database Js.
Local Open Scope js_scope.

(** [result.error] of a failed result. *)
Definition errorOf {R} (r : DatabaseResult R) : jsstring :=
  match error r with Some e => e | None => [] end.

Definition getAllChatHistory (fileId : jsstring) : M Db (list ChatHistoryItem) :=
  result <- call (select (SelectHistoryAsc fileId)
                         (fun st => inr (historyAsc fileId st))) ;;
  if negb (success result) then throw (errorOf result)
  else ret (match data result with Some rows => rows | None => [] end).

Definition clearChatHistory (fileId : jsstring) : M Db unit :=
  result <- call (execute (DeleteChatHistory fileId)) ;;
  if negb (success result) then throw (errorOf result)
  else ret tt.

(** [row?.count || 0] *)
Definition getChatHistoryCount (fileId : jsstring) : M Db nat :=
  result <- call (selectOne (CountHistory fileId)
                            (fun st => inr [List.length (historyOf fileId st)])) ;;
  if negb (success result) then throw (errorOf result)
  else ret (match data result with
            | Some (count :: _) => count
            | _ => 0
            end).

Record Page := mkPage {
  history : list ChatHistoryItem;
  totalCount : nat;
  hasMore : bool;
  currentPage : Z
}.

Definition getChatHistoryPaginated (fileId : jsstring) (page limit : Z)
    : M Db Page :=
  let offset := ((page - 1) * limit)%Z in
  historyResult <- call (select (SelectHistoryDesc fileId limit offset)
                                (fun st => inr (historyDesc fileId limit offset st))) ;;
  if negb (success historyResult) then throw (errorOf historyResult)
  else
    totalCount <- getChatHistoryCount fileId ;;
    let history :=
      rev (match data historyResult with Some rows => rows | None => [] end) in
    let hasMore := (offset + limit <? Z.of_nat totalCount)%Z in
    ret (mkPage history totalCount hasMore page).

(** Asking for the pages [1], [2], ..., [n] one after the other and
    putting their items end to end. *)
Fixpoint fetchPages (fileId : jsstring) (limit : Z) (pages : list Z)
    : M Db (list ChatHistoryItem) :=
  match pages with
  | [] => ret []
  | p :: rest =>
      pg <- getChatHistoryPaginated fileId p limit ;;
      more <- fetchPages fileId limit rest ;;
      ret (history pg ++ more)
  end.

Definition pageNumbers (n : nat) : list Z := map Z.of_nat (seq 1 n).

(** Chronological order, and its converse. *)
Definition older (a b : ChatHistoryItem) : Prop := (timestamp a <= timestamp b)%N.
Definition newer (a b : ChatHistoryItem) : Prop := (timestamp b <= timestamp a)%N.

End ChatHistory.

(* ================================================================= *)
(** * [src/lib/react-state.ts] *)

Module ReactState.

Import Js.
Local Open Scope js_scope.

Record ReActState := mkReActState {
  currentPlan : list jsstring;
  completedActions : list jsstring;
  observations : list jsstring;
  currentThought : jsstring;
  needsReplan : bool;
  errorCount : nat;
  apiCallCount : nat
}.

(** The registered callback: what it is called with decides whether it
    returns or throws (with the message given). *)
Definition Callback := jsstring -> option jsstring.

(** The module-level variables, the storage, and the messages handed to
    the callback so far. *)
Record World := mkWorld {
  db : Database.Db;
  globalReActState : ReActState;
  globalReasoningCallback : option Callback;
  emitted : list jsstring
}.

Definition setDb (d : Database.Db) (w : World) : World :=
  mkWorld d (globalReActState w) (globalReasoningCallback w) (emitted w).

(** A storage call made from the tool layer. *)
Definition onDb {A} (f : Database.Db -> A * Database.Db) : M World A :=
  fun w => let '(a, d) := f (db w) in (Normal a, setDb d w).

Definition incrementErrorCount : M World unit :=
  modify (fun w =>
    let s := globalReActState w in
    mkWorld (db w)
      (mkReActState (currentPlan s) (completedActions s) (observations s)
                    (currentThought s) (needsReplan s) (S (errorCount s))
                    (apiCallCount s))
      (globalReasoningCallback w) (emitted w)).

Definition shouldReplan : M World bool :=
  w <- get ;;
  ret (Nat.ltb 2 (errorCount (globalReActState w)) || needsReplan (globalReActState w)).

(** ** [convertToUserFriendlyMessage] *)

(** [s.replace(/.../g, rep)] for a pattern that never matches the empty
    string: [m s] is the length of the match at the head of [s]. *)
Fixpoint replaceAllFrom (skip : nat) (m : jsstring -> option nat)
    (rep : jsstring) (s : jsstring) : jsstring :=
  match s with
  | [] => []
  | c :: t =>
      match skip with
      | S k => replaceAllFrom k m rep t
      | O =>
          match m s with
          | Some (S n) => rep ++ replaceAllFrom n m rep t
          | _ => c :: replaceAllFrom 0 m rep t
          end
      end
  end.

Definition replaceAll := replaceAllFrom 0.

(** [/a|b|.../]: the first alternative that matches. *)
Fixpoint matchAlt (alts : list jsstring) (s : jsstring) : option nat :=
  match alts with
  | [] => None
  | a :: rest => if startsWith a s then Some (List.length a) else matchAlt rest s
  end.

(** [/a\s*b/] ([minWs = 0]) and [/a\s+b/] ([minWs = 1]), for [b] that
    does not begin with white space. *)
Definition matchSpaced (a : jsstring) (minWs : nat) (b : jsstring) (s : jsstring)
    : option nat :=
  if startsWith a s then
    let '(ws, rest) := Upload.span isWhiteSpace (skipn (List.length a) s) in
    if Nat.leb minWs (List.length ws) && startsWith b rest
    then Some (List.length a + List.length ws + List.length b)
    else None
  else None.

(** The words of the patterns and of the replacements. *)

(** 테이블 *)
Definition w_table : jsstring := [53580; 51060; 48660]%N.
(** 컬럼 *)
Definition w_column : jsstring := [52972; 47100]%N.
(** 스키마 *)
Definition w_schema : jsstring := [49828; 53412; 47560]%N.
(** 쿼리 *)
Definition w_query : jsstring := [53244; 47532]%N.
(** 조회 *)
Definition w_lookup : jsstring := [51312; 54924]%N.
(** 실행 *)
Definition w_run : jsstring := [49892; 54665]%N.
(** 데이터 *)
Definition w_data : jsstring := [45936; 51060; 53552]%N.
(** 분석 *)
Definition w_analysis : jsstring := [48516; 49437]%N.
(** 데이터베이스 *)
Definition w_database : jsstring := [45936; 51060; 53552; 48288; 51060; 49828]%N.
(** 정보 *)
Definition w_info : jsstring := [51221; 48372]%N.
(** 행 *)
Definition w_row : jsstring := [54665]%N.
(** 항목 *)
Definition w_item : jsstring := [54637; 47785]%N.
(** 데이터 분석 *)
Definition w_dataAnalysis : jsstring := [45936; 51060; 53552; 32; 48516; 49437]%N.
(** 필드 분석 *)
Definition w_fieldAnalysis : jsstring := [54596; 46300; 32; 48516; 49437]%N.
(** 구조 분석 *)
Definition w_structureAnalysis : jsstring := [44396; 51312; 32; 48516; 49437]%N.

(** The chain
    [.replace(/테이블\s*조회/g, '데이터 분석')]
    [.replace(/컬럼\s*조회/g, '필드 분석')]
    [.replace(/스키마\s*조회/g, '구조 분석')]
    [.replace(/SQL\s*실행/g, '데이터 분석')]
    [.replace(/쿼리\s*실행/g, '데이터 분석')]
    [.replace(/테이블|컬럼|스키마|SQL|쿼리/g, '데이터')]
    [.replace(/조회|실행/g, '분석')]
    [.replace(/데이터베이스/g, '정보')]
    [.replace(/행|row/g, '항목')]
    [.replace(/데이터\s+데이터/g, '데이터')]
    [.replace(/분석\s+분석/g, '분석')] *)
Definition convertToUserFriendlyMessage (reasoning : jsstring) : jsstring :=
  let s := replaceAll (matchSpaced w_table 0 w_lookup) w_dataAnalysis reasoning in
  let s := replaceAll (matchSpaced w_column 0 w_lookup) w_fieldAnalysis s in
  let s := replaceAll (matchSpaced w_schema 0 w_lookup) w_structureAnalysis s in
  let s := replaceAll (matchSpaced (lit "SQL") 0 w_run) w_dataAnalysis s in
  let s := replaceAll (matchSpaced w_query 0 w_run) w_dataAnalysis s in
  let s := replaceAll
             (matchAlt [w_table; w_column; w_schema; lit "SQL"; w_query])
             w_data s in
  let s := replaceAll (matchAlt [w_lookup; w_run]) w_analysis s in
  let s := replaceAll (matchAlt [w_database]) w_info s in
  let s := replaceAll (matchAlt [w_row; lit "row"]) w_item s in
  let s := replaceAll (matchSpaced w_data 1 w_data) w_data s in
  replaceAll (matchSpaced w_analysis 1 w_analysis) w_analysis s.

(** A string in a condition: [undefined] and [''] are falsy. *)
Definition truthy (s : option jsstring) : bool :=
  match s with
  | Some (_ :: _) => true
  | _ => false
  end.

(** [globalReasoningCallback(finalMessage)] *)
Definition invoke (callback : Callback) (finalMessage : jsstring) : M World unit :=
  fun w =>
    let w' := mkWorld (db w) (globalReActState w) (globalReasoningCallback w)
                      (emitted w ++ [finalMessage]) in
    match callback finalMessage with
    | Some message => (Throw message, w')
    | None => (Normal tt, w')
    end.

Definition callReasoningCallback (reasoning : jsstring) (prefix : option jsstring)
    : M World unit :=
  w <- get ;;
  match globalReasoningCallback w with
  | Some callback =>
      if truthy (Some reasoning) then
        let userFriendlyReasoning := convertToUserFriendlyMessage reasoning in
        let finalMessage :=
          if truthy prefix
          then match prefix with
               | Some p => p ++ lit " " ++ userFriendlyReasoning
               | None => userFriendlyReasoning
               end
          else userFriendlyReasoning in
        invoke callback finalMessage
      else ret tt
  | None => ret tt
  end.

End ReactState.

(* ================================================================= *)
(** * [src/lib/react-tools.ts] *)

Module ReactTools.

Import Database Js ReactState.
Local Open Scope js_scope.

Record QueryResult (R : Type) := mkQueryResult {
  q_success : bool;
  q_data : option (list R);
  q_rowCount : option nat;
  q_error : option jsstring;
  q_message : jsstring;
  q_reasoning : option jsstring;
  q_observation : option jsstring;
  q_shouldReplan : option bool
}.

Definition sqliteIncompatible : list jsstring :=
  map lit
    [ "top "; "first "; "isnull("; "charindex("; "patindex(";
      "datediff("; "concat("; "row_number()"; "over("; "pivot"; "unpivot";
      "stdev("; "stddev("; "var_pop("; "var_samp("; "variance(";
      "median("; "percentile_cont("; "percentile_disc(" ]%string.

(** 보안상 SELECT 쿼리만 허용됩니다. *)
Definition selectOnlyMessage : jsstring :=
  [48372; 50504; 49345; 32; 83; 69; 76; 69; 67; 84; 32; 53244;
    47532; 47564; 32; 54728; 50857; 46121; 45768; 45796; 46]%N.

Section CaseMapping.

(** [toLowerCase] and [toUpperCase] on the text of a query follow the
    Unicode case mapping of the engine that runs the tool.  The SQL tool
    is modelled for any pair of such functions; the examples take the
    ASCII mapping. *)
Variable toLowerCase toUpperCase : jsstring -> jsstring.

(** SQLite에서 지원하지 않는 함수입니다: <X>. 기본 집계 함수(COUNT, SUM,
    AVG, MIN, MAX)나 수식으로 대체해주세요. *)
Definition incompatibleMessage (foundIncompatible : jsstring) : jsstring :=
  [83; 81; 76; 105; 116; 101; 50640; 49436; 32; 51648; 50896;
    54616; 51648; 32; 50506; 45716; 32; 54632; 49688; 51077; 45768;
    45796; 58; 32]%N
  ++ toUpperCase foundIncompatible
  ++ [46; 32; 44592; 48376; 32; 51665; 44228; 32; 54632; 49688; 40;
    67; 79; 85; 78; 84; 44; 32; 83; 85; 77; 44; 32; 65; 86; 71; 44;
    32; 77; 73; 78; 44; 32; 77; 65; 88; 41; 45208; 32; 49688; 49885;
    51004; 47196; 32; 45824; 52404; 54644; 51452; 49464; 50836; 46]%N.

(** 현재 파일의 테이블(<tableName>)에만 접근할 수 있습니다. *)
Definition scopeMessage (tableName : jsstring) : jsstring :=
  [54788; 51116; 32; 54028; 51068; 51032; 32; 53580; 51060; 48660;
    40]%N
  ++ tableName
  ++ [41; 50640; 47564; 32; 51217; 44540; 54624; 32; 49688; 32; 51080;
    49845; 45768; 45796; 46]%N.

(** 쿼리 실행 중 오류가 발생했습니다. *)
Definition sqlFailureMessage : jsstring :=
  [53244; 47532; 32; 49892; 54665; 32; 51473; 32; 50724; 47448;
    44032; 32; 48156; 49373; 54664; 49845; 45768; 45796; 46]%N.

(** 쿼리 실행 실패 - 다른 접근 방법 필요 *)
Definition sqlFailureObservation : jsstring :=
  [53244; 47532; 32; 49892; 54665; 32; 49892; 54056; 32; 45; 32;
    45796; 47480; 32; 51217; 44540; 32; 48169; 48277; 32; 54596;
    50836]%N.

(** 쿼리 실행 완료: <n>개 항목 분석 *)
Definition sqlObservation (n : nat) : jsstring :=
  [53244; 47532; 32; 49892; 54665; 32; 50756; 47308; 58; 32]%N
  ++ decimal n
  ++ [44060; 32; 54637; 47785; 32; 48516; 49437]%N.

(** 쿼리가 성공적으로 실행되었습니다. <n>개의 행을 반환했습니다. *)
Definition sqlMessage (n : nat) : jsstring :=
  [53244; 47532; 44032; 32; 49457; 44277; 51201; 51004; 47196; 32;
    49892; 54665; 46104; 50632; 49845; 45768; 45796; 46; 32]%N
  ++ decimal n
  ++ [44060; 51032; 32; 54665; 51012; 32; 48152; 54872; 54664; 49845;
    45768; 45796; 46]%N.

Definition tableNameOf (fileId : jsstring) : jsstring := lit "data_" ++ fileId.

Definition quoted (q : N) (s : jsstring) : jsstring := [q] ++ s ++ [q].

(** [query.trim().replace(/;+$/, '')] *)
Definition cleanQueryOf (query : jsstring) : jsstring :=
  dropWhileEnd (N.eqb 59) (trim query).

Definition limitedQueryOf (query : jsstring) : jsstring :=
  let cleanQuery := cleanQueryOf query in
  if includes (lit "limit") (toLowerCase cleanQuery)
  then cleanQuery
  else cleanQuery ++ lit " LIMIT 1000".

(** The three tests of the table-name check. *)
Definition mentionsTable (tableName query : jsstring) : bool :=
  let queryLower := toLowerCase query in
  includes (toLowerCase tableName) queryLower
  || includes (toLowerCase (quoted 34 tableName)) queryLower
  || includes (toLowerCase (quoted 39 tableName)) queryLower.

(** [if (reasoning) { ReActStateManager.callReasoningCallback(reasoning); }],
    the statement both storage tools begin with. *)
Definition announce (reasoning : option jsstring) : M World unit :=
  match reasoning with
  | Some r => if truthy reasoning then callReasoningCallback r None else ret tt
  | None => ret tt
  end.

(** The query passes the three checks that precede execution. *)
Definition accepted (query fileId : jsstring) : bool :=
  startsWith (lit "select") (toLowerCase (trim query))
  && match find (fun syntax => includes syntax (toLowerCase (trim query)))
                sqliteIncompatible with
     | Some _ => false
     | None => true
     end
  && mentionsTable (tableNameOf fileId) query.

Definition executeSqlTool (query fileId : jsstring) (reasoning : option jsstring)
    : M World (QueryResult DatabaseRow) :=
  tryCatch
    (announce reasoning ;;;
     let trimmedQuery := toLowerCase (trim query) in
     if negb (startsWith (lit "select") trimmedQuery)
     then throw selectOnlyMessage
     else
       match find (fun syntax => includes syntax trimmedQuery) sqliteIncompatible with
       | Some foundIncompatible => throw (incompatibleMessage foundIncompatible)
       | None =>
           let tableName := tableNameOf fileId in
           if negb (mentionsTable tableName query)
           then throw (scopeMessage tableName)
           else
             let limitedQuery := limitedQueryOf query in
             dbResult <- onDb (selectQuery limitedQuery) ;;
             if negb (success dbResult)
             then incrementErrorCount ;;; throw (ChatHistory.errorOf dbResult)
             else
               let result := match data dbResult with Some rows => rows | None => [] end in
               let n := List.length result in
               ret (mkQueryResult true (Some result) (Some n) None (sqlMessage n)
                                  reasoning (Some (sqlObservation n)) None)
       end)
    (fun message =>
       incrementErrorCount ;;;
       replan <- shouldReplan ;;
       ret (mkQueryResult false None None (Some message) sqlFailureMessage
                          reasoning (Some sqlFailureObservation) (Some replan))).

End CaseMapping.

(** ** The notions the specification uses for queries *)

(** The maximal runs of word characters of a text. *)
Fixpoint wordsFrom (current : jsstring) (s : jsstring) : list jsstring :=
  match s with
  | [] => match current with [] => [] | _ => [rev current] end
  | c :: t =>
      if isWordChar c then wordsFrom (c :: current) t
      else match current with
           | [] => wordsFrom [] t
           | _ => rev current :: wordsFrom [] t
           end
  end.

Definition wordsOf (s : jsstring) : list jsstring := wordsFrom [] s.

(** The first keyword of a query: its first word. *)
Definition firstKeyword (query : jsstring) : jsstring :=
  match wordsOf query with
  | w :: _ => w
  | [] => []
  end.

(** A row cap is present: [LIMIT] occurs as a word of the query. *)
Definition hasRowCap (query : jsstring) : bool :=
  existsb (fun w => jseqb (JsString.toLowerCase w) (lit "limit")) (wordsOf query).

(** An entry of the formatted schema. *)
Record SchemaColumn := mkSchemaColumn {
  sc_name : jsstring;
  sc_type : jsstring;
  sc_nullable : bool;
  sc_defaultValue : option jsstring
}.

(** 데이터 구조 파악 완료: <n>개 필드 식별 *)
Definition schemaObservation (n : nat) : jsstring :=
  [45936; 51060; 53552; 32; 44396; 51312; 32; 54028; 50501; 32;
    50756; 47308; 58; 32]%N
  ++ decimal n
  ++ [44060; 32; 54596; 46300; 32; 49885; 48324]%N.

(** 테이블의 스키마 정보를 조회했습니다. 총 <n>개의 컬럼이 있습니다. *)
Definition schemaMessage (n : nat) : jsstring :=
  [53580; 51060; 48660; 51032; 32; 49828; 53412; 47560; 32; 51221;
    48372; 47484; 32; 51312; 54924; 54664; 49845; 45768; 45796; 46;
    32; 52509; 32]%N
  ++ decimal n
  ++ [44060; 51032; 32; 52972; 47100; 51060; 32; 51080; 49845; 45768;
    45796; 46]%N.

(** 테이블 스키마 조회 중 오류가 발생했습니다. *)
Definition schemaFailureMessage : jsstring :=
  [53580; 51060; 48660; 32; 49828; 53412; 47560; 32; 51312; 54924;
    32; 51473; 32; 50724; 47448; 44032; 32; 48156; 49373; 54664;
    49845; 45768; 45796; 46]%N.

(** 스키마 조회 실패 - 대안적 접근 필요 *)
Definition schemaFailureObservation : jsstring :=
  [49828; 53412; 47560; 32; 51312; 54924; 32; 49892; 54056; 32; 45;
    32; 45824; 50504; 51201; 32; 51217; 44540; 32; 54596; 50836]%N.

Definition getTableSchemaTool (fileId : jsstring) (reasoning : option jsstring)
    : M World (QueryResult SchemaColumn) :=
  tryCatch
    (announce reasoning ;;;
     let tableName := tableNameOf fileId in
     schemaResult <- onDb (select (TableInfo tableName)
                                  (fun st => inr (tableInfo tableName st))) ;;
     if negb (success schemaResult)
     then incrementErrorCount ;;; throw (ChatHistory.errorOf schemaResult)
     else
       let schema := match data schemaResult with Some rows => rows | None => [] end in
       let formattedSchema :=
         map (fun col => mkSchemaColumn (name col) (type col) (negb (notnull col))
                                        (dflt_value col)) schema in
       let n := List.length formattedSchema in
       ret (mkQueryResult true (Some formattedSchema) None None (schemaMessage n)
                          reasoning (Some (schemaObservation n)) None))
    (fun message =>
       incrementErrorCount ;;;
       replan <- shouldReplan ;;
       ret (mkQueryResult false None None (Some message) schemaFailureMessage
                          reasoning (Some schemaFailureObservation) (Some replan))).

End ReactTools.

(* ================================================================= *)
(** * [src/app/api/files/[id]/route.ts] *)

Module FilesRoute.

Import Database Js.
Local Open Scope js_scope.

(** The JSON response: the HTTP status and whether the body carries
    [success: true]; error bodies carry a message instead. *)
Record Response := mkResponse {
  status : nat;
  ok : bool;
  errorMessage : option jsstring
}.

(** 파일을 찾을 수 없습니다. *)
Definition notFoundMessage : jsstring :=
  [54028; 51068; 51012; 32; 52286; 51012; 32; 49688; 32; 50630;
    49845; 45768; 45796; 46]%N.

(** 파일 삭제 실패: <message> *)
Definition deleteFailureMessage (message : jsstring) : jsstring :=
  [54028; 51068; 32; 49325; 51228; 32; 49892; 54056; 58; 32]%N
  ++ message.

Definition DELETE (id : jsstring) : M Db Response :=
  tryCatch
    (result <- call (selectOne (SelectFileById id) (fun st => inr (filesById id st))) ;;
     if negb (success result)
        || match data result with Some (_ :: _) => false | _ => true end
     then ret (mkResponse 404 false (Some notFoundMessage))
     else
       (* 1. the conversation history; a failure is logged and passed over *)
       tryCatch (ChatHistory.clearChatHistory id) (fun _ => ret tt) ;;;
       (* 2. the data table *)
       let tableName := lit "data_" ++ id in
       dropResult <- call (execute (DropTableIfExists tableName)) ;;
       if negb (success dropResult) then throw (ChatHistory.errorOf dropResult)
       else
         (* 3. the metadata *)
         deleteResult <- call (execute (DeleteFileById id)) ;;
         if negb (success deleteResult) then throw (ChatHistory.errorOf deleteResult)
         else ret (mkResponse 200 true None))
    (fun message => ret (mkResponse 500 false (Some (deleteFailureMessage message)))).

(** The stores a deletion passes through: after the history statement
    (which may have failed and been passed over), after the table was
    dropped, after the metadata row was deleted. *)
Definition afterHistory (d : Db) (id : jsstring) : Store :=
  match raises (engine d) (DeleteChatHistory id) with
  | Some _ => store d
  | None =>
      fst (applyStmt (foreign_keys (engine d)) (DeleteChatHistory id) (store d))
  end.

Definition afterDrop (d : Db) (id : jsstring) : Store :=
  fst (applyStmt (foreign_keys (engine d))
                 (DropTableIfExists (lit "data_" ++ id)) (afterHistory d id)).

Definition afterMetadata (d : Db) (id : jsstring) : Store :=
  fst (applyStmt (foreign_keys (engine d)) (DeleteFileById id) (afterDrop d id)).

End FilesRoute.

(* ================================================================= *)
(** * A small engine and a small store *)

(** The examples below need an engine that answers.  This one
    understands [SELECT <columns> FROM <table>] with an optional
    [LIMIT <n>], yields whole rows, and raises on anything else, as the
    real engine does on a statement it cannot parse or a table it does
    not have. *)

Module Sample.

Import Database ReactState.

(** [s.split(sep)] for a one-character separator. *)
Fixpoint splitOn (sep : N) (s : jsstring) : list jsstring :=
  match s with
  | [] => [[]]
  | c :: t =>
      if N.eqb c sep then [] :: splitOn sep t
      else match splitOn sep t with
           | w :: ws => (c :: w) :: ws
           | [] => [[c]]
           end
  end.

Definition words (s : jsstring) : list jsstring :=
  filter (fun w => negb (jseqb w [])) (splitOn 32 s).

Definition keyword (k : string) (w : jsstring) : bool :=
  jseqb (lit k) (toLowerCase w).

Definition noSuchTable (t : jsstring) : jsstring := lit "no such table: " ++ t.
Definition syntaxError : jsstring := lit "syntax error".

Definition rowsOfTable (st : Store) (t : jsstring) : jsstring + list DatabaseRow :=
  match lookupTable t st with
  | Some tb => inr (tableRows tb)
  | None => inl (noSuchTable t)
  end.

Definition miniEval (st : Store) (sql : jsstring) : jsstring + list DatabaseRow :=
  match words sql with
  | [s; _; f; t] =>
      if keyword "select" s && keyword "from" f then rowsOfTable st t
      else inl syntaxError
  | [s; _; f; t; l; n] =>
      if keyword "select" s && keyword "from" f && keyword "limit" l then
        match Upload.parseInt10 n, rowsOfTable st t with
        | Some k, inr rows => inr (firstn (Z.to_nat k) rows)
        | _, inl e => inl e
        | None, _ => inl syntaxError
        end
      else inl syntaxError
  | _ => inl syntaxError
  end.

(** An engine that never fails on its own. *)
Definition healthy : Engine := mkEngine (fun _ => None) true miniEval.

(** The same engine with a fault on one statement. *)
Definition failingOn (bad : Stmt -> bool) : Engine :=
  mkEngine (fun s => if bad s then Some (lit "disk I/O error") else None)
           true miniEval.

Definition isDrop (s : Stmt) : bool :=
  match s with DropTableIfExists _ => true | _ => false end.

Definition isHistoryDelete (s : Stmt) : bool :=
  match s with DeleteChatHistory _ => true | _ => false end.

Definition column (n : nat) (nm ty : string) : ColumnInfo :=
  mkColumnInfo n (lit nm) (lit ty) false None false.

Definition rowNumber (n : Z) : DatabaseRow :=
  [(lit "amount", Upload.CellInteger n);
   (lit "credit_limit", Upload.CellInteger 100)].

Fixpoint rowsFrom (first : Z) (count : nat) : list DatabaseRow :=
  match count with
  | O => []
  | S k => rowNumber first :: rowsFrom (first + 1) k
  end.

(** A table of [n] rows. *)
Definition tableOf (n : nat) : Table :=
  mkTable [column 0 "amount" "INTEGER"; column 1 "credit_limit" "INTEGER"]
          (rowsFrom 1 n).

Definition turn (i : nat) (f : string) (t : N) : ChatHistoryItem :=
  mkChatHistoryItem i (lit f) (lit "question") (lit "answer") t.

(** Two datasets, [x] with 5000 rows and [xy] with 3, and their turns. *)
Definition sampleStore : Store :=
  mkStore
    [mkFileRow (lit "x") (lit "sales.csv") None;
     mkFileRow (lit "xy") (lit "staff.csv") None]
    [turn 1 "x" 10; turn 2 "xy" 11; turn 3 "x" 12; turn 4 "x" 12;
     turn 5 "x" 15; turn 6 "xy" 16; turn 7 "x" 20]
    [(lit "data_x", tableOf 5000); (lit "data_xy", tableOf 3)].

Definition sampleDb : Db := mkDb healthy sampleStore [].

Definition freshState : ReActState := mkReActState [] [] [] [] false 0 0.

(** A run without a registered callback, and one whose callback throws. *)
Definition sampleWorld : World := mkWorld sampleDb freshState None [].

Definition closedStream : Callback :=
  fun _ => Some (lit "Invalid state: Controller is already closed").

Definition worldWithClosedStream : World :=
  mkWorld sampleDb freshState (Some closedStream) [].

End Sample.

(* ================================================================= *)
(** * [src/lib/react-state.ts]: the plan and its progress *)

(** The remaining functions of [ReActStateManager].  They read and write
    the module-level state that [ReactState.World] holds. *)

Module ReActStateManager.

Import Js ReactState.
Local Open Scope js_scope.

(** An assignment to fields of [globalReActState]. *)
Definition update (f : ReActState -> ReActState) : M World unit :=
  modify (fun w => mkWorld (db w) (f (globalReActState w))
                           (globalReasoningCallback w) (emitted w)).

Definition setReasoningCallback (callback : option Callback) : M World unit :=
  modify (fun w => mkWorld (db w) (globalReActState w) callback (emitted w)).

Definition getReasoningCallback : M World (option Callback) :=
  w <- get ;; ret (globalReasoningCallback w).

Definition resetState : M World unit :=
  update (fun _ => mkReActState [] [] [] [] false 0 0).

(** [({ ...globalReActState })]: the fields as they are at the call. *)
Definition getState : M World ReActState :=
  w <- get ;; ret (globalReActState w).

(** [apiCallCount] and [currentThought] are not among the fields that
    [setPlan] assigns. *)
Definition setPlan (plan : list jsstring) : M World unit :=
  update (fun s =>
    mkReActState plan [] [] (currentThought s) false 0 (apiCallCount s)).

Definition addCompletedAction (action : jsstring) : M World unit :=
  update (fun s =>
    if negb (has (completedActions s) action)
    then mkReActState (currentPlan s) (completedActions s ++ [action])
                      (observations s) (currentThought s) (needsReplan s)
                      (errorCount s) (apiCallCount s)
    else s).

Definition addObservation (observation : jsstring) : M World unit :=
  update (fun s =>
    mkReActState (currentPlan s) (completedActions s)
                 (observations s ++ [observation]) (currentThought s)
                 (needsReplan s) (errorCount s) (apiCallCount s)).

Definition setCurrentThought (thought : jsstring) : M World unit :=
  update (fun s =>
    mkReActState (currentPlan s) (completedActions s) (observations s)
                 thought (needsReplan s) (errorCount s) (apiCallCount s)).

Definition setNeedsReplan (needsReplan' : bool) : M World unit :=
  update (fun s =>
    mkReActState (currentPlan s) (completedActions s) (observations s)
                 (currentThought s) needsReplan' (errorCount s)
                 (apiCallCount s)).

Definition incrementApiCallCount : M World unit :=
  update (fun s =>
    mkReActState (currentPlan s) (completedActions s) (observations s)
                 (currentThought s) (needsReplan s) (errorCount s)
                 (S (apiCallCount s))).

Section Progress.

(** [Math.round((completedSteps / totalSteps) * 100)] for [totalSteps > 0]
    is computed in double-precision arithmetic; the function of the two
    counts that it is, is a parameter here. *)
Variable roundPercent : nat -> nat -> nat.

Definition getProgress : M World nat :=
  w <- get ;;
  let totalSteps := List.length (currentPlan (globalReActState w)) in
  let completedSteps := List.length (completedActions (globalReActState w)) in
  ret (if Nat.ltb 0 totalSteps then roundPercent completedSteps totalSteps else 0).

End Progress.

Definition getRemainingPlan : M World (list jsstring) :=
  w <- get ;;
  ret (filter (fun step => negb (has (completedActions (globalReActState w)) step))
              (currentPlan (globalReActState w))).

(** Calls made one after the other, whatever each of them returns. *)
Definition afterAll {A} (calls : list (M World A)) (w : World) : World :=
  fold_left (fun w' call => snd (call w')) calls w.

End ReActStateManager.

(* ================================================================= *)
(** * [src/lib/react-tools.ts]: planning, progress, samples, reflection *)

Module AgentTools.

Import Database Js ReactState ReActStateManager ReactTools.
Local Open Scope js_scope.

(** [items.join(separator)] *)
Definition join (separator : jsstring) (items : list jsstring) : jsstring :=
  match items with
  | [] => []
  | first :: rest => first ++ flat_map (fun item => separator ++ item) rest
  end.

(** What a call of a tool adds to the error count, as the count is kept
    by the tools that ask the storage: nothing when the call succeeds, one
    when it fails before the engine was handed a statement, two when it
    fails after. *)
Definition errorsOf {R} (before after : World) (result : QueryResult R) : nat :=
  if q_success result then 0
  else if Nat.eqb (List.length (journal (db after)))
                  (List.length (journal (db before)))
       then 1 else 2.

(** ** [planActionsTool] *)

(** 분석 전략을 수립하고 있습니다. *)
Definition p_planning : jsstring :=
  [48516; 49437; 32; 51204; 47029; 51012; 32; 49688; 47549; 54616;
   44256; 32; 51080; 49845; 45768; 45796; 46]%N.

(** 데이터 구조와 스키마 분석 *)
Definition step_structure : jsstring :=
  [45936; 51060; 53552; 32; 44396; 51312; 50752; 32; 49828; 53412;
   47560; 32; 48516; 49437]%N.
(** 분포 및 빈도 분석 *)
Definition step_distribution : jsstring :=
  [48516; 54252; 32; 48143; 32; 48712; 46020; 32; 48516; 49437]%N.
(** 통계적 특성 계산 *)
Definition step_statistics : jsstring :=
  [53685; 44228; 51201; 32; 53945; 49457; 32; 44228; 49328]%N.
(** 변수 간 상관관계 분석 *)
Definition step_correlation : jsstring :=
  [48320; 49688; 32; 44036; 32; 49345; 44288; 44288; 44228; 32; 48516;
   49437]%N.
(** 연관성 패턴 탐색 *)
Definition step_association : jsstring :=
  [50672; 44288; 49457; 32; 54056; 53556; 32; 53456; 49353]%N.
(** 시간별 트렌드 분석 *)
Definition step_trend : jsstring :=
  [49884; 44036; 48324; 32; 53944; 47116; 46300; 32; 48516; 49437]%N.
(** 변화 패턴 식별 *)
Definition step_change : jsstring :=
  [48320; 54868; 32; 54056; 53556; 32; 49885; 48324]%N.
(** 이상치 탐지 및 분석 *)
Definition step_outliers : jsstring :=
  [51060; 49345; 52824; 32; 53456; 51648; 32; 48143; 32; 48516; 49437]%N.
(** 예측 모델링 및 시나리오 분석 *)
Definition step_forecast : jsstring :=
  [50696; 52769; 32; 47784; 45944; 47553; 32; 48143; 32; 49884; 45208;
   47532; 50724; 32; 48516; 49437]%N.
(** 최적화 방안 분석 *)
Definition step_optimisation : jsstring :=
  [52572; 51201; 54868; 32; 48169; 50504; 32; 48516; 49437]%N.
(** 핵심 인사이트 도출 *)
Definition step_insights : jsstring :=
  [54645; 49900; 32; 51064; 49324; 51060; 53944; 32; 46020; 52636]%N.
(** 비즈니스 임플리케이션 분석 *)
Definition step_implications : jsstring :=
  [48708; 51592; 45768; 49828; 32; 51076; 54540; 47532; 52992; 51060;
   49496; 32; 48516; 49437]%N.
(** 분석 기반 권장사항 제시 *)
Definition step_recommendations : jsstring :=
  [48516; 49437; 32; 44592; 48152; 32; 44428; 51109; 49324; 54637; 32;
   51228; 49884]%N.

(** 분포 *)
Definition k_distribution : jsstring :=
  [48516; 54252]%N.
(** 빈도 *)
Definition k_frequency : jsstring :=
  [48712; 46020]%N.
(** 상관관계 *)
Definition k_correlation : jsstring :=
  [49345; 44288; 44288; 44228]%N.
(** 관계 *)
Definition k_relation : jsstring :=
  [44288; 44228]%N.
(** 트렌드 *)
Definition k_trend : jsstring :=
  [53944; 47116; 46300]%N.
(** 변화 *)
Definition k_change : jsstring :=
  [48320; 54868]%N.
(** 이상 *)
Definition k_anomaly : jsstring :=
  [51060; 49345]%N.
(** 특이 *)
Definition k_peculiar : jsstring :=
  [53945; 51060]%N.
(** 예측 *)
Definition k_forecast : jsstring :=
  [50696; 52769]%N.
(** 미래 *)
Definition k_future : jsstring :=
  [48120; 47000]%N.
(** 최적화 *)
Definition k_optimisation : jsstring :=
  [52572; 51201; 54868]%N.
(** 개선 *)
Definition k_improvement : jsstring :=
  [44060; 49440]%N.

(** An entry of the data of the planning result. *)
Record PlanStep := mkPlanStep {
  step : jsstring;
  index : nat
}.

(** [planSteps.map((step, index) => ({ step, index: index + 1 }))] *)
Definition numbered (planSteps : list jsstring) : list PlanStep :=
  map (fun p => mkPlanStep (fst p) (snd p))
      (combine planSteps (seq 1 (List.length planSteps))).

(** 계획된 단계: <steps joined by ' → '> *)
Definition planObservation (planSteps : list jsstring) : jsstring :=
  [44228; 54925; 46108; 32; 45800; 44228; 58; 32]%N
  ++ join [32; 8594; 32]%N planSteps.

(** <n>단계 분석 계획을 수립했습니다. *)
Definition planMessage (n : nat) : jsstring :=
  decimal n
  ++ [45800; 44228; 32; 48516; 49437; 32; 44228; 54925; 51012; 32;
      49688; 47549; 54664; 49845; 45768; 45796; 46]%N.

(** 분석 계획 수립 중 오류가 발생했습니다. *)
Definition planFailureMessage : jsstring :=
  [48516; 49437; 32; 44228; 54925; 32; 49688; 47549; 32; 51473; 32;
   50724; 47448; 44032; 32; 48156; 49373; 54664; 49845; 45768; 45796;
   46]%N.

Section CaseMapping.

(** As in the SQL tool, [toLowerCase] is that of the engine that runs
    the tools. *)
Variable toLowerCase : jsstring -> jsstring.

(** The steps pushed onto [planSteps], in the order of the source. *)
Definition planStepsOf (question : jsstring) : list jsstring :=
  let planSteps := [step_structure] in
  let questionLower := toLowerCase question in
  let planSteps :=
    if includes k_distribution questionLower || includes k_frequency questionLower
    then planSteps ++ [step_distribution; step_statistics] else planSteps in
  let planSteps :=
    if includes k_correlation questionLower || includes k_relation questionLower
    then planSteps ++ [step_correlation; step_association] else planSteps in
  let planSteps :=
    if includes k_trend questionLower || includes k_change questionLower
    then planSteps ++ [step_trend; step_change] else planSteps in
  let planSteps :=
    if includes k_anomaly questionLower || includes k_peculiar questionLower
    then planSteps ++ [step_outliers] else planSteps in
  let planSteps :=
    if includes k_forecast questionLower || includes k_future questionLower
    then planSteps ++ [step_forecast] else planSteps in
  let planSteps :=
    if includes k_optimisation questionLower || includes k_improvement questionLower
    then planSteps ++ [step_optimisation] else planSteps in
  planSteps ++ [step_insights; step_implications; step_recommendations].

Definition planActionsTool (question context reasoning : jsstring)
    : M World (QueryResult PlanStep) :=
  tryCatch
    (callReasoningCallback reasoning (Some p_planning) ;;;
     let planSteps := planStepsOf question in
     setPlan planSteps ;;;
     setCurrentThought reasoning ;;;
     let observation := planObservation planSteps in
     ret (mkQueryResult true (Some (numbered planSteps)) None None
                        (planMessage (List.length planSteps))
                        (Some reasoning) (Some observation) None))
    (fun message =>
       ret (mkQueryResult false None None (Some message) planFailureMessage
                          (Some reasoning) None None)).

End CaseMapping.

(** ** [trackProgressTool] *)

(** 진행 상황을 점검하고 있습니다. *)
Definition p_tracking : jsstring :=
  [51652; 54665; 32; 49345; 54889; 51012; 32; 51216; 44160; 54616;
   44256; 32; 51080; 49845; 45768; 45796; 46]%N.
(** 오류 *)
Definition w_error : jsstring :=
  [50724; 47448]%N.
(** 실패 *)
Definition w_failure : jsstring :=
  [49892; 54056]%N.
(** 진행 상황 추적 중 오류가 발생했습니다. *)
Definition trackFailureMessage : jsstring :=
  [51652; 54665; 32; 49345; 54889; 32; 52628; 51201; 32; 51473; 32;
   50724; 47448; 44032; 32; 48156; 49373; 54664; 49845; 45768; 45796;
   46]%N.

Record ProgressData := mkProgressData {
  completed : list jsstring;
  remaining : list jsstring;
  progress : nat;
  pd_observations : list jsstring
}.

(** 현재까지 관찰: <observations joined by ', '> *)
Definition trackObservation (observations : list jsstring) : jsstring :=
  [54788; 51116; 44620; 51648; 32; 44288; 52272; 58; 32]%N
  ++ join (lit ", ") observations.

(** 분석 진행률: <p>% (<c>/<t> 단계 완료) *)
Definition trackMessage (progressPercentage c t : nat) : jsstring :=
  [48516; 49437; 32; 51652; 54665; 47456; 58; 32]%N
  ++ decimal progressPercentage ++ lit "% (" ++ decimal c ++ lit "/" ++ decimal t
  ++ [32; 45800; 44228; 32; 50756; 47308; 41]%N.

Section Progress.

Variable roundPercent : nat -> nat -> nat.

Definition trackProgressTool (currentAction result reasoning : jsstring)
    : M World (QueryResult ProgressData) :=
  tryCatch
    (callReasoningCallback reasoning (Some p_tracking) ;;;
     addCompletedAction currentAction ;;;
     addObservation result ;;;
     remainingPlan <- getRemainingPlan ;;
     progressPercentage <- getProgress roundPercent ;;
     state <- getState ;;
     replan <- shouldReplan ;;
     let needsReplan := replan || includes w_error result || includes w_failure result in
     setNeedsReplan needsReplan ;;;
     setCurrentThought reasoning ;;;
     let observation := trackObservation (observations state) in
     let progressData :=
       mkProgressData (completedActions state) remainingPlan progressPercentage
                      (observations state) in
     ret (mkQueryResult true (Some [progressData]) None None
            (trackMessage progressPercentage
                          (List.length (completedActions state))
                          (List.length (currentPlan state)))
            (Some reasoning) (Some observation) (Some needsReplan)))
    (fun message =>
       incrementErrorCount ;;;
       ret (mkQueryResult false None None (Some message) trackFailureMessage
                          (Some reasoning) None (Some true))).

End Progress.

(** ** [getSampleDataTool] *)







(** ** [reflectOnResultsTool] *)

(** 분석 결과를 검토하고 있습니다. *)
Definition p_reviewing : jsstring :=
  [48516; 49437; 32; 44208; 44284; 47484; 32; 44160; 53664; 54616;
   44256; 32; 51080; 49845; 45768; 45796; 46]%N.
(** 개의 행 *)
Definition w_rowsOf : jsstring :=
  [44060; 51032; 32; 54665]%N.
(** 인사이트 *)
Definition w_insight : jsstring :=
  [51064; 49324; 51060; 53944]%N.
(** 패턴 *)
Definition w_pattern : jsstring :=
  [54056; 53556]%N.
(** 트렌드 *)
Definition w_trendWord : jsstring :=
  [53944; 47116; 46300]%N.
(** 권장 *)
Definition w_recommend : jsstring :=
  [44428; 51109]%N.
(** 제안 *)
Definition w_suggest : jsstring :=
  [51228; 50504]%N.
(** 개선 *)
Definition w_improve : jsstring :=
  [44060; 49440]%N.
(** 결론 *)
Definition w_conclusion : jsstring :=
  [44208; 47200]%N.

(** 이전 결과에 오류가 있습니다. 다른 접근 방법을 시도해야 합니다. *)
Definition reflectErrorMessage : jsstring :=
  [51060; 51204; 32; 44208; 44284; 50640; 32; 50724; 47448; 44032; 32;
   51080; 49845; 45768; 45796; 46; 32; 45796; 47480; 32; 51217; 44540;
   32; 48169; 48277; 51012; 32; 49884; 46020; 54644; 50556; 32; 54633;
   45768; 45796; 46]%N.
(** 현재 결과가 불충분합니다. 더 자세한 분석이 필요합니다. *)
Definition reflectInsufficientMessage : jsstring :=
  [54788; 51116; 32; 44208; 44284; 44032; 32; 48520; 52649; 48516;
   54633; 45768; 45796; 46; 32; 45908; 32; 51088; 49464; 54620; 32;
   48516; 49437; 51060; 32; 54596; 50836; 54633; 45768; 45796; 46]%N.
(** 결과가 사용자의 질문에 적절히 답변하고 충분한 인사이트를 제공하고 있습니다. *)
Definition reflectAdequateMessage : jsstring :=
  [44208; 44284; 44032; 32; 49324; 50857; 51088; 51032; 32; 51656;
   47928; 50640; 32; 51201; 51208; 55176; 32; 45813; 48320; 54616; 44256;
   32; 52649; 48516; 54620; 32; 51064; 49324; 51060; 53944; 47484; 32;
   51228; 44277; 54616; 44256; 32; 51080; 49845; 45768; 45796; 46]%N.
(** 결과를 검토한 결과, 추가 분석이 도움이 될 것 같습니다. *)
Definition reflectMoreMessage : jsstring :=
  [44208; 44284; 47484; 32; 44160; 53664; 54620; 32; 44208; 44284; 44;
   32; 52628; 44032; 32; 48516; 49437; 51060; 32; 46020; 50880; 51060;
   32; 46112; 32; 44163; 32; 44057; 49845; 45768; 45796; 46]%N.
(** 결과 반성 중 오류가 발생했습니다. *)
Definition reflectFailureMessage : jsstring :=
  [44208; 44284; 32; 48152; 49457; 32; 51473; 32; 50724; 47448; 44032;
   32; 48156; 49373; 54664; 49845; 45768; 45796; 46]%N.

(** 반성 결과: <message> *)
Definition reflectObservation (reflectionMessage : jsstring) : jsstring :=
  [48152; 49457; 32; 44208; 44284; 58; 32]%N
  ++ reflectionMessage.

Record Reflection := mkReflection {
  hasData : bool;
  hasError : bool;
  answersQuestion : bool;
  hasInsights : bool;
  hasRecommendations : bool;
  needsMoreAnalysis : bool
}.

(** [s.split(' ')[0]]: the text before the first space. *)
Definition firstOfSplit (s : jsstring) : jsstring :=
  fst (Upload.span (fun c => negb (N.eqb c 32)) s).

Section Reflecting.

Variable toLowerCase : jsstring -> jsstring.

Definition reflectionOf (results question : jsstring) : Reflection :=
  mkReflection
    (includes w_rowsOf results || includes w_data results
     || includes w_item results)
    (includes w_error results || includes w_failure results
     || includes (lit "ERROR") results)
    (includes (firstOfSplit (toLowerCase question)) (toLowerCase results))
    (includes w_insight results || includes w_pattern results
     || includes w_trendWord results)
    (includes w_recommend results || includes w_suggest results
     || includes w_improve results)
    (Nat.ltb (List.length results) 200 || negb (includes w_conclusion results)).

Definition reflectOnResultsTool (results question reasoning : jsstring)
    : M World (QueryResult Reflection) :=
  tryCatch
    (callReasoningCallback reasoning (Some p_reviewing) ;;;
     let reflection := reflectionOf results question in
     verdict <-
       (if hasError reflection
        then setNeedsReplan true ;;; ret (reflectErrorMessage, true)
        else if needsMoreAnalysis reflection
        then ret (reflectInsufficientMessage, true)
        else if hasData reflection && answersQuestion reflection
                && hasInsights reflection
        then ret (reflectAdequateMessage, false)
        else ret (reflectMoreMessage, true)) ;;
     let '(reflectionMessage, shouldContinue) := verdict in
     let observation := reflectObservation reflectionMessage in
     ret (mkQueryResult true (Some [reflection]) None None reflectionMessage
                        (Some reasoning) (Some observation) (Some shouldContinue)))
    (fun message =>
       ret (mkQueryResult false None None (Some message) reflectFailureMessage
                          (Some reasoning) None None)).

End Reflecting.

(** ** [summarizeFindingsTool] *)

(** 모든 발견사항을 종합하고 있습니다. *)
Definition p_summarising : jsstring :=
  [47784; 46304; 32; 48156; 44204; 49324; 54637; 51012; 32; 51333;
   54633; 54616; 44256; 32; 51080; 49845; 45768; 45796; 46]%N.
(** 중요 *)
Definition w_important : jsstring :=
  [51473; 50836]%N.
(** 주요 *)
Definition w_major : jsstring :=
  [51452; 50836]%N.
(** 핵심 *)
Definition w_core : jsstring :=
  [54645; 49900]%N.
(** 발견 *)
Definition w_finding : jsstring :=
  [48156; 44204]%N.
(** 개 *)
Definition w_count : jsstring :=
  [44060]%N.
(** 건 *)
Definition w_cases : jsstring :=
  [44148]%N.
(** 증가 *)
Definition w_increase : jsstring :=
  [51613; 44032]%N.
(** 감소 *)
Definition w_decrease : jsstring :=
  [44048; 49548]%N.
(** 비율 *)
Definition w_ratio : jsstring :=
  [48708; 50984]%N.
(** 따라서 *)
Definition w_therefore : jsstring :=
  [46384; 46972; 49436]%N.
(** 결과적으로 *)
Definition w_consequently : jsstring :=
  [44208; 44284; 51201; 51004; 47196]%N.
(** 통계 *)
Definition w_statistics : jsstring :=
  [53685; 44228]%N.
(** 발견사항 요약 중 오류가 발생했습니다. *)
Definition summaryFailureMessage : jsstring :=
  [48156; 44204; 49324; 54637; 32; 50836; 50557; 32; 51473; 32; 50724;
   47448; 44032; 32; 48156; 49373; 54664; 49845; 45768; 45796; 46]%N.

Record Summary := mkSummary {
  totalFindings : nat;
  keyInsights : list jsstring;
  dataPoints : list jsstring;
  conclusions : list jsstring;
  qualityScore : nat
}.

Definition summaryOf (findings : list jsstring) : Summary :=
  mkSummary
    (List.length findings)
    (filter (fun f => includes w_important f || includes w_major f
                      || includes w_core f || includes w_insight f
                      || includes w_finding f) findings)
    (filter (fun f => includes w_count f || includes w_cases f
                      || includes (lit "%") f || includes w_increase f
                      || includes w_decrease f || includes w_ratio f) findings)
    (filter (fun f => includes w_conclusion f || includes w_therefore f
                      || includes w_consequently f || includes w_recommend f
                      || includes w_suggest f) findings)
    (Nat.min 100
       (List.length findings * 10
        + List.length (filter (fun f => includes w_statistics f) findings) * 5
        + List.length (filter (fun f => includes w_analysis f) findings) * 3)).

(** The template of the summary, a heading (with the two code units of
    the chart emoji), five counted lines and a closing sentence that quotes
    the question, trimmed. *)
Definition summaryMessage (summary : Summary) (question : jsstring) : jsstring :=
  trim
    ([10; 35; 35; 32; 55357; 56522; 32; 82; 101; 65; 99; 116; 32; 48516;
      49437; 32; 44208; 44284; 32; 51333; 54633; 10; 45; 32; 42; 42;
      52509; 32; 48156; 44204; 49324; 54637; 42; 42; 58; 32]%N
     ++ decimal (totalFindings summary)
     ++ [44060; 10; 45; 32; 42; 42; 51452; 50836; 32; 51064; 49324;
         51060; 53944; 42; 42; 58; 32]%N
     ++ decimal (List.length (keyInsights summary))
     ++ [44060; 10; 45; 32; 42; 42; 45936; 51060; 53552; 32; 54252;
         51064; 53944; 42; 42; 58; 32]%N
     ++ decimal (List.length (dataPoints summary))
     ++ [44060; 10; 45; 32; 42; 42; 44208; 47200; 32; 48143; 32; 44428;
         51109; 49324; 54637; 42; 42; 58; 32]%N
     ++ decimal (List.length (conclusions summary))
     ++ [44060; 10; 45; 32; 42; 42; 48516; 49437; 32; 54408; 51656; 32;
         51216; 49688; 42; 42; 58; 32]%N
     ++ decimal (qualityScore summary)
     ++ [47; 49; 48; 48; 10; 10; 49324; 50857; 51088; 32; 51656; 47928;
         32]%N
     ++ [34%N] ++ question ++ [34%N]
     ++ [50640; 32; 45824; 54620; 32; 51333; 54633; 51201; 51064; 32;
         82; 101; 65; 99; 116; 32; 44592; 48152; 32; 48516; 49437; 51060;
         32; 50756; 47308; 46104; 50632; 49845; 45768; 45796; 46; 10; 32;
         32; 32; 32; 32; 32]%N).

(** 요약 완료: <n>개 발견사항을 <q>점 품질로 정리 *)
Definition summaryObservation (summary : Summary) : jsstring :=
  [50836; 50557; 32; 50756; 47308; 58; 32]%N
  ++ decimal (totalFindings summary)
  ++ [44060; 32; 48156; 44204; 49324; 54637; 51012; 32]%N
  ++ decimal (qualityScore summary)
  ++ [51216; 32; 54408; 51656; 47196; 32; 51221; 47532]%N.

Definition summarizeFindingsTool (findings : list jsstring)
    (question reasoning : jsstring) : M World (QueryResult Summary) :=
  tryCatch
    (callReasoningCallback reasoning (Some p_summarising) ;;;
     let summary := summaryOf findings in
     ret (mkQueryResult true (Some [summary]) None None
                        (summaryMessage summary question)
                        (Some reasoning) (Some (summaryObservation summary)) None))
    (fun message =>
       ret (mkQueryResult false None None (Some message) summaryFailureMessage
                          (Some reasoning) None None)).

End AgentTools.

(* ================================================================= *)
(** * [src/lib/database.ts]: statements with an effect of their own *)

Module DatabaseManager.

Import Database Js.

(** [execute] for a statement whose effect on the store is [effect]: the
    new store, the row id of the insert if the statement is one, and the
    number of rows changed, or the message of the error that the engine
    raises instead. *)
Definition executeWith (s : Stmt)
    (effect : Store -> jsstring + (Store * option nat * nat)) (db : Db)
    : DatabaseResult DatabaseRow * Db :=
  match raises (engine db) s with
  | Some message => (failed message, recorded s db)
  | None =>
      match effect (store db) with
      | inl message => (failed message, recorded s db)
      | inr (st', rowid, n) =>
          (mkDatabaseResult true None None None rowid (Some n),
           mkDb (engine db) st' (journal db ++ [s]))
      end
  end.

(** A JavaScript number is bound to a parameter as a 64-bit integer when
    it is an integer that fits one; [LIMIT] and [OFFSET] refuse any other
    value, [NaN] among them. *)
Definition fitsInteger (n : Z) : bool :=
  ((- 2 ^ 63 <=? n) && (n <? 2 ^ 63))%Z.

Definition datatypeMismatch : jsstring := lit "datatype mismatch".

Record TransactionResult (A : Type) := mkTransactionResult {
  t_success : bool;
  t_result : option A;
  t_error : option jsstring
}.

(** [transaction(callback)]: the callback runs inside a transaction of
    the engine; when it throws, the engine undoes what the statements of
    the callback did to the store, and the wrapper reports the failure
    instead of throwing. *)
Definition transaction {A} (callback : M Db A) (db : Db)
    : TransactionResult A * Db :=
  match callback db with
  | (Normal result, db') => (mkTransactionResult true (Some result) None, db')
  | (Throw message, db') =>
      (mkTransactionResult false None (Some message),
       mkDb (engine db') (store db) (journal db'))
  end.

End DatabaseManager.

(* ================================================================= *)
(** * [src/lib/chat-history.ts]: saving turns, the context window *)

Module Conversation.

Import Database Js ChatHistory DatabaseManager.
Local Open Scope js_scope.

(** [process.env.CHAT_CONTEXT_LIMIT], a string when it is set;
    [limit ? parseInt(limit, 10) : 3], where [None] is [NaN]. *)
Definition getChatContextLimit (CHAT_CONTEXT_LIMIT : option jsstring) : option Z :=
  match CHAT_CONTEXT_LIMIT with
  | Some (c :: limit) => Upload.parseInt10 (c :: limit)
  | _ => Some 3%Z
  end.

(** [INSERT INTO chat_history (fileId, userMessage, aiResponse) VALUES (?, ?, ?)] *)
Definition insertTurnSql : jsstring :=
  lit "INSERT INTO chat_history (fileId, userMessage, aiResponse) VALUES (?, ?, ?)".

(** What the engine fills in for a new turn: the next value of the
    [AUTOINCREMENT] key and the [CURRENT_TIMESTAMP] default. *)
Record Assigned := mkAssigned {
  rowid : nat;
  now : N
}.

(** The effect of the insert.  [fileId] is declared
    [REFERENCES files (id)]: with foreign keys enforced, a turn for a
    dataset that is not registered is refused. *)
Definition insertTurn (assigned : Assigned) (fk : bool)
    (fileId' userMessage' aiResponse' : jsstring) (st : Store)
    : jsstring + (Store * option nat * nat) :=
  if fk && negb (existsb (fun r => jseqb (file_id r) fileId') (files st))
  then inl (lit "FOREIGN KEY constraint failed")
  else inr (mkStore (files st)
                    (chat_history st
                     ++ [mkChatHistoryItem (rowid assigned) fileId' userMessage'
                                           aiResponse' (now assigned)])
                    (tables st),
            Some (rowid assigned), 1).

Definition saveChatHistory (assigned : Assigned)
    (fileId userMessage aiResponse : jsstring) : M Db unit :=
  result <- call (fun db =>
              executeWith (Query insertTurnSql)
                (insertTurn assigned (foreign_keys (engine db))
                            fileId userMessage aiResponse) db) ;;
  if negb (success result) then throw (errorOf result)
  else ret tt.

(** [SELECT * FROM chat_history WHERE fileId = ? ORDER BY timestamp DESC LIMIT ?] *)
Definition recentTurnsSql : jsstring :=
  lit "SELECT * FROM chat_history WHERE fileId = ? ORDER BY timestamp DESC LIMIT ?".

Definition recentTurns (fileId : jsstring) (limit : option Z) (st : Store)
    : jsstring + list ChatHistoryItem :=
  match limit with
  | Some l =>
      if fitsInteger l then inr (historyDesc fileId l 0 st)
      else inl datatypeMismatch
  | None => inl datatypeMismatch
  end.

Definition getRecentChatHistory (CHAT_CONTEXT_LIMIT : option jsstring)
    (fileId : jsstring) : M Db (list ChatHistoryItem) :=
  let limit := getChatContextLimit CHAT_CONTEXT_LIMIT in
  result <- call (select (Query recentTurnsSql) (recentTurns fileId limit)) ;;
  if negb (success result) then throw (errorOf result)
  else
    let history :=
      rev (match data result with Some rows => rows | None => [] end) in
    ret history.

(** One entry of the context: a numbered heading, the user's message,
    the answer. *)
Definition contextLine (index : nat) (item : ChatHistoryItem) : jsstring :=
  [91; 51060; 51204; 32; 45824; 54868; 32]%N
  ++ decimal (index + 1)
  ++ [93; 10; 49324; 50857; 51088; 58; 32]%N
  ++ userMessage item
  ++ [10; 65; 73; 58; 32]%N
  ++ aiResponse item.

(** [history.map((item, index) => ...)] *)
Definition contextLines (history : list ChatHistoryItem) : list jsstring :=
  map (fun p => contextLine (fst p) (snd p))
      (combine (seq 0 (List.length history)) history).

Definition formatHistoryAsContext (history : list ChatHistoryItem) : jsstring :=
  match history with
  | [] => []
  | _ =>
      [51060; 51204; 32; 45824; 54868; 32; 52968; 53581; 49828; 53944;
       58; 10]%N
      ++ AgentTools.join [10; 10]%N (contextLines history)
      ++ [10; 10; 45; 45; 45; 10; 10]%N
  end.

End Conversation.

(* ================================================================= *)
(** * [src/app/api/chat-history/route.ts] *)

Module HistoryRoute.

Import Database Js ChatHistory Conversation.
Local Open Scope js_scope.

(** The JSON responses of the two handlers. *)
Inductive Response : Type :=
| BadRequest (error : jsstring)
    (** status 400 *)
| Listing (history : list ChatHistoryItem) (count totalCount : nat)
          (hasMore : option bool) (currentPage : option Z) (isPartial : bool)
    (** status 200 of [GET] *)
| Cleared (message : jsstring)
    (** status 200 of [DELETE] *)
| ServerError (error : jsstring)
    (** status 500 *).

(** fileId 파라미터가 필요합니다. *)
Definition fileIdParameterMessage : jsstring :=
  [102; 105; 108; 101; 73; 100; 32; 54028; 46972; 48120; 53552; 44032;
   32; 54596; 50836; 54633; 45768; 45796; 46]%N.
(** fileId가 필요합니다. *)
Definition fileIdNeededMessage : jsstring :=
  [102; 105; 108; 101; 73; 100; 44032; 32; 54596; 50836; 54633; 45768;
   45796; 46]%N.

(** 히스토리 조회 실패: <message> *)
Definition lookupFailureMessage (message : jsstring) : jsstring :=
  [55176; 49828; 53664; 47532; 32; 51312; 54924; 32; 49892; 54056; 58;
   32]%N
  ++ message.

(** 히스토리 삭제 실패: <message> *)
Definition clearFailureMessage (message : jsstring) : jsstring :=
  [55176; 49828; 53664; 47532; 32; 49325; 51228; 32; 49892; 54056; 58;
   32]%N
  ++ message.

(** 파일 <fileId>의 채팅 히스토리가 삭제되었습니다. *)
Definition clearedMessage (fileId : jsstring) : jsstring :=
  [54028; 51068; 32]%N
  ++ fileId
  ++ [51032; 32; 52292; 54021; 32; 55176; 49828; 53664; 47532; 44032;
      32; 49325; 51228; 46104; 50632; 49845; 45768; 45796; 46]%N.

(** [parseInt(searchParams.get(name) || fallback, 10)] *)
Definition numberParameter (given : option jsstring) (fallback : jsstring)
    : option Z :=
  match given with
  | Some (c :: text) => Upload.parseInt10 (c :: text)
  | _ => Upload.parseInt10 fallback
  end.

(** [getChatHistoryPaginated] called with a page or a limit that is
    [NaN]: the offset or the limit bound to the statement is [NaN], which
    the engine refuses. *)
Definition paginatedWithNaN : M Db Page :=
  historyResult <-
    call (select (R := ChatHistoryItem)
            (Query (lit "SELECT * FROM chat_history WHERE fileId = ? ORDER BY timestamp DESC LIMIT ? OFFSET ?"))
            (fun _ => inl DatabaseManager.datatypeMismatch)) ;;
  throw (errorOf historyResult).

(** The query parameters are those of the request URL, [None] when absent;
    [env] is [process.env.CHAT_CONTEXT_LIMIT]. *)
Definition GET (env : option jsstring) (fileId all page limit : option jsstring)
    : M Db Response :=
  tryCatch
    (let all := match all with Some a => jseqb a (lit "true") | None => false end in
     let page := numberParameter page (lit "1") in
     let limit := numberParameter limit (lit "10") in
     match fileId with
     | Some (c :: f) =>
         let fileId := c :: f in
         if all then
           history <- getAllChatHistory fileId ;;
           totalCount <- getChatHistoryCount fileId ;;
           ret (Listing history (List.length history) totalCount None None false)
         else if match page with Some p => (1 <? p)%Z | None => false end
                 || match limit with Some l => negb (l =? 10)%Z | None => true end
         then
           result <- match page, limit with
                     | Some p, Some l => getChatHistoryPaginated fileId p l
                     | _, _ => paginatedWithNaN
                     end ;;
           ret (Listing (ChatHistory.history result)
                        (List.length (ChatHistory.history result))
                        (ChatHistory.totalCount result)
                        (Some (ChatHistory.hasMore result))
                        (Some (ChatHistory.currentPage result)) true)
         else
           history <- getRecentChatHistory env fileId ;;
           totalCount <- getChatHistoryCount fileId ;;
           ret (Listing history (List.length history) totalCount None None
                        (Nat.ltb (List.length history) totalCount))
     | _ => ret (BadRequest fileIdParameterMessage)
     end)
    (fun message => ret (ServerError (lookupFailureMessage message))).

(** [fileId] is the member of that name of the request body, a string
    when there is one. *)
Definition DELETE (fileId : option jsstring) : M Db Response :=
  tryCatch
    (match fileId with
     | Some (c :: f) =>
         clearChatHistory (c :: f) ;;;
         ret (Cleared (clearedMessage (c :: f)))
     | _ => ret (BadRequest fileIdNeededMessage)
     end)
    (fun message => ret (ServerError (clearFailureMessage message))).

End HistoryRoute.

(* ================================================================= *)
(** * [src/app/api/files/[id]/route.ts]: renaming a dataset *)

Module FileTitleRoute.

Import Database Js DatabaseManager.
Local Open Scope js_scope.

Inductive Response : Type :=
| Invalid (error : jsstring)
    (** status 400 *)
| Renamed (message displayName : jsstring)
    (** status 200 *)
| Failed (error : jsstring)
    (** status 500 *).

(** 유효한 제목을 입력해주세요. *)
Definition invalidTitleMessage : jsstring :=
  [50976; 54952; 54620; 32; 51228; 47785; 51012; 32; 51077; 47141;
   54644; 51452; 49464; 50836; 46]%N.
(** 파일 제목이 수정되었습니다. *)
Definition renamedMessage : jsstring :=
  [54028; 51068; 32; 51228; 47785; 51060; 32; 49688; 51221; 46104;
   50632; 49845; 45768; 45796; 46]%N.

(** 파일 제목 수정 실패: <message> *)
Definition renameFailureMessage (message : jsstring) : jsstring :=
  [54028; 51068; 32; 51228; 47785; 32; 49688; 51221; 32; 49892; 54056;
   58; 32]%N
  ++ message.

(** [UPDATE files SET displayName = ? WHERE id = ?] *)
Definition updateTitleSql : jsstring :=
  lit "UPDATE files SET displayName = ? WHERE id = ?".

Definition updateTitle (displayName id : jsstring) (st : Store)
    : jsstring + (Store * option nat * nat) :=
  inr (mkStore
         (map (fun r => if jseqb (file_id r) id
                        then mkFileRow (file_id r) (file_name r) (Some displayName)
                        else r)
              (files st))
         (chat_history st) (tables st),
       None, List.length (filesById id st)).

(** [displayName] is the member of that name of the request body. *)
Definition PUT (id : jsstring) (displayName : Upload.JsValue) : M Db Response :=
  tryCatch
    (match displayName with
     | Upload.JString (c :: text) =>
         let displayName := c :: text in
         updateResult <- call (executeWith (Query updateTitleSql)
                                           (updateTitle (trim displayName) id)) ;;
         if negb (success updateResult) then throw (ChatHistory.errorOf updateResult)
         else if match changes updateResult with Some 0 => true | _ => false end
         then throw FilesRoute.notFoundMessage
         else ret (Renamed renamedMessage (trim displayName))
     | _ => ret (Invalid invalidTitleMessage)
     end)
    (fun message => ret (Failed (renameFailureMessage message))).

End FileTitleRoute.

(* ================================================================= *)
(** * [src/app/api/files/upload/route.ts]: the load transaction *)

Module BulkLoad.

Import Database Js DatabaseManager Upload.
Local Open Scope js_scope.

(** A parsed row is a JavaScript object read by key; a missing key reads
    as [undefined]. *)
Definition Row := jsstring -> JsValue.

Definition rowOf (cells : list (jsstring * JsValue)) : Row :=
  fun col =>
    match find (fun cell => jseqb (fst cell) col) cells with
    | Some cell => snd cell
    | None => JUndefined
    end.

(** [transactionResult.error] of a failed transaction. *)
Definition transactionError {A} (r : TransactionResult A) : jsstring :=
  match t_error r with Some e => e | None => [] end.

(** [INSERT INTO "<tableName>" (<columns>) VALUES (?, ...)] *)
Definition insertQuery (tableName : jsstring) (normalizedColumns : list jsstring)
    : jsstring :=
  let placeholders :=
    AgentTools.join (lit ", ") (map (fun _ => lit "?") normalizedColumns) in
  lit "INSERT INTO " ++ ReactTools.quoted 34 tableName ++ lit " ("
  ++ AgentTools.join (lit ", ") (map (ReactTools.quoted 34) normalizedColumns)
  ++ lit ") VALUES (" ++ placeholders ++ lit ")".

Section WithEngine.

Variable dateParse : jsstring -> option Z.
Variable toISOString : Z -> jsstring.

(** What the engine does with the insert of one row of values into the
    named table: the new store and the row id, or the message of the
    error it raises (a table that is missing, a disk that is full). *)
Variable insertInto :
  jsstring -> list jsstring -> list Cell -> Store -> jsstring + (Store * nat).

(** [columnTypes[col]]: the type inferred from the column's values in
    all rows. *)
Definition columnTypesOf (normalizedData : list Row) (col : jsstring)
    : ColumnType :=
  inferColumnType dateParse (map (fun row => row col) normalizedData).

(** [for (const row of normalizedData)]: the values of the row are
    converted and bound, and a failed insert is thrown. *)
Fixpoint insertRows (tableName : jsstring) (normalizedColumns : list jsstring)
    (columnTypes : jsstring -> ColumnType) (normalizedData : list Row)
    : M Db unit :=
  match normalizedData with
  | [] => ret tt
  | row :: rest =>
      let values :=
        rowValues dateParse toISOString normalizedColumns columnTypes row in
      insertResult <-
        call (executeWith (Query (insertQuery tableName normalizedColumns))
                (fun st =>
                   match insertInto tableName normalizedColumns values st with
                   | inl message => inl message
                   | inr (st', rowid) => inr (st', Some rowid, 1)
                   end)) ;;
      if negb (success insertResult)
      then throw (ChatHistory.errorOf insertResult)
      else insertRows tableName normalizedColumns columnTypes rest
  end.

(** The load of all rows inside one transaction, and the test of its
    result. *)
Definition insertAll (tableName : jsstring) (normalizedColumns : list jsstring)
    (normalizedData : list Row) : M Db unit :=
  transactionResult <-
    call (transaction
            (insertRows tableName normalizedColumns
                        (columnTypesOf normalizedData) normalizedData)) ;;
  if negb (t_success transactionResult)
  then throw (transactionError transactionResult)
  else ret tt.

(** The rows of values put into the store one after another, up to the
    first that the engine refuses. *)
Fixpoint afterInserts (tableName : jsstring) (normalizedColumns : list jsstring)
    (rows : list (list Cell)) (st : Store) : jsstring + Store :=
  match rows with
  | [] => inr st
  | values :: rest =>
      match insertInto tableName normalizedColumns values st with
      | inl message => inl message
      | inr (st', _) => afterInserts tableName normalizedColumns rest st'
      end
  end.

End WithEngine.

(** An engine effect for the examples: the row is added at the end of
    the named table, each value under its column; a table that is
    missing is an error. *)
Definition appendRow (tableName : jsstring) (columns : list jsstring)
    (values : list Cell) (st : Store) : jsstring + (Store * nat) :=
  match lookupTable tableName st with
  | None => inl (lit "no such table: " ++ tableName)
  | Some t =>
      inr (mkStore (files st) (chat_history st)
             (map (fun e =>
                     if sameTable tableName (fst e)
                     then (fst e,
                           mkTable (tableColumns (snd e))
                                   (tableRows (snd e) ++ [combine columns values]))
                     else e)
                  (tables st)),
           S (List.length (tableRows t)))
  end.

End BulkLoad.

(* ================================================================= *)
(** * Properties *)

(** ** The model on small inputs *)

(** A reserved word, a digit-leading name, an empty name, a Hangul name
    (매출 합계) and a second column that differs from the first in letter
    case only. *)
Example normalize_mixed_columns :
  option_map Utils.normalizedColumns
    (Utils.normalizeColumnNames
       [lit "Select"; lit "1st quarter"; lit " - ";
        [47588; 52636; 32; 54633; 44228]%N; lit "SELECT"])
  = Some [lit "Select_col"; lit "column_2"; lit "column_3";
          [47588; 52636; 95; 54633; 44228]%N; lit "SELECT_col_1"].
Proof. vm_compute. reflexivity. Qed.

(** A name already taken by an earlier column is skipped over. *)
Example normalize_skips_taken_suffix :
  option_map Utils.normalizedColumns
    (Utils.normalizeColumnNames [lit "a_1"; lit "a"; lit "a"; lit "A"])
  = Some [lit "a_1"; lit "a"; lit "a_2"; lit "A_3"].
Proof. vm_compute. reflexivity. Qed.

Example patterns_on_numbers :
  map (Regex.matchesWhole Upload.integerPattern)
      [lit "-12"; lit "12."; lit "1e3"; lit "--1"]
  = [true; false; false; false]
  /\ map (Regex.matchesWhole Upload.realPattern)
       [lit "-12"; lit ".5"; lit "12."; lit "1.2.3"; lit "-.5"]
     = [true; true; false; false; true].
Proof. split; vm_compute; reflexivity. Qed.

Example patterns_on_dates :
  map Upload.hasDatePattern
      [lit "2024-01-01"; lit "2024/1/1 10:00"; lit "1-2-2024"; lit "20240101";
       lit "202401011"; lit "2024-01"; lit "Jan 1, 2024"]
  = [true; true; true; true; false; false; false].
Proof. vm_compute. reflexivity. Qed.

Example parse_numbers :
  map Upload.parseInt10 [lit "42"; lit "-12abc"; lit "+7"; lit "abc"; lit ""]
  = [Some 42%Z; Some (-12)%Z; Some 7%Z; None; None]
  /\ map Upload.parseFloat [lit "1.5"; lit "-.5e"; lit "5."; lit "."; lit "n/a"]
     = [Some (Upload.DecimalLiteral (lit "1.5"));
        Some (Upload.DecimalLiteral (lit "-.5"));
        Some (Upload.DecimalLiteral (lit "5."));
        None; None].
Proof. split; vm_compute; reflexivity. Qed.

Example iso_date :
  option_map Upload.isoFormat (Upload.isoDateParse (lit "2024-02-29"))
  = Some (lit "2024-02-29T00:00:00.000Z")
  /\ Upload.isoDateParse (lit "2023-02-29") = None.
Proof. split; vm_compute; reflexivity. Qed.

(** "SQL 실행 후 테이블 컬럼 조회" becomes "데이터 분석 후 데이터 필드 분석". *)
Example scrub_vocabulary :
  ReactState.convertToUserFriendlyMessage
    [83; 81; 76; 32; 49892; 54665; 32; 54980; 32; 53580; 51060; 48660; 32;
     52972; 47100; 32; 51312; 54924]%N
  = [45936; 51060; 53552; 32; 48516; 49437; 32; 54980; 32; 45936; 51060;
     53552; 32; 54596; 46300; 32; 48516; 49437]%N.
Proof. vm_compute. reflexivity. Qed.

(** The newest-first pages of dataset [x], two turns each, by turn id.
    Turns 3 and 4 bear the same time stamp: the descending scan meets
    them as 3, 4, and the page, being reversed, lists them as 4, 3. *)
Example pages_of_two :
  map (fun p =>
         option_map (fun pg => (map Database.id (ChatHistory.history pg),
                                ChatHistory.totalCount pg,
                                ChatHistory.hasMore pg))
           (Js.returned (ChatHistory.getChatHistoryPaginated (lit "x") p 2
                           Sample.sampleDb)))
      [1; 2; 3; 4]%Z
  = [Some ([5; 7], 5, true); Some ([4; 3], 5, true);
     Some ([1], 5, false); Some ([], 5, false)].
Proof. vm_compute. reflexivity. Qed.

(** ** Strings *)

Lemma jseqb_eq (a b : jsstring) : jseqb a b = true <-> a = b.
Proof.
  revert b; induction a as [|x a IH]; intros [|y b]; simpl; split;
    try congruence; try reflexivity.
  - intros H. apply andb_true_iff in H as [Hx Hr].
    apply N.eqb_eq in Hx. apply IH in Hr. congruence.
  - intros H. injection H as -> ->.
    rewrite N.eqb_refl. simpl. apply IH. reflexivity.
Qed.

Lemma jseqb_refl (a : jsstring) : jseqb a a = true.
Proof. apply jseqb_eq. reflexivity. Qed.

Lemma jseqb_neq (a b : jsstring) : jseqb a b = false <-> a <> b.
Proof.
  split.
  - intros H E. apply jseqb_eq in E. congruence.
  - intros H. destruct (jseqb a b) eqn:E; [|reflexivity].
    apply jseqb_eq in E. contradiction.
Qed.

Lemma has_In (set : list jsstring) (x : jsstring) : has set x = true <-> In x set.
Proof.
  unfold has. rewrite existsb_exists. split.
  - intros [y [Hy E]]. apply jseqb_eq in E. subst. exact Hy.
  - intros H. exists x. split; [exact H | apply jseqb_refl].
Qed.

Lemma has_not_In (set : list jsstring) (x : jsstring) :
  has set x = false <-> ~ In x set.
Proof.
  rewrite <- has_In. destruct (has set x); split; congruence.
Qed.

Lemma toLowerCase_app (a b : jsstring) :
  toLowerCase (a ++ b) = toLowerCase a ++ toLowerCase b.
Proof. apply map_app. Qed.

Lemma lowerUnit_underscore (c : N) : lowerUnit c = 95%N <-> c = 95%N.
Proof.
  unfold lowerUnit, between.
  destruct (N.leb 65 c) eqn:H1; destruct (N.leb c 90) eqn:H2; simpl;
    try tauto.
  apply N.leb_le in H1, H2. lia.
Qed.

Lemma lowerUnit_digit (c : N) : isDigit c = true -> lowerUnit c = c.
Proof.
  unfold isDigit, lowerUnit, between. intros H.
  apply andb_true_iff in H as [H1 H2]. apply N.leb_le in H1, H2.
  destruct (N.leb 65 c) eqn:H3; simpl; [|reflexivity].
  apply N.leb_le in H3. lia.
Qed.

Lemma toLowerCase_digits (s : jsstring) :
  Forall (fun c => isDigit c = true) s -> toLowerCase s = s.
Proof.
  induction 1 as [|c s Hc _ IH]; simpl; [reflexivity|].
  rewrite (lowerUnit_digit _ Hc). f_equal. exact IH.
Qed.

Lemma toLowerCase_underscore_In (s : jsstring) :
  In 95%N (toLowerCase s) <-> In 95%N s.
Proof.
  unfold toLowerCase. rewrite in_map_iff. split.
  - intros [c [E Hc]]. apply (proj1 (lowerUnit_underscore c)) in E.
    subst. exact Hc.
  - intros H. exists 95%N. split; [reflexivity | exact H].
Qed.

(** ** Decimal numerals *)

Lemma lit_inj (a b : string) : lit a = lit b -> a = b.
Proof.
  unfold lit. intros H.
  rewrite <- (string_of_list_ascii_of_string a),
          <- (string_of_list_ascii_of_string b).
  f_equal.
  revert H. generalize (list_ascii_of_string a) (list_ascii_of_string b).
  induction l as [|x l IH]; intros [|y l']; simpl; try congruence.
  intros H. injection H as Hx Hl. f_equal.
  - rewrite <- (ascii_N_embedding x), <- (ascii_N_embedding y). congruence.
  - apply IH. exact Hl.
Qed.

Lemma string_of_uint_inj (d d' : Decimal.uint) :
  NilEmpty.string_of_uint d = NilEmpty.string_of_uint d' -> d = d'.
Proof.
  intros H.
  assert (E : Some d = Some d').
  { rewrite <- (NilEmpty.usu d), <- (NilEmpty.usu d'). congruence. }
  congruence.
Qed.

Lemma decimal_inj (n m : nat) : decimal n = decimal m -> n = m.
Proof.
  unfold decimal. intros H.
  apply DecimalNat.Unsigned.to_uint_inj, string_of_uint_inj, lit_inj, H.
Qed.

Lemma string_of_uint_digits (d : Decimal.uint) :
  Forall (fun c => isDigit c = true) (lit (NilEmpty.string_of_uint d)).
Proof.
  induction d; simpl; constructor; auto.
Qed.

Lemma decimal_digits (n : nat) : Forall (fun c => isDigit c = true) (decimal n).
Proof. apply string_of_uint_digits. Qed.

(** ** Column names: the duplicate loop *)

Section DuplicateLoop.

Import Utils.

Lemma candidate_lower (base : jsstring) (k : nat) :
  toLowerCase (candidate base k) = toLowerCase base ++ 95%N :: decimal k.
Proof.
  unfold candidate. rewrite !toLowerCase_app.
  rewrite (toLowerCase_digits (decimal_digits k)). reflexivity.
Qed.

Lemma candidate_lower_inj (base : jsstring) (k k' : nat) :
  toLowerCase (candidate base k) = toLowerCase (candidate base k') -> k = k'.
Proof.
  rewrite !candidate_lower. intros H.
  apply app_inv_head in H. injection H as H. apply decimal_inj, H.
Qed.

(** Among more candidates than there are used names, one is free. *)
Lemma free_candidate (used : list jsstring) (base : jsstring) :
  exists k, 1 <= k < 1 + S (List.length used)
            /\ ~ In (toLowerCase (candidate base k)) used.
Proof.
  set (f := fun k => toLowerCase (candidate base k)).
  set (ks := seq 1 (S (List.length used))).
  destruct (existsb (fun k => negb (has used (f k))) ks) eqn:E.
  - apply existsb_exists in E as [k [Hk Hf]].
    apply in_seq in Hk. exists k. split; [lia|].
    apply has_not_In. apply negb_true_iff, Hf.
  - exfalso.
    assert (Hincl : incl (map f ks) used).
    { intros x Hx. apply in_map_iff in Hx as [k [<- Hk]].
      apply has_In.
      destruct (has used (f k)) eqn:Hh; [reflexivity|].
      assert (existsb (fun k => negb (has used (f k))) ks = true).
      { apply existsb_exists. exists k. split; [exact Hk|].
        rewrite Hh. reflexivity. }
      congruence. }
    assert (Hnd : NoDup (map f ks)).
    { apply Finite.Injective_map_NoDup.
      - intros a b Hab. apply (candidate_lower_inj base), Hab.
      - apply seq_NoDup. }
    pose proof (NoDup_incl_length Hnd Hincl) as Hlen.
    rewrite length_map in Hlen. unfold ks in Hlen.
    rewrite length_seq in Hlen. lia.
Qed.

Lemma whileUsed_total (f : nat) :
  forall used base final c,
    (~ In (toLowerCase final) used
     \/ exists k, c <= k < c + f /\ ~ In (toLowerCase (candidate base k)) used) ->
    exists r, whileUsed (S f) used base final c = Some r.
Proof.
  induction f as [|f IH]; intros used base final c H; simpl.
  - destruct H as [H | [k [Hk _]]]; [|lia].
    apply has_not_In in H. rewrite H. eauto.
  - destruct (has used (toLowerCase final)) eqn:Hh; [|eauto].
    apply IH. destruct H as [H | [k [Hk Hfree]]].
    + apply has_In in Hh. contradiction.
    + destruct (Nat.eq_dec k c) as [-> | Hne].
      * left. exact Hfree.
      * right. exists k. split; [lia | exact Hfree].
Qed.

Lemma whileUsed_sound (fuel : nat) :
  forall used base final c r,
    whileUsed fuel used base final c = Some r ->
    (~ In (toLowerCase final) used /\ r = final)
    \/ (In (toLowerCase final) used
        /\ exists k, c <= k
             /\ r = candidate base k
             /\ ~ In (toLowerCase r) used
             /\ forall j, c <= j < k ->
                  In (toLowerCase (candidate base j)) used).
Proof.
  induction fuel as [|fuel IH]; intros used base final c r H; simpl in H.
  - discriminate.
  - destruct (has used (toLowerCase final)) eqn:Hh.
    + right. apply has_In in Hh. split; [exact Hh|].
      apply IH in H as [[Hfree ->] | [Hin [k [Hk [-> [Hfree Hbelow]]]]]].
      * exists c. repeat split; auto. intros j Hj. lia.
      * exists k. repeat split; auto; [lia|].
        intros j Hj. destruct (Nat.eq_dec j c) as [-> | Hne]; [exact Hin|].
        apply Hbelow. lia.
    + left. injection H as <-. split; [|reflexivity].
      apply has_not_In, Hh.
Qed.

(** The loop ends within the bound that [forEachColumn] gives it, and
    what it yields is the name settled as [resolves] says. *)
Lemma whileUsed_resolves (used : list jsstring) (base : jsstring) :
  exists final,
    whileUsed (S (S (List.length used))) used base base 1 = Some final
    /\ resolves used base final
    /\ ~ In (toLowerCase final) used.
Proof.
  destruct (@whileUsed_total (S (List.length used)) used base base 1) as [r Hr].
  { right. destruct (free_candidate used base) as [k [Hk Hf]].
    exists k. split; [lia | exact Hf]. }
  exists r. split; [exact Hr|].
  apply whileUsed_sound in Hr as [[Hfree ->] | [Hin [k [Hk [-> [Hfree Hbelow]]]]]].
  - split; [left; auto | exact Hfree].
  - split; [|exact Hfree]. right. split; [exact Hin|].
    exists k. repeat split; auto.
Qed.

End DuplicateLoop.

(** ** Column names: storage safety *)

Section StorageSafety.

Import Utils.

Lemma dropWhile_Forall (P : N -> Prop) (p : N -> bool) (s : jsstring) :
  Forall P s -> Forall P (dropWhile p s).
Proof.
  induction 1 as [|c s Hc Hs IH]; simpl; [constructor|].
  destruct (p c); [exact IH | constructor; assumption].
Qed.

Lemma dropWhileEnd_Forall (P : N -> Prop) (p : N -> bool) (s : jsstring) :
  Forall P s -> Forall P (dropWhileEnd p s).
Proof.
  intros H. unfold dropWhileEnd.
  apply Forall_rev, dropWhile_Forall, Forall_rev, H.
Qed.

Lemma collapseRunsFrom_Forall (P : N -> Prop) (p : N -> bool) (r : N) (s : jsstring) :
  P r -> Forall P s -> forall b, Forall P (collapseRunsFrom b p r s).
Proof.
  intros Hr. induction 1 as [|c s Hc Hs IH]; intros b; simpl; [constructor|].
  destruct (p c); [destruct b|]; try constructor; auto.
Qed.

Lemma replaceEach_NameChars (s : jsstring) :
  NameChars (replaceEach (fun c => negb (isNameChar c)) underscore s).
Proof.
  unfold NameChars, replaceEach. apply Forall_forall. intros x Hx.
  apply in_map_iff in Hx as [c [<- _]].
  destruct (isNameChar c) eqn:E; simpl; [exact E | reflexivity].
Qed.

Lemma cleanName_NameChars (originalColumn : jsstring) :
  NameChars (cleanName originalColumn).
Proof.
  unfold cleanName.
  apply dropWhileEnd_Forall, dropWhile_Forall.
  apply collapseRunsFrom_Forall; [reflexivity|].
  apply replaceEach_NameChars.
Qed.

Lemma digits_NameChars (s : jsstring) :
  Forall (fun c => isDigit c = true) s -> NameChars s.
Proof.
  apply Forall_impl. intros c Hc.
  unfold isNameChar, isWordChar. rewrite Hc.
  rewrite !orb_true_r. reflexivity.
Qed.

Lemma lit_NameChars (s : string) :
  forallb isNameChar (lit s) = true -> NameChars (lit s).
Proof. intros H. apply Forall_forall. apply forallb_forall, H. Qed.

Lemma emptyOrDigitLeading_app (s t : jsstring) :
  emptyOrDigitLeading s = false -> emptyOrDigitLeading (s ++ t) = false.
Proof. destruct s; simpl; [discriminate | auto]. Qed.

Lemma reserved_no_underscore (w : jsstring) :
  In w reservedWords -> ~ In 95%N w.
Proof.
  intros Hw H95.
  assert (Hall : forallb (fun w => negb (existsb (N.eqb 95) w)) reservedWords = true)
    by (vm_compute; reflexivity).
  rewrite forallb_forall in Hall. specialize (Hall w Hw).
  apply negb_true_iff in Hall.
  assert (existsb (N.eqb 95) w = true).
  { apply existsb_exists. exists 95%N. split; [exact H95 | reflexivity]. }
  congruence.
Qed.

Lemma underscored_not_reserved (s : jsstring) :
  In 95%N s -> has reservedWords (toLowerCase s) = false.
Proof.
  intros H. apply has_not_In. intros Hin.
  apply (reserved_no_underscore Hin).
  apply toLowerCase_underscore_In, H.
Qed.

(** The name before the duplicate check is already storage-safe. *)
Lemma baseName_safe (index : nat) (originalColumn : jsstring) :
  storageSafe (baseName index originalColumn).
Proof.
  unfold baseName.
  set (n0 := cleanName originalColumn).
  set (n := if emptyOrDigitLeading n0
            then lit "column_" ++ decimal (index + 1) else n0).
  assert (Hchars : NameChars n).
  { unfold n. destruct (emptyOrDigitLeading n0).
    - apply Forall_app. split.
      + apply lit_NameChars. reflexivity.
      + apply digits_NameChars, decimal_digits.
    - apply cleanName_NameChars. }
  assert (Hlead : emptyOrDigitLeading n = false).
  { unfold n. destruct (emptyOrDigitLeading n0) eqn:E; [reflexivity | exact E]. }
  assert (Hsafe : forall s, NameChars s -> emptyOrDigitLeading s = false ->
                            has reservedWords (toLowerCase s) = false ->
                            storageSafe s).
  { intros s H1 H2 H3. repeat split; auto. intros ->. discriminate. }
  destruct (has reservedWords (toLowerCase n)) eqn:Hres.
  - apply Hsafe.
    + apply Forall_app. split; [exact Hchars | apply lit_NameChars; reflexivity].
    + apply emptyOrDigitLeading_app, Hlead.
    + apply underscored_not_reserved. apply in_or_app. right. simpl. auto.
  - apply Hsafe; assumption.
Qed.

Lemma candidate_safe (base : jsstring) (k : nat) :
  storageSafe base -> storageSafe (candidate base k).
Proof.
  intros [Hne [Hchars [Hlead _]]]. unfold candidate.
  repeat split.
  - destruct base; [contradiction | discriminate].
  - apply Forall_app. split; [exact Hchars|].
    apply Forall_app. split;
      [apply lit_NameChars; reflexivity | apply digits_NameChars, decimal_digits].
  - apply emptyOrDigitLeading_app, Hlead.
  - apply underscored_not_reserved. apply in_or_app. right. simpl. auto.
Qed.

(** The three cases of the name before the duplicate check. *)
Lemma baseName_cases (index : nat) (originalColumn : jsstring) :
  let cleaned := cleanName originalColumn in
  (emptyOrDigitLeading cleaned = true ->
   baseName index originalColumn = lit "column_" ++ decimal (index + 1))
  /\ (emptyOrDigitLeading cleaned = false ->
      has reservedWords (toLowerCase cleaned) = true ->
      baseName index originalColumn = cleaned ++ lit "_col")
  /\ (emptyOrDigitLeading cleaned = false ->
      has reservedWords (toLowerCase cleaned) = false ->
      baseName index originalColumn = cleaned).
Proof.
  cbv zeta. unfold baseName. repeat split; intros H.
  - rewrite H. rewrite underscored_not_reserved; [reflexivity|].
    apply in_or_app. left. vm_compute. auto 10.
  - intros Hr. rewrite H, Hr. reflexivity.
  - intros Hr. rewrite H, Hr. reflexivity.
Qed.

Lemma resolves_safe (earlier : list jsstring) (base final : jsstring) :
  storageSafe base -> resolves earlier base final -> storageSafe final.
Proof.
  intros Hb [[_ ->] | [_ [k [_ [-> _]]]]]; [exact Hb | apply candidate_safe, Hb].
Qed.

End StorageSafety.

(** ** Column names: the whole list *)

Section NormalizeColumnNames.

Import Utils.

Lemma setAdd_fresh (set : list jsstring) (x : jsstring) :
  ~ In x set -> setAdd set x = set ++ [x].
Proof.
  intros H. unfold setAdd. apply has_not_In in H. rewrite H. reflexivity.
Qed.

Lemma forEachColumn_invariant (columns : list jsstring) :
  forall index st,
    wellFormed st ->
    exists st' added,
      forEachColumn columns index st = Some st'
      /\ wellFormed st'
      /\ normalizedColumns st' = normalizedColumns st ++ added
      /\ List.length added = List.length columns
      /\ forall i col,
           nth_error columns i = Some col ->
           exists final,
             nth_error added i = Some final
             /\ resolves (map toLowerCase (normalizedColumns st ++ firstn i added))
                         (baseName (index + i) col) final.
Proof.
  induction columns as [|col rest IH]; intros index st Hwf.
  - exists st, []. simpl. repeat split; try apply Hwf.
    + rewrite app_nil_r. reflexivity.
    + intros [|i] c H; discriminate.
  - destruct Hwf as [Hused [Hnd Hsafe]].
    destruct (whileUsed_resolves (usedNames st) (baseName index col))
      as [final [Hloop [Hres Hfree]]].
    cbn [forEachColumn]. rewrite Hloop.
    set (st1 := {| normalizedColumns := normalizedColumns st ++ [final];
                   columnMapping := objSet (columnMapping st) col final;
                   usedNames := setAdd (usedNames st) (toLowerCase final) |}).
    assert (Hwf1 : wellFormed st1).
    { unfold wellFormed, st1; simpl. rewrite (setAdd_fresh _ _ Hfree).
      repeat split.
      - rewrite map_app, Hused. reflexivity.
      - apply NoDup_app; [exact Hnd | repeat constructor; simpl; tauto |].
        intros x Hx [<- | []]. contradiction.
      - apply Forall_app. split; [exact Hsafe|].
        constructor; [|constructor].
        apply (resolves_safe (baseName_safe index col) Hres). }
    destruct (IH (S index) st1 Hwf1) as [st' [added [Hrun [Hwf' [Hnames [Hlen Hnth]]]]]].
    exists st', (final :: added). split; [exact Hrun|].
    split; [exact Hwf'|]. split.
    { rewrite Hnames. unfold st1; simpl. rewrite <- app_assoc. reflexivity. }
    split; [simpl; congruence|].
    intros [|i] c Hc; simpl in Hc.
    + injection Hc as <-. exists final. split; [reflexivity|].
      simpl. rewrite app_nil_r, Nat.add_0_r, <- Hused. exact Hres.
    + destruct (Hnth i c Hc) as [fin [Hfin Hr]].
      exists fin. split; [exact Hfin|].
      unfold st1 in Hr; simpl in Hr. rewrite <- app_assoc in Hr. simpl in Hr.
      replace (index + S i) with (S index + i) by lia. exact Hr.
Qed.

End NormalizeColumnNames.

(** C5.  For every list of column names, [normalizeColumnNames] ends
    and returns as many names as it was given; every returned name is a
    non-empty storage-safe identifier, and the names are pairwise distinct,
    even without regard to letter case.  The name at position [i] is the
    cleaned name, replaced by [column_<i+1>] when empty or digit-leading
    and suffixed with [_col] when reserved ([baseName]), kept as it is when
    no earlier name equals it and otherwise given the smallest counter
    [_1], [_2], ... that is free.  The three columns ["Order Date"],
    ["Amount ($)"], ["Amount ($)"] become [Order_Date], [Amount],
    [Amount_1]. *)
Theorem normalizeColumnNames_safe_unique :
  (forall columns : list jsstring,
     exists st,
       Utils.normalizeColumnNames columns = Some st
       /\ List.length (Utils.normalizedColumns st) = List.length columns
       /\ Forall Utils.storageSafe (Utils.normalizedColumns st)
       /\ NoDup (map toLowerCase (Utils.normalizedColumns st))
       /\ NoDup (Utils.normalizedColumns st)
       /\ forall i col,
            nth_error columns i = Some col ->
            exists final,
              nth_error (Utils.normalizedColumns st) i = Some final
              /\ Utils.resolves
                   (map toLowerCase (firstn i (Utils.normalizedColumns st)))
                   (Utils.baseName i col) final)
  /\ (forall i col,
        let cleaned := Utils.cleanName col in
        (Utils.emptyOrDigitLeading cleaned = true ->
         Utils.baseName i col = lit "column_" ++ decimal (i + 1))
        /\ (Utils.emptyOrDigitLeading cleaned = false ->
            has Utils.reservedWords (toLowerCase cleaned) = true ->
            Utils.baseName i col = cleaned ++ lit "_col")
        /\ (Utils.emptyOrDigitLeading cleaned = false ->
            has Utils.reservedWords (toLowerCase cleaned) = false ->
            Utils.baseName i col = cleaned))
  /\ option_map Utils.normalizedColumns
       (Utils.normalizeColumnNames
          [lit "Order Date"; lit "Amount ($)"; lit "Amount ($)"])
     = Some [lit "Order_Date"; lit "Amount"; lit "Amount_1"].
Proof.
  split; [|split; [apply baseName_cases | vm_compute; reflexivity]].
  intros columns. unfold Utils.normalizeColumnNames.
  destruct (@forEachColumn_invariant columns 0 (Utils.mkNormState [] [] []))
    as [st [added [Hrun [[Hused [Hnd Hsafe]] [Hnames [Hlen Hnth]]]]]].
  { repeat split; simpl; constructor. }
  simpl in Hnames. subst added.
  exists st. repeat split; auto.
  - rewrite <- Hused. exact Hnd.
  - apply (NoDup_map_inv toLowerCase). rewrite <- Hused. exact Hnd.
Qed.

(** The duplicated column of the specification's example. *)
Lemma normalizeColumnNames_safe_unique_witness :
  exists st final,
    Utils.normalizeColumnNames
      [lit "Order Date"; lit "Amount ($)"; lit "Amount ($)"] = Some st
    /\ nth_error (Utils.normalizedColumns st) 2 = Some final
    /\ Utils.resolves (map toLowerCase (firstn 2 (Utils.normalizedColumns st)))
         (Utils.baseName 2 (lit "Amount ($)")) final
    /\ Utils.storageSafe final.
Proof.
  destruct (proj1 normalizeColumnNames_safe_unique
              [lit "Order Date"; lit "Amount ($)"; lit "Amount ($)"])
    as [st [Hrun [_ [Hsafe [_ [_ Hnth]]]]]].
  destruct (Hnth 2 (lit "Amount ($)") eq_refl) as [final [Hfinal Hres]].
  exists st, final.
  split; [exact Hrun|]. split; [exact Hfinal|]. split; [exact Hres|].
  apply (proj1 (Forall_forall Utils.storageSafe (Utils.normalizedColumns st)) Hsafe).
  apply (nth_error_In _ _ Hfinal).
Defined.

(** ** Type inference *)

Section InferColumnType.

Import Regex Upload.

Variable dateParse : jsstring -> option Z.

Lemma forallb_map_compose {A B} (p : B -> bool) (g : A -> B) (l : list A) :
  forallb p (map g l) = forallb (fun a => p (g a)) l.
Proof. induction l as [|a l IH]; simpl; [reflexivity | rewrite IH; reflexivity]. Qed.

(** The three flags after the loop are the three conjunctions over the
    samples. *)
Lemma inferLoop_flags (samples : list JsValue) :
  forall f,
    fold_left (inferStep dateParse) samples f
    = mkFlags
        (isAllInteger f
         && forallb (fun v => matchesWhole integerPattern (strValueOf v)) samples)
        (isAllReal f
         && forallb (fun v => matchesWhole realPattern (strValueOf v)) samples)
        (isAllDate f
         && forallb (fun v => hasDatePattern (strValueOf v)
                              && isValidDate dateParse (strValueOf v)) samples).
Proof.
  induction samples as [|v samples IH]; intros [i r d]; simpl.
  - rewrite !andb_true_r. reflexivity.
  - rewrite IH. unfold inferStep, strValueOf; simpl.
    destruct i, r, d; simpl;
      destruct (matchesWhole integerPattern (trim (String_ v)));
      destruct (matchesWhole realPattern (trim (String_ v)));
      destruct (isValidDate dateParse (trim (String_ v)));
      destruct (hasDatePattern (trim (String_ v))); reflexivity.
Qed.

Lemma inferColumnType_refines (values : list JsValue) :
  inferColumnType dateParse values = specColumnType dateParse values.
Proof.
  unfold inferColumnType, specColumnType.
  destruct (filter isPresent values) as [|v rest] eqn:E; [reflexivity|].
  rewrite inferLoop_flags. rewrite !forallb_map_compose.
  cbn [isAllInteger isAllReal isAllDate andb].
  change (firstn 100 (v :: rest)) with (v :: firstn 99 rest).
  cbn [map]. reflexivity.
Qed.

End InferColumnType.

(** C4.  [inferColumnType] classifies a column from its first (at most)
    100 values that are neither null, undefined nor empty, each rendered
    as text and trimmed: integer when all match the integer pattern,
    else real when all match the numeric pattern, else date when all match
    a date pattern and are valid dates, else text; a column without such
    values is text.  The four sample columns of the specification are
    classified integer, real, date and text (the date column for every
    date parser that accepts the two ISO dates). *)
Theorem inferColumnType_priority :
  forall dateParse : jsstring -> option Z,
    (forall values,
       Upload.inferColumnType dateParse values
       = Upload.specColumnType dateParse values)
    /\ (forall values,
          filter Upload.isPresent values = [] ->
          Upload.inferColumnType dateParse values = Upload.TEXT)
    /\ Upload.inferColumnType dateParse
         (map Upload.JString [lit "1"; lit "2"; lit "3"]) = Upload.INTEGER
    /\ Upload.inferColumnType dateParse
         (map Upload.JString [lit "1.5"; lit "2"]) = Upload.REAL
    /\ (Upload.isValidDate dateParse (lit "2024-01-01") = true ->
        Upload.isValidDate dateParse (lit "2024-02-15") = true ->
        Upload.inferColumnType dateParse
          (map Upload.JString [lit "2024-01-01"; lit "2024-02-15"]) = Upload.DATE)
    /\ Upload.inferColumnType dateParse
         (map Upload.JString [lit "a"; lit "1"]) = Upload.TEXT.
Proof.
  intros dateParse. split; [apply inferColumnType_refines|].
  split.
  { intros values H. unfold Upload.inferColumnType. rewrite H. reflexivity. }
  rewrite !inferColumnType_refines.
  split; [vm_compute; reflexivity|].
  split; [vm_compute; reflexivity|].
  split; [|vm_compute; reflexivity].
  intros H1 H2. unfold Upload.isValidDate in H1, H2.
  destruct (dateParse (lit "2024-01-01")) as [t1|] eqn:E1; [|discriminate].
  destruct (dateParse (lit "2024-02-15")) as [t2|] eqn:E2; [|discriminate].
  vm_compute in E1, E2. vm_compute. rewrite E1, E2. reflexivity.
Qed.

(** The classification at the ISO date parser. *)
Lemma inferColumnType_priority_witness :
  Upload.isValidDate Upload.isoDateParse (lit "2024-01-01") = true
  /\ Upload.isValidDate Upload.isoDateParse (lit "2024-02-15") = true
  /\ Upload.inferColumnType Upload.isoDateParse
       (map Upload.JString [lit "2024-01-01"; lit "2024-02-15"]) = Upload.DATE.
Proof.
  split; [reflexivity|]. split; [reflexivity|].
  apply (inferColumnType_priority Upload.isoDateParse); reflexivity.
Defined.

(** ** Trimming *)

Section Trimming.

Variable p : N -> bool.

(** A text without a [p]-character at its head, respectively at its end. *)
Lemma dropWhile_lead (s : jsstring) :
  exists lead, s = lead ++ dropWhile p s /\ Forall (fun c => p c = true) lead.
Proof.
  induction s as [|c s [lead [E H]]]; cbn [dropWhile].
  - exists []. split; [reflexivity | constructor].
  - destruct (p c) eqn:Ec.
    + exists (c :: lead). split; [cbn; congruence | constructor; assumption].
    + exists []. split; [reflexivity | constructor].
Qed.

Lemma dropWhile_first (s : jsstring) :
  match dropWhile p s with
  | [] => True
  | c :: _ => p c = false
  end.
Proof.
  induction s as [|c s IH]; cbn [dropWhile]; [exact I|].
  destruct (p c) eqn:E; [exact IH | exact E].
Qed.

Lemma dropWhileEnd_trail (s : jsstring) :
  exists trail, s = dropWhileEnd p s ++ trail /\ Forall (fun c => p c = true) trail.
Proof.
  unfold dropWhileEnd.
  destruct (dropWhile_lead (rev s)) as [lead [E H]].
  exists (rev lead). split.
  - rewrite <- rev_app_distr, <- E, rev_involutive. reflexivity.
  - apply Forall_rev. exact H.
Qed.

Lemma dropWhileEnd_last (s : jsstring) :
  match rev (dropWhileEnd p s) with
  | [] => True
  | c :: _ => p c = false
  end.
Proof.
  unfold dropWhileEnd. rewrite rev_involutive. apply dropWhile_first.
Qed.

Lemma dropWhile_stop (l : jsstring) (c : N) :
  p c = false -> dropWhile p (l ++ [c]) = dropWhile p l ++ [c].
Proof.
  intros Hc. induction l as [|x l IH]; cbn [dropWhile app].
  - rewrite Hc. reflexivity.
  - destruct (p x); [exact IH | reflexivity].
Qed.

(** Dropping at the end leaves the head where it is. *)
Lemma dropWhileEnd_first (s : jsstring) :
  match s with
  | [] => True
  | c :: _ => p c = false
  end ->
  match dropWhileEnd p s with
  | [] => s = []
  | c :: _ => p c = false
  end.
Proof.
  destruct s as [|c s]; intros H; [reflexivity|].
  unfold dropWhileEnd. cbn [rev]. rewrite dropWhile_stop by exact H.
  rewrite rev_app_distr. cbn. exact H.
Qed.

End Trimming.

Lemma trim_first (s : jsstring) :
  match trim s with
  | [] => True
  | c :: _ => isWhiteSpace c = false
  end.
Proof.
  unfold trim.
  pose proof (dropWhileEnd_first isWhiteSpace (dropWhile isWhiteSpace s)
                (dropWhile_first isWhiteSpace s)) as H.
  destruct (dropWhileEnd isWhiteSpace (dropWhile isWhiteSpace s)); [exact I | exact H].
Qed.

Lemma trim_last (s : jsstring) :
  match rev (trim s) with
  | [] => True
  | c :: _ => isWhiteSpace c = false
  end.
Proof. apply dropWhileEnd_last. Qed.

(** What [trim] takes away is white space, at the two ends. *)
Lemma trim_between (s : jsstring) :
  exists lead trail,
    s = lead ++ trim s ++ trail
    /\ Forall (fun c => isWhiteSpace c = true) lead
    /\ Forall (fun c => isWhiteSpace c = true) trail.
Proof.
  destruct (dropWhile_lead isWhiteSpace s) as [lead [E1 H1]].
  destruct (dropWhileEnd_trail isWhiteSpace (dropWhile isWhiteSpace s))
    as [trail [E2 H2]].
  exists lead, trail. split; [|split; assumption].
  unfold trim. rewrite <- E2. exact E1.
Qed.

(** ** Number parsing *)

Section Parsing.

Import Upload.

Lemma dropWhile_same (p : N -> bool) (s : jsstring) :
  match s with
  | [] => True
  | c :: _ => p c = false
  end ->
  dropWhile p s = s.
Proof. destruct s as [|c s]; cbn; [reflexivity | intros ->; reflexivity]. Qed.

Lemma span_digits (ds rest : jsstring) :
  Forall (fun c => isDigit c = true) ds ->
  match rest with
  | [] => True
  | c :: _ => isDigit c = false
  end ->
  span isDigit (ds ++ rest) = (ds, rest).
Proof.
  intros Hd Hr. induction Hd as [|c ds Hc Hd IH]; cbn [app].
  - destruct rest as [|c rest]; cbn; [reflexivity | rewrite Hr; reflexivity].
  - cbn [span]. rewrite Hc, IH. reflexivity.
Qed.

Lemma span_parts (p : N -> bool) (s : jsstring) :
  s = fst (span p s) ++ snd (span p s)
  /\ Forall (fun c => p c = true) (fst (span p s))
  /\ match snd (span p s) with
     | [] => True
     | c :: _ => p c = false
     end.
Proof.
  induction s as [|c s [E [Hf Hs]]]; cbn [span].
  - repeat split; constructor.
  - destruct (p c) eqn:Ec.
    + destruct (span p s) as [a b]. cbn [fst snd] in *.
      split; [cbn; congruence|]. split; [constructor; assumption | exact Hs].
    + cbn [fst snd]. repeat split; [constructor | exact Ec].
Qed.

(** The number a run of decimal digits denotes. *)
Lemma digitsValue_step (ds : jsstring) (acc : Z) (c : N) :
  fold_left (fun acc c => (acc * 10 + (Z.of_N c - 48))%Z) (ds ++ [c]) acc
  = (fold_left (fun acc c => (acc * 10 + (Z.of_N c - 48))%Z) ds acc * 10
     + (Z.of_N c - 48))%Z.
Proof. rewrite fold_left_app. reflexivity. Qed.

Lemma digitsValue_uint (d : Decimal.uint) :
  forall a : nat,
    fold_left (fun acc c => (acc * 10 + (Z.of_N c - 48))%Z)
              (lit (NilEmpty.string_of_uint d)) (Z.of_nat a)
    = Z.of_nat (Nat.of_uint_acc d a).
Proof.
  induction d as [|d IH|d IH|d IH|d IH|d IH|d IH|d IH|d IH|d IH|d IH];
    intros a; [reflexivity|..];
    cbn [NilEmpty.string_of_uint Nat.of_uint_acc];
    rewrite <- IH; unfold lit; cbn [list_ascii_of_string map fold_left];
    f_equal; rewrite Nat.tail_mul_spec; cbn [N_of_ascii N_of_digits]; lia.
Qed.

Lemma digitsValue_zeros (k : nat) (ds : jsstring) :
  digitsValue (repeat 48%N k ++ ds) = digitsValue ds.
Proof.
  unfold digitsValue. rewrite fold_left_app. f_equal.
  induction k as [|k IH]; [reflexivity|]. cbn [repeat fold_left]. exact IH.
Qed.

Lemma digitsValue_decimal (k n : nat) :
  digitsValue (repeat 48%N k ++ decimal n) = Z.of_nat n.
Proof.
  rewrite digitsValue_zeros. unfold digitsValue, decimal.
  change 0%Z with (Z.of_nat 0). rewrite digitsValue_uint.
  fold (Nat.of_uint (Nat.to_uint n)). rewrite DecimalNat.Unsigned.of_to.
  reflexivity.
Qed.

Lemma decimal_nonempty (n : nat) : decimal n <> [].
Proof.
  unfold decimal. intros H.
  destruct (Nat.to_uint n) as [|d|d|d|d|d|d|d|d|d|d] eqn:E;
    try discriminate H.
  assert (E0 : n = 0).
  { rewrite <- (DecimalNat.Unsigned.of_to n), E. reflexivity. }
  subst n. discriminate E.
Qed.

(** [parseInt10] by its first character. *)
Lemma parseInt10_cases (s : jsstring) :
  parseInt10 s
  = match dropWhile isWhiteSpace s with
    | c :: t =>
        if N.eqb c 45 then
          match fst (span isDigit t) with
          | [] => None
          | ds => Some (- digitsValue ds)%Z
          end
        else if N.eqb c 43 then
          match fst (span isDigit t) with
          | [] => None
          | ds => Some (digitsValue ds)
          end
        else
          match fst (span isDigit (c :: t)) with
          | [] => None
          | ds => Some (digitsValue ds)
          end
    | [] => None
    end.
Proof.
  unfold parseInt10.
  destruct (dropWhile isWhiteSpace s) as [|c t]; [reflexivity|].
  destruct c as [|p]; [|do 6 (try (destruct p as [p|p|]))];
    cbn [N.eqb Pos.eqb]; cbv beta iota zeta;
    repeat match goal with
           | |- context [span isDigit ?x] =>
               destruct (span isDigit x) as [[|? ?] ?]
           end;
    reflexivity.
Qed.

Lemma digit_range (c : N) : isDigit c = true -> (48 <= c <= 57)%N.
Proof.
  unfold isDigit, between. rewrite andb_true_iff, !N.leb_le. tauto.
Qed.

Lemma digit_plain (c : N) :
  isDigit c = true ->
  isWhiteSpace c = false /\ N.eqb c 45 = false /\ N.eqb c 43 = false
  /\ N.eqb c 46 = false /\ isSign c = false /\ N.eqb 73 c = false.
Proof.
  intros H. apply digit_range in H.
  unfold isWhiteSpace, isSign, between.
  repeat match goal with
         | |- _ /\ _ => split
         | |- (_ || _) = false => apply orb_false_iff; split
         | |- (_ && _) = false =>
             apply andb_false_iff;
             ((right; apply N.leb_gt; lia) || (left; apply N.leb_gt; lia))
         | |- N.eqb _ _ = false => apply N.eqb_neq; lia
         end.
Qed.

Lemma span_none (p : N -> bool) (s : jsstring) :
  fst (span p s) = []
  <-> match s with
      | [] => True
      | c :: _ => p c = false
      end.
Proof.
  destruct s as [|c s]; cbn [span]; [tauto|].
  destruct (p c); [|tauto].
  destruct (span p s); cbn. split; intros H; discriminate H.
Qed.

(** [parseInt10] takes the longest run of digits after the sign, and
    yields the number it denotes. *)
Lemma parseInt10_value (sign rest : jsstring) (zeros n : nat) :
  optionalSign sign ->
  match rest with
  | [] => True
  | c :: _ => isDigit c = false
  end ->
  parseInt10 (sign ++ repeat 48%N zeros ++ decimal n ++ rest)
  = Some (if jseqb sign [45%N] then (- Z.of_nat n)%Z else Z.of_nat n).
Proof.
  intros Hsign Hrest.
  set (ds := repeat 48%N zeros ++ decimal n).
  assert (Hds : Forall (fun c => isDigit c = true) ds).
  { apply Forall_app. split; [|apply decimal_digits].
    apply Forall_forall. intros c Hc. apply repeat_spec in Hc. subst c.
    reflexivity. }
  assert (Hne : ds <> []).
  { unfold ds. intros H. apply app_eq_nil in H. destruct H as [_ H].
    exact (@decimal_nonempty n H). }
  assert (Hval : digitsValue ds = Z.of_nat n) by apply digitsValue_decimal.
  rewrite (app_assoc (repeat 48%N zeros) (decimal n) rest). fold ds. clearbody ds.
  rewrite parseInt10_cases.
  destruct Hsign as [-> | [-> | ->]]; cbn [app jseqb N.eqb Pos.eqb andb dropWhile].
  - destruct ds as [|c ds']; [contradiction|].
    inversion Hds as [|? ? Hc Hds']; subst.
    destruct (digit_plain c Hc) as (Hw & H45 & H43 & _).
    cbn [app dropWhile]. rewrite Hw, H45, H43.
    change (c :: ds' ++ rest) with ((c :: ds') ++ rest).
    rewrite span_digits by assumption. cbn [fst].
    rewrite Hval. reflexivity.
  - change (isWhiteSpace 43) with false. cbv beta iota.
    cbn [N.eqb Pos.eqb].
    rewrite span_digits by assumption. cbn [fst].
    destruct ds; [contradiction|]. rewrite Hval. reflexivity.
  - change (isWhiteSpace 45) with false. cbv beta iota.
    cbn [N.eqb Pos.eqb].
    rewrite span_digits by assumption. cbn [fst].
    destruct ds; [contradiction|]. rewrite Hval. reflexivity.
Qed.

(** [parseInt10] yields [NaN] exactly on a text that does not begin
    with a digit, after a sign or without one. *)
Lemma parseInt10_none (text : jsstring) :
  match text with
  | [] => True
  | c :: _ => isWhiteSpace c = false
  end ->
  parseInt10 text = None
  <-> ~ exists sign d rest,
          text = sign ++ d :: rest /\ optionalSign sign /\ isDigit d = true.
Proof.
  intros Hw. rewrite parseInt10_cases, dropWhile_same by exact Hw.
  destruct text as [|c t].
  { split; [|reflexivity]. intros _ (sign & d & rest & E & _).
    destruct sign; discriminate E. }
  assert (Hsigned : forall sg,
            (sg = 43%N \/ sg = 45%N) -> c = sg ->
            fst (span isDigit t) = []
            <-> ~ exists sign d rest,
                    c :: t = sign ++ d :: rest /\ optionalSign sign
                    /\ isDigit d = true).
  { intros sg Hsg ->. rewrite span_none. split.
    - intros Ht (sign & d & rest & E & [-> | [-> | ->]] & Hd); cbn [app] in E.
      + injection E as <- _. destruct Hsg as [-> | ->]; discriminate Hd.
      + injection E as _ ->. congruence.
      + injection E as _ ->. congruence.
    - intros Hno. destruct t as [|d rest]; [exact I|].
      destruct (isDigit d) eqn:Hd; [|reflexivity].
      exfalso. apply Hno. exists [sg], d, rest.
      split; [reflexivity|]. split; [|exact Hd].
      destruct Hsg as [-> | ->]; [right; left | right; right]; reflexivity. }
  destruct (N.eqb_spec c 45) as [E45|N45].
  { rewrite <- (Hsigned 45%N (or_intror eq_refl) E45).
    destruct (fst (span isDigit t)); [tauto|].
    split; intros H; discriminate H. }
  destruct (N.eqb_spec c 43) as [E43|N43].
  { rewrite <- (Hsigned 43%N (or_introl eq_refl) E43).
    destruct (fst (span isDigit t)); [tauto|].
    split; intros H; discriminate H. }
  assert (Hplain : fst (span isDigit (c :: t)) = []
                   <-> ~ exists sign d rest,
                           c :: t = sign ++ d :: rest /\ optionalSign sign
                           /\ isDigit d = true).
  { rewrite span_none. split.
    - intros Hc (sign & d & rest & E & [-> | [-> | ->]] & Hd); cbn [app] in E.
      + injection E as <- _. congruence.
      + injection E as -> _. congruence.
      + injection E as -> _. congruence.
    - intros Hno. destruct (isDigit c) eqn:Hd; [|reflexivity].
      exfalso. apply Hno. exists [], c, t.
      split; [reflexivity|]. split; [left; reflexivity | exact Hd]. }
  rewrite <- Hplain.
  destruct (fst (span isDigit (c :: t))); [tauto|].
  split; intros H; discriminate H.
Qed.

End Parsing.

Section ParsingReals.

Import Upload.

Lemma parseFloat_cases (s : jsstring) :
  parseFloat s
  = match dropWhile isWhiteSpace s with
    | c :: t => if isSign c then unsignedFloat [c] t else unsignedFloat [] (c :: t)
    | [] => unsignedFloat [] []
    end.
Proof.
  unfold parseFloat, unsignedFloat.
  assert (H : forall sign body,
    (if startsWith (lit "Infinity") body
     then Some (Infinite (jseqb sign [45%N]))
     else
       let '(intPart, rest) := span isDigit body in
       let '(fracPart, rest0) :=
         match rest with
         | 46%N :: t => let '(f, r) := span isDigit t in (46%N :: f, r)
         | _ => ([], rest)
         end in
       match intPart, fracPart with
       | [], [] => None
       | [], [_] => None
       | _, _ =>
           Some (DecimalLiteral (sign ++ intPart ++ fracPart ++ exponentPart rest0))
       end)
    = (if startsWith (lit "Infinity") body
       then Some (Infinite (jseqb sign [45%N]))
       else
         match fst (span isDigit body),
               match snd (span isDigit body) with
               | c :: t => if N.eqb c 46 then 46%N :: fst (span isDigit t) else []
               | [] => []
               end with
         | [], [] => None
         | [], [_] => None
         | _, _ =>
             Some (DecimalLiteral
                     (sign ++ fst (span isDigit body)
                      ++ match snd (span isDigit body) with
                         | c :: t =>
                             if N.eqb c 46 then 46%N :: fst (span isDigit t) else []
                         | [] => []
                         end
                      ++ exponentPart
                           match snd (span isDigit body) with
                           | c :: t =>
                               if N.eqb c 46 then snd (span isDigit t)
                               else snd (span isDigit body)
                           | [] => snd (span isDigit body)
                           end))
         end)).
  { intros sign body. destruct (startsWith (lit "Infinity") body); [reflexivity|].
    destruct (span isDigit body) as [intPart rest]. cbn [fst snd].
    destruct rest as [|c t]; [destruct intPart; reflexivity|].
    destruct c as [|p]; [|do 6 (try (destruct p as [p|p|]))];
      cbn [N.eqb Pos.eqb]; cbv beta iota zeta;
      try (destruct (span isDigit t) as [f r]; cbn [fst snd]);
      destruct intPart; try reflexivity; destruct f; reflexivity. }
  destruct (dropWhile isWhiteSpace s) as [|c t].
  - apply (H [] []).
  - destruct (isSign c); [apply (H [c] t) | apply (H [] (c :: t))].
Qed.

Lemma unsignedFloat_none (sign body : jsstring) :
  unsignedFloat sign body = None <-> ~ numericStart body.
Proof.
  unfold unsignedFloat, numericStart.
  destruct (startsWith (lit "Infinity") body) eqn:Einf.
  { split; [discriminate | intros H; exfalso; apply H; left; reflexivity]. }
  destruct (span_parts isDigit body) as [Ebody [Hint Hrest]].
  pose proof (span_none isDigit body) as Hnone.
  destruct (fst (span isDigit body)) as [|x intPart].
  - (* no integer part: the body is what is left *)
    cbn [app] in Ebody.
    assert (Hhead : match body with [] => True | c :: _ => isDigit c = false end)
      by (apply Hnone; reflexivity).
    rewrite <- Ebody in *. clear Hnone Hrest Ebody.
    destruct body as [|c t].
    { split; [|reflexivity]. intros _ [H | [(d & r & E & _) | (d & r & E & _)]];
        discriminate. }
    destruct (N.eqb_spec c 46) as [->|Hc].
    + pose proof (span_none isDigit t) as Hfrac.
      destruct (fst (span isDigit t)) as [|y f].
      * split; [|reflexivity]. intros _ [H | [(d & r & E & Hd) | (d & r & E & Hd)]].
        { discriminate. }
        { injection E as <- _. discriminate Hd. }
        { injection E as ->. assert (Ht : isDigit d = false)
            by (apply (proj1 Hfrac eq_refl)). congruence. }
      * split; [discriminate|]. intros H. exfalso. apply H. right. right.
        destruct t as [|d r]; [discriminate (proj2 Hfrac I)|].
        destruct (isDigit d) eqn:Hd; [eauto|].
        discriminate (proj2 Hfrac eq_refl).
    + split; [|reflexivity]. intros _ [H | [(d & r & E & Hd) | (d & r & E & Hd)]].
      * discriminate.
      * injection E as <- _. congruence.
      * injection E as -> _. congruence.
  - (* an integer part *)
    split.
    + intros H. destruct (match snd (span isDigit body) with
                          | [] => []
                          | c :: t => if (c =? 46)%N then 46%N :: fst (span isDigit t) else []
                          end) as [|? [|? ?]]; discriminate H.
    + intros H. exfalso. apply H. right. left.
      inversion Hint; subst. rewrite Ebody. cbn [app]. eauto.
Qed.

Lemma exponentPart_prefix (s : jsstring) :
  exists rest, s = exponentPart s ++ rest.
Proof.
  unfold exponentPart.
  destruct s as [|e t]; [exists []; reflexivity|].
  destruct (isExponentMark e); [|exists (e :: t); reflexivity].
  destruct t as [|sg t']; [exists [e]; reflexivity|].
  destruct (isSign sg).
  - destruct (span_parts isDigit t') as [E _].
    destruct (fst (span isDigit t')) as [|x ds];
      [exists (e :: sg :: t'); reflexivity|].
    exists (snd (span isDigit t')). cbn [app]. rewrite E at 1. reflexivity.
  - destruct (span_parts isDigit (sg :: t')) as [E _].
    destruct (fst (span isDigit (sg :: t'))) as [|x ds];
      [exists (e :: sg :: t'); reflexivity|].
    exists (snd (span isDigit (sg :: t'))). cbn [app]. rewrite E at 1. reflexivity.
Qed.

Lemma unsignedFloat_prefix (sign body literal : jsstring) :
  unsignedFloat sign body = Some (DecimalLiteral literal) ->
  exists rest, sign ++ body = literal ++ rest.
Proof.
  unfold unsignedFloat.
  destruct (startsWith (lit "Infinity") body); [discriminate|].
  destruct (span_parts isDigit body) as [Ebody _].
  set (intPart := fst (span isDigit body)) in *.
  set (rest := snd (span isDigit body)) in *.
  assert (Hfrac : exists tail,
            rest = match rest with
                   | c :: t => if N.eqb c 46 then 46%N :: fst (span isDigit t) else []
                   | [] => []
                   end
                   ++ exponentPart
                        match rest with
                        | c :: t => if N.eqb c 46 then snd (span isDigit t) else rest
                        | [] => rest
                        end
                   ++ tail).
  { destruct rest as [|c t].
    - destruct (exponentPart_prefix []) as [tail E]. exists tail. exact E.
    - destruct (N.eqb_spec c 46) as [->|Hc].
      + destruct (span_parts isDigit t) as [Et _].
        destruct (exponentPart_prefix (snd (span isDigit t))) as [tail E].
        exists tail. cbn [app]. rewrite <- E, <- Et. reflexivity.
      + destruct (exponentPart_prefix (c :: t)) as [tail E].
        exists tail. cbn [app]. exact E. }
  destruct Hfrac as [tail Etail].
  intros H.
  assert (Hlit : literal
                 = sign ++ intPart
                   ++ match rest with
                      | c :: t => if N.eqb c 46 then 46%N :: fst (span isDigit t) else []
                      | [] => []
                      end
                   ++ exponentPart
                        match rest with
                        | c :: t => if N.eqb c 46 then snd (span isDigit t) else rest
                        | [] => rest
                        end).
  { destruct intPart;
      destruct (match rest with
                | c :: t => if N.eqb c 46 then 46%N :: fst (span isDigit t) else []
                | [] => []
                end) as [|? [|? ?]];
      try discriminate H; injection H as <-; reflexivity. }
  exists tail. rewrite Hlit, Ebody. rewrite Etail at 1.
  rewrite <- !app_assoc. reflexivity.
Qed.

Lemma sign_chars (c : N) : isSign c = true <-> c = 43%N \/ c = 45%N.
Proof.
  unfold isSign. rewrite orb_true_iff, !N.eqb_eq. tauto.
Qed.

Lemma numericStart_unsigned (c : N) (t : jsstring) :
  isSign c = true -> ~ numericStart (c :: t).
Proof.
  intros Hc [H | [(d & r & E & Hd) | (d & r & E & Hd)]].
  - apply sign_chars in Hc. destruct Hc as [-> | ->]; discriminate H.
  - injection E as -> _. destruct (digit_plain d Hd) as (_ & _ & _ & _ & Hs & _).
    congruence.
  - injection E as -> _. discriminate Hc.
Qed.

(** [parseFloat] yields [NaN] exactly on a text that does not begin as a
    number does, after a sign or without one. *)
Lemma parseFloat_none (text : jsstring) :
  match text with
  | [] => True
  | c :: _ => isWhiteSpace c = false
  end ->
  parseFloat text = None
  <-> ~ exists sign body,
          text = sign ++ body /\ optionalSign sign /\ numericStart body.
Proof.
  intros Hw. rewrite parseFloat_cases, dropWhile_same by exact Hw.
  destruct text as [|c t].
  { rewrite unsignedFloat_none. split.
    - intros H (sign & body & E & _ & Hn). symmetry in E.
      apply app_eq_nil in E. destruct E as [_ ->]. exact (H Hn).
    - intros H Hn. apply H. exists [], []. split; [reflexivity|].
      split; [left; reflexivity | exact Hn]. }
  destruct (isSign c) eqn:Hc; rewrite unsignedFloat_none.
  - split.
    + intros H (sign & body & E & [-> | [-> | ->]] & Hn); cbn [app] in E.
      * subst body. exact (@numericStart_unsigned c t Hc Hn).
      * injection E as _ ->. exact (H Hn).
      * injection E as _ ->. exact (H Hn).
    + intros H Hn. apply H. exists [c], t. split; [reflexivity|].
      split; [|exact Hn]. apply sign_chars in Hc.
      destruct Hc as [-> | ->]; [right; left | right; right]; reflexivity.
  - split.
    + intros H (sign & body & E & [-> | [-> | ->]] & Hn); cbn [app] in E.
      * subst body. exact (H Hn).
      * injection E as -> _. discriminate Hc.
      * injection E as -> _. discriminate Hc.
    + intros H Hn. apply H. exists [], (c :: t). split; [reflexivity|].
      split; [left; reflexivity | exact Hn].
Qed.

(** The literal that [parseFloat] keeps is the text's own beginning. *)
Lemma parseFloat_prefix (text literal : jsstring) :
  match text with
  | [] => True
  | c :: _ => isWhiteSpace c = false
  end ->
  parseFloat text = Some (DecimalLiteral literal) ->
  exists rest, text = literal ++ rest.
Proof.
  intros Hw. rewrite parseFloat_cases, dropWhile_same by exact Hw.
  destruct text as [|c t].
  - intros H. apply unsignedFloat_prefix in H. exact H.
  - destruct (isSign c); intros H; apply unsignedFloat_prefix in H; exact H.
Qed.

(** A decimal number at the head of the text, with digits before the
    point and no exponent behind it, is kept up to where it ends. *)
Lemma parseFloat_value (sign ints frac rest : jsstring) :
  optionalSign sign ->
  Forall (fun c => isDigit c = true) ints ->
  ints <> [] ->
  frac = []
  \/ (exists fs, frac = 46%N :: fs /\ Forall (fun c => isDigit c = true) fs) ->
  match rest with
  | [] => True
  | c :: _ =>
      isDigit c = false /\ isExponentMark c = false
      /\ (frac = [] -> N.eqb c 46 = false)
  end ->
  parseFloat (sign ++ ints ++ frac ++ rest)
  = Some (DecimalLiteral (sign ++ ints ++ frac)).
Proof.
  intros Hs Hi Hne Hf Hr.
  destruct ints as [|d ints']; [contradiction|].
  assert (Hd : isDigit d = true) by (inversion Hi; assumption).
  destruct (digit_plain d Hd) as (Hw & _ & _ & H46 & Hsg & HI).
  assert (Hun : parseFloat (sign ++ (d :: ints') ++ frac ++ rest)
                = unsignedFloat sign ((d :: ints') ++ frac ++ rest)).
  { rewrite parseFloat_cases.
    destruct Hs as [-> | [-> | ->]]; cbn [app].
    - rewrite dropWhile_same by exact Hw. rewrite Hsg. reflexivity.
    - rewrite dropWhile_same by reflexivity. reflexivity.
    - rewrite dropWhile_same by reflexivity. reflexivity. }
  rewrite Hun. unfold unsignedFloat.
  assert (Hinf : startsWith (lit "Infinity") ((d :: ints') ++ frac ++ rest) = false).
  { cbn [app]. change (lit "Infinity") with (73%N :: lit "nfinity").
    cbn [startsWith]. rewrite HI. reflexivity. }
  rewrite Hinf.
  assert (Hspan : span isDigit ((d :: ints') ++ frac ++ rest)
                  = (d :: ints', frac ++ rest)).
  { apply span_digits; [exact Hi|].
    destruct Hf as [-> | (fs & -> & _)]; cbn [app]; [|reflexivity].
    destruct rest; [exact I | apply Hr]. }
  rewrite Hspan. cbn [fst snd].
  assert (Hexp : exponentPart rest = []).
  { destruct rest as [|c rest]; [reflexivity|].
    destruct Hr as (_ & He & _). unfold exponentPart. rewrite He. reflexivity. }
  destruct Hf as [-> | (fs & -> & Hfs)]; cbn [app].
  - destruct rest as [|c rest]; [reflexivity|].
    destruct Hr as (Hc & He & Hp). rewrite (Hp eq_refl).
    rewrite Hexp. rewrite !app_nil_r. reflexivity.
  - rewrite N.eqb_refl.
    assert (Hfrac : span isDigit (fs ++ rest) = (fs, rest)).
    { apply span_digits; [exact Hfs|]. destruct rest; [exact I | apply Hr]. }
    rewrite Hfrac. cbn [fst snd]. rewrite Hexp, app_nil_r. reflexivity.
Qed.

End ParsingReals.

(** ** Bulk load: the loop of inserts *)

Section Loading.

Import Database Js DatabaseManager Upload BulkLoad.

Variable dateParse : jsstring -> option Z.
Variable toISOString : Z -> jsstring.
Variable insertInto :
  jsstring -> list jsstring -> list Cell -> Store -> jsstring + (Store * nat).

(** The loop hands the engine one insert per row until the engine
    refuses one, and throws the message of the refusal. *)
Lemma insertRows_run (tableName : jsstring) (cols : list jsstring)
    (columnTypes : jsstring -> ColumnType) (data : list Row) :
  forall db,
    raises (engine db) (Query (insertQuery tableName cols)) = None ->
    match afterInserts insertInto tableName cols
            (map (rowValues dateParse toISOString cols columnTypes) data)
            (store db) with
    | inr st' =>
        insertRows dateParse toISOString insertInto tableName cols columnTypes
                   data db
        = (Normal tt,
           mkDb (engine db) st'
                (journal db
                 ++ repeat (Query (insertQuery tableName cols)) (List.length data)))
    | inl message =>
        exists db',
          insertRows dateParse toISOString insertInto tableName cols columnTypes
                     data db
          = (Throw message, db')
    end.
Proof.
  induction data as [|row rest IH]; intros db Hr;
    cbn [map afterInserts insertRows List.length repeat].
  - rewrite app_nil_r. destruct db; reflexivity.
  - unfold bind, call, executeWith. rewrite Hr.
    destruct (insertInto tableName cols
                (rowValues dateParse toISOString cols columnTypes row) (store db))
      as [message | [st' rowid]].
    + cbv beta iota zeta.
      cbn [success failed negb ChatHistory.errorOf error throw].
      eexists. reflexivity.
    + cbv beta iota zeta. cbn [success negb]. cbv beta iota.
      specialize (IH (mkDb (engine db) st'
                           (journal db ++ [Query (insertQuery tableName cols)])) Hr).
      cbn [store engine journal] in IH.
      destruct (afterInserts insertInto tableName cols
                  (map (rowValues dateParse toISOString cols columnTypes) rest) st')
        as [message | st''].
      * exact IH.
      * rewrite IH. rewrite <- app_assoc. reflexivity.
Qed.

(** The transaction around the loop: a refusal undoes the rows already
    inserted. *)
Lemma insertAll_run (tableName : jsstring) (cols : list jsstring)
    (data : list Row) (db : Db) :
  raises (engine db) (Query (insertQuery tableName cols)) = None ->
  match afterInserts insertInto tableName cols
          (map (rowValues dateParse toISOString cols
                          (columnTypesOf dateParse data)) data)
          (store db) with
  | inr st' =>
      insertAll dateParse toISOString insertInto tableName cols data db
      = (Normal tt,
         mkDb (engine db) st'
              (journal db
               ++ repeat (Query (insertQuery tableName cols)) (List.length data)))
  | inl message =>
      exists db',
        insertAll dateParse toISOString insertInto tableName cols data db
        = (Throw message, db')
        /\ store db' = store db
  end.
Proof.
  intros Hr.
  pose proof (insertRows_run tableName cols (columnTypesOf dateParse data) data db Hr)
    as H.
  unfold insertAll, bind, call, transaction.
  destruct (afterInserts insertInto tableName cols
              (map (rowValues dateParse toISOString cols
                              (columnTypesOf dateParse data)) data) (store db))
    as [message | st'].
  - destruct H as [db' H]. rewrite H.
    cbn [t_success negb transactionError t_error throw].
    eexists. split; reflexivity.
  - rewrite H. reflexivity.
Qed.

End Loading.

(** ** Bulk load: the conversion of one cell *)

(** C3, as stated, fails in two ways.  A column whose first hundred
    values are ISO dates is typed [DATE]; a later cell [soon] of that
    column is present, is not a valid date, and is stored as the text
    [soon], not as null.  A column whose first hundred values are [7] is
    typed [INTEGER]; a later cell [12abc] of that column is present, is
    not an integer (it does not match the integer pattern), and is stored
    as the number 12, not as null. *)
Lemma convertValue_invalid_date_not_null :
  (let column := repeat (Upload.JString (lit "2024-01-01")) 100
                 ++ [Upload.JString (lit "soon")] in
   Upload.inferColumnType Upload.isoDateParse column = Upload.DATE
   /\ Upload.isPresent (Upload.JString (lit "soon")) = true
   /\ Upload.isValidDate Upload.isoDateParse (trim (lit "soon")) = false
   /\ Upload.convertValue Upload.isoDateParse Upload.isoFormat Upload.DATE
        (Upload.JString (lit "soon")) = Upload.CellString (lit "soon")
   /\ Upload.convertValue Upload.isoDateParse Upload.isoFormat Upload.DATE
        (Upload.JString (lit "soon")) <> Upload.CellNull)
  /\ (let column := repeat (Upload.JString (lit "7")) 100
                    ++ [Upload.JString (lit "12abc")] in
      Upload.inferColumnType Upload.isoDateParse column = Upload.INTEGER
      /\ Upload.isPresent (Upload.JString (lit "12abc")) = true
      /\ Regex.matchesWhole Upload.integerPattern (trim (lit "12abc")) = false
      /\ Upload.convertValue Upload.isoDateParse Upload.isoFormat Upload.INTEGER
           (Upload.JString (lit "12abc")) = Upload.CellInteger 12
      /\ Upload.convertValue Upload.isoDateParse Upload.isoFormat Upload.INTEGER
           (Upload.JString (lit "12abc")) <> Upload.CellNull).
Proof.
  cbv zeta. repeat split; try (vm_compute; reflexivity);
    vm_compute; discriminate.
Qed.

(** C3, amended.  A null, undefined or empty cell is stored as null.  A
    present cell is rendered as text and trimmed, and then: in an integer
    column it is stored as null exactly when the text does not begin with
    a digit, after a sign or without one, and otherwise as the integer of
    its leading digits, whatever follows them; in a real column it is
    stored as null exactly when the text does not begin as a number does,
    and otherwise as the number of a leading part of the text, which is
    the whole decimal number when one with digits before the point stands
    there without an exponent; in a date column a valid date is stored in
    ISO form and any other text as it is; in a text column the text is
    stored.  No conversion fails the load: when the engine accepts every
    insert, the load ends normally with one insert per row, in order, of
    the converted values; when the engine refuses one, the load throws
    the engine's message and the store is as before. *)
Theorem convertValue_degrades :
  forall (dateParse : jsstring -> option Z) (toISOString : Z -> jsstring),
    (forall columnType value,
       Upload.isPresent value = false ->
       Upload.convertValue dateParse toISOString columnType value
       = Upload.CellNull)
    /\ (forall value,
          Upload.isPresent value = true ->
          Upload.convertValue dateParse toISOString Upload.INTEGER value
          = Upload.CellNull
          <-> ~ exists sign d rest,
                  trim (Upload.String_ value) = sign ++ d :: rest
                  /\ Upload.optionalSign sign /\ isDigit d = true)
    /\ (forall value sign zeros n rest,
          Upload.isPresent value = true ->
          trim (Upload.String_ value)
          = sign ++ repeat 48%N zeros ++ decimal n ++ rest ->
          Upload.optionalSign sign ->
          match rest with
          | [] => True
          | c :: _ => isDigit c = false
          end ->
          (Z.of_nat n <= 2 ^ 53)%Z ->
          Upload.convertValue dateParse toISOString Upload.INTEGER value
          = Upload.CellInteger
              (if jseqb sign [45%N] then - Z.of_nat n else Z.of_nat n)%Z)
    /\ (forall value,
          Upload.isPresent value = true ->
          Upload.convertValue dateParse toISOString Upload.REAL value
          = Upload.CellNull
          <-> ~ exists sign body,
                  trim (Upload.String_ value) = sign ++ body
                  /\ Upload.optionalSign sign /\ Upload.numericStart body)
    /\ (forall value literal,
          Upload.isPresent value = true ->
          Upload.convertValue dateParse toISOString Upload.REAL value
          = Upload.CellFloat (Upload.DecimalLiteral literal) ->
          exists rest, trim (Upload.String_ value) = literal ++ rest)
    /\ (forall value sign ints frac rest,
          Upload.isPresent value = true ->
          trim (Upload.String_ value) = sign ++ ints ++ frac ++ rest ->
          Upload.optionalSign sign ->
          Forall (fun c => isDigit c = true) ints ->
          ints <> [] ->
          frac = []
          \/ (exists fs, frac = 46%N :: fs
                         /\ Forall (fun c => isDigit c = true) fs) ->
          match rest with
          | [] => True
          | c :: _ =>
              isDigit c = false /\ Upload.isExponentMark c = false
              /\ (frac = [] -> N.eqb c 46 = false)
          end ->
          Upload.convertValue dateParse toISOString Upload.REAL value
          = Upload.CellFloat (Upload.DecimalLiteral (sign ++ ints ++ frac)))
    /\ (forall value t,
          Upload.isPresent value = true ->
          dateParse (trim (Upload.String_ value)) = Some t ->
          Upload.convertValue dateParse toISOString Upload.DATE value
          = Upload.CellString (toISOString t))
    /\ (forall value,
          Upload.isPresent value = true ->
          dateParse (trim (Upload.String_ value)) = None ->
          Upload.convertValue dateParse toISOString Upload.DATE value
          = Upload.CellString (trim (Upload.String_ value)))
    /\ (forall value,
          Upload.isPresent value = true ->
          Upload.convertValue dateParse toISOString Upload.TEXT value
          = Upload.CellString (trim (Upload.String_ value)))
    /\ (forall insertInto tableName normalizedColumns normalizedData db,
          let statement :=
            Database.Query (BulkLoad.insertQuery tableName normalizedColumns) in
          let rows :=
            map (Upload.rowValues dateParse toISOString normalizedColumns
                   (BulkLoad.columnTypesOf dateParse normalizedData))
                normalizedData in
          Database.raises (Database.engine db) statement = None ->
          (forall st',
             BulkLoad.afterInserts insertInto tableName normalizedColumns rows
               (Database.store db) = inr st' ->
             BulkLoad.insertAll dateParse toISOString insertInto tableName
               normalizedColumns normalizedData db
             = (Js.Normal tt,
                Database.mkDb (Database.engine db) st'
                  (Database.journal db
                   ++ repeat statement (List.length normalizedData))))
          /\ (forall message,
                BulkLoad.afterInserts insertInto tableName normalizedColumns rows
                  (Database.store db) = inl message ->
                exists db',
                  BulkLoad.insertAll dateParse toISOString insertInto tableName
                    normalizedColumns normalizedData db
                  = (Js.Throw message, db')
                  /\ Database.store db' = Database.store db))
    /\ map (fun s => Upload.convertValue dateParse toISOString Upload.INTEGER
                       (Upload.JString (lit s)))
           ["12abc"; "1.9"; "1e5"; " -007 "; "n/a"; "-"]%string
       = [Upload.CellInteger 12; Upload.CellInteger 1; Upload.CellInteger 1;
          Upload.CellInteger (-7); Upload.CellNull; Upload.CellNull]
    /\ map (fun s => Upload.convertValue dateParse toISOString Upload.REAL
                       (Upload.JString (lit s)))
           ["1e5"; "3.14abc"; "-.5"; "."; "abc"; "-Infinity"]%string
       = [Upload.CellFloat (Upload.DecimalLiteral (lit "1e5"));
          Upload.CellFloat (Upload.DecimalLiteral (lit "3.14"));
          Upload.CellFloat (Upload.DecimalLiteral (lit "-.5"));
          Upload.CellNull; Upload.CellNull;
          Upload.CellFloat (Upload.Infinite true)].
Proof.
  intros dateParse toISOString.
  assert (Hconv : forall columnType value,
            Upload.isPresent value = true ->
            Upload.convertValue dateParse toISOString columnType value
            = match columnType with
              | Upload.INTEGER =>
                  match Upload.parseInt10 (trim (Upload.String_ value)) with
                  | None => Upload.CellNull
                  | Some intValue => Upload.CellInteger intValue
                  end
              | Upload.REAL =>
                  match Upload.parseFloat (trim (Upload.String_ value)) with
                  | None => Upload.CellNull
                  | Some floatValue => Upload.CellFloat floatValue
                  end
              | Upload.DATE =>
                  match dateParse (trim (Upload.String_ value)) with
                  | None => Upload.CellString (trim (Upload.String_ value))
                  | Some dateValue => Upload.CellString (toISOString dateValue)
                  end
              | Upload.TEXT => Upload.CellString (trim (Upload.String_ value))
              end).
  { intros columnType value Hp. unfold Upload.convertValue. rewrite Hp.
    reflexivity. }
  split.
  { intros columnType value H. unfold Upload.convertValue. rewrite H.
    reflexivity. }
  split.
  { intros value Hp. rewrite (Hconv _ _ Hp).
    rewrite <- (parseInt10_none _ (trim_first (Upload.String_ value))).
    destruct (Upload.parseInt10 (trim (Upload.String_ value)));
      split; intros H; (discriminate H || reflexivity). }
  split.
  { intros value sign zeros n rest Hp E Hsign Hrest _.
    rewrite (Hconv _ _ Hp), E, (parseInt10_value _ zeros n Hsign Hrest).
    reflexivity. }
  split.
  { intros value Hp. rewrite (Hconv _ _ Hp).
    rewrite <- (parseFloat_none _ (trim_first (Upload.String_ value))).
    destruct (Upload.parseFloat (trim (Upload.String_ value)));
      split; intros H; (discriminate H || reflexivity). }
  split.
  { intros value literal Hp. rewrite (Hconv _ _ Hp).
    destruct (Upload.parseFloat (trim (Upload.String_ value))) as [f|] eqn:E;
      [|discriminate].
    intros H. injection H as ->.
    exact (parseFloat_prefix _ (trim_first (Upload.String_ value)) E). }
  split.
  { intros value sign ints frac rest Hp E Hsign Hints Hne Hfrac Hrest.
    rewrite (Hconv _ _ Hp), E,
      (@parseFloat_value _ _ _ _ Hsign Hints Hne Hfrac Hrest).
    reflexivity. }
  split.
  { intros value t Hp E. rewrite (Hconv _ _ Hp), E. reflexivity. }
  split.
  { intros value Hp E. rewrite (Hconv _ _ Hp), E. reflexivity. }
  split.
  { intros value Hp. rewrite (Hconv _ _ Hp). reflexivity. }
  split.
  { intros insertInto tableName normalizedColumns normalizedData db
           statement rows Hr.
    pose proof (insertAll_run dateParse toISOString insertInto tableName
                  normalizedColumns normalizedData db Hr) as H.
    fold rows in H. fold statement in H.
    destruct (BulkLoad.afterInserts insertInto tableName normalizedColumns rows
                (Database.store db)) as [message | st'].
    - split; [discriminate|]. intros m Hm. injection Hm as <-. exact H.
    - split; [|discriminate]. intros st'' Hs. injection Hs as <-. exact H. }
  split; vm_compute; reflexivity.
Qed.

(** The cells [n/a], [-007xyz], [abc], [3.14abc], [2024-01-01] and [soon]
    under the column types, and the load of two rows into a table of
    three. *)
Lemma convertValue_degrades_witness :
  Upload.convertValue Upload.isoDateParse Upload.isoFormat Upload.REAL
    Upload.JUndefined = Upload.CellNull
  /\ Upload.convertValue Upload.isoDateParse Upload.isoFormat Upload.INTEGER
       (Upload.JString (lit "n/a")) = Upload.CellNull
  /\ Upload.convertValue Upload.isoDateParse Upload.isoFormat Upload.INTEGER
       (Upload.JString (lit " -007xyz")) = Upload.CellInteger (-7)
  /\ Upload.convertValue Upload.isoDateParse Upload.isoFormat Upload.REAL
       (Upload.JString (lit "abc")) = Upload.CellNull
  /\ Upload.convertValue Upload.isoDateParse Upload.isoFormat Upload.REAL
       (Upload.JString (lit "3.14abc"))
     = Upload.CellFloat (Upload.DecimalLiteral (lit "3.14"))
  /\ (exists rest, trim (lit "3.14abc") = lit "3.14" ++ rest)
  /\ Upload.convertValue Upload.isoDateParse Upload.isoFormat Upload.DATE
       (Upload.JString (lit "2024-01-01"))
     = Upload.CellString (lit "2024-01-01T00:00:00.000Z")
  /\ Upload.convertValue Upload.isoDateParse Upload.isoFormat Upload.DATE
       (Upload.JString (lit "soon")) = Upload.CellString (lit "soon")
  /\ Upload.convertValue Upload.isoDateParse Upload.isoFormat Upload.TEXT
       (Upload.JString (lit " a b ")) = Upload.CellString (lit "a b")
  /\ (let columns := [lit "amount"; lit "day"] in
      let data :=
        [BulkLoad.rowOf [(lit "amount", Upload.JString (lit "7"));
                         (lit "day", Upload.JString (lit "2024-01-01"))];
         BulkLoad.rowOf [(lit "amount", Upload.JString []);
                         (lit "day", Upload.JString (lit "soon"))]] in
      let db :=
        Database.mkDb Sample.healthy
          (Database.mkStore [] [] [(lit "data_xy", Sample.tableOf 3)]) [] in
      let loaded :=
        Database.mkStore [] []
          [(lit "data_xy",
            Database.mkTable (Database.tableColumns (Sample.tableOf 3))
              (Database.tableRows (Sample.tableOf 3)
               ++ [[(lit "amount", Upload.CellInteger 7);
                    (lit "day", Upload.CellString (lit "2024-01-01"))];
                   [(lit "amount", Upload.CellNull);
                    (lit "day", Upload.CellString (lit "soon"))]]))] in
      BulkLoad.insertAll Upload.isoDateParse Upload.isoFormat BulkLoad.appendRow
        (lit "data_xy") columns data db
      = (Js.Normal tt,
         Database.mkDb Sample.healthy loaded
           (repeat (Database.Query (BulkLoad.insertQuery (lit "data_xy") columns))
                   2))).
Proof.
  destruct (convertValue_degrades Upload.isoDateParse Upload.isoFormat)
    as (Habsent & Hint & Hvalue & Hreal & Hprefix & Hdecimal & Hiso & Hkept
        & Htext & Hload & _).
  split; [apply Habsent; reflexivity|].
  split.
  { apply (Hint (Upload.JString (lit "n/a"))); [reflexivity|].
    intros (sign & d & rest & E & [-> | [-> | ->]] & Hd);
      vm_compute in E; try discriminate E;
      injection E as <- _; discriminate Hd. }
  split.
  { apply (Hvalue (Upload.JString (lit " -007xyz")) [45%N] 2 7 (lit "xyz"));
      [reflexivity | reflexivity | right; right; reflexivity | reflexivity
      | apply Z.leb_le; reflexivity]. }
  split.
  { apply (Hreal (Upload.JString (lit "abc"))); [reflexivity|].
    intros (sign & body & E & [-> | [-> | ->]] & Hn);
      vm_compute in E; try discriminate E; subst body;
      destruct Hn as [H | [(d & r & E & Hd) | (d & r & E & Hd)]];
      try discriminate H; try discriminate E;
      injection E as <- <-; discriminate Hd. }
  split.
  { apply (Hdecimal (Upload.JString (lit "3.14abc")) [] (lit "3") (lit ".14")
             (lit "abc")); try reflexivity.
    - left; reflexivity.
    - repeat constructor.
    - discriminate.
    - right. exists (lit "14"). split; [reflexivity | repeat constructor].
    - split; [reflexivity|]. split; [reflexivity|]. discriminate. }
  split.
  { exact (Hprefix (Upload.JString (lit "3.14abc")) (lit "3.14")
                   eq_refl eq_refl). }
  split.
  { exact (Hiso (Upload.JString (lit "2024-01-01")) 1704067200000%Z
                eq_refl eq_refl). }
  split.
  { apply (Hkept (Upload.JString (lit "soon"))); reflexivity. }
  split.
  { apply (Htext (Upload.JString (lit " a b "))); reflexivity. }
  cbv zeta.
  apply (Hload BulkLoad.appendRow (lit "data_xy") [lit "amount"; lit "day"]);
    reflexivity.
Defined.

(** ** The SQL tool *)

Section ExecuteSql.

Import Database Js ReactState ReactTools.

Lemma callReasoningCallback_frame (r : jsstring) (prefix : option jsstring) (w : World) :
  forall c w',
    callReasoningCallback r prefix w = (c, w') ->
    db w' = db w
    /\ globalReActState w' = globalReActState w
    /\ globalReasoningCallback w' = globalReasoningCallback w.
Proof.
  intros c w'. unfold callReasoningCallback, bind, get, ret, invoke.
  destruct (globalReasoningCallback w) as [cb|] eqn:Ecb.
  - destruct (truthy (Some r)).
    + destruct (cb _); intros H; injection H as _ <-; simpl; auto.
    + intros H; injection H as _ <-; auto.
  - intros H; injection H as _ <-; auto.
Qed.

Lemma announce_frame (reasoning : option jsstring) (w : World) :
  forall c w',
    announce reasoning w = (c, w') ->
    db w' = db w
    /\ globalReActState w' = globalReActState w
    /\ globalReasoningCallback w' = globalReasoningCallback w.
Proof.
  intros c w'. unfold announce.
  destruct reasoning as [r|].
  - destruct (truthy (Some r)).
    + apply callReasoningCallback_frame.
    + unfold ret. intros H; injection H as _ <-; auto.
  - unfold ret. intros H; injection H as _ <-; auto.
Qed.

Lemma startsWith_spec (p s : jsstring) :
  startsWith p s = true <-> exists post, s = p ++ post.
Proof.
  revert s; induction p as [|x p IH]; intros s; simpl.
  - split; [intros _; exists s; reflexivity | reflexivity].
  - destruct s as [|y s]; simpl.
    + split; [discriminate | intros [post H]; discriminate].
    + rewrite andb_true_iff, N.eqb_eq, IH. split.
      * intros [-> [post ->]]. exists post. reflexivity.
      * intros [post H]. injection H as -> ->. split; [reflexivity | eauto].
Qed.

Lemma includes_spec (sub s : jsstring) :
  includes sub s = true <-> exists pre post, s = pre ++ sub ++ post.
Proof.
  induction s as [|c s IH]; simpl.
  - rewrite orb_false_r, startsWith_spec. split.
    + intros [post H]. exists [], post. exact H.
    + intros [pre [post H]]. destruct pre; [eauto | discriminate].
  - rewrite orb_true_iff, startsWith_spec, IH. split.
    + intros [[post H] | [pre [post H]]].
      * exists [], post. exact H.
      * exists (c :: pre), post. simpl. congruence.
    + intros [[|x pre] [post H]].
      * left. exists post. exact H.
      * right. injection H as -> ->. eauto.
Qed.

Lemma includes_inner (a b c s : jsstring) :
  includes (a ++ b ++ c) s = true -> includes b s = true.
Proof.
  rewrite !includes_spec. intros [pre [post ->]].
  exists (pre ++ a), (c ++ post). rewrite <- !app_assoc. reflexivity.
Qed.

(** The quoted forms add nothing to the table-name check: a query that
    holds the quoted name holds the bare one. *)
Lemma mentionsTable_bare (tableName query : jsstring) :
  mentionsTable toLowerCase tableName query
  = includes (toLowerCase tableName) (toLowerCase query).
Proof.
  unfold mentionsTable, quoted.
  destruct (includes (toLowerCase tableName) (toLowerCase query)) eqn:E;
    [reflexivity|].
  cbn [orb].
  rewrite !toLowerCase_app.
  destruct (includes (toLowerCase [34%N] ++ _ ++ _) _) eqn:E1.
  { apply includes_inner in E1. congruence. }
  destruct (includes (toLowerCase [39%N] ++ _ ++ _) _) eqn:E2.
  { apply includes_inner in E2. congruence. }
  reflexivity.
Qed.

Lemma select_frame {R} (s : Stmt) (eval : Store -> jsstring + list R) (d : Db) :
  journal (snd (select s eval d)) = journal d ++ [s]
  /\ store (snd (select s eval d)) = store d
  /\ engine (snd (select s eval d)) = engine d.
Proof.
  unfold select.
  destruct (raises (engine d) s); [simpl; auto|].
  destruct (eval (store d)); simpl; auto.
Qed.

(** What a call of the SQL tool comes to.  Either it stops before the
    storage is asked anything, for one of four reasons, or the capped
    query is handed to the engine, once, and the result reports what the
    engine answered. *)
Lemma executeSqlTool_outcome (lower upper : jsstring -> jsstring) (w : World)
    (query fileId : jsstring) (reasoning : option jsstring) :
  exists result w',
    executeSqlTool lower upper query fileId reasoning w = (Normal result, w')
    /\ ((q_success result = false
         /\ db w' = db w
         /\ ((exists e, fst (announce reasoning w) = Throw e
                        /\ q_error result = Some e)
             \/ (fst (announce reasoning w) = Normal tt
                 /\ ((startsWith (lit "select") (lower (trim query)) = false
                      /\ q_error result = Some selectOnlyMessage)
                     \/ (exists found,
                           find (fun syntax => includes syntax (lower (trim query)))
                                sqliteIncompatible = Some found
                           /\ q_error result = Some (incompatibleMessage upper found))
                     \/ (startsWith (lit "select") (lower (trim query)) = true
                         /\ find (fun syntax => includes syntax (lower (trim query)))
                                 sqliteIncompatible = None
                         /\ mentionsTable lower (tableNameOf fileId) query = false
                         /\ q_error result = Some (scopeMessage (tableNameOf fileId)))))))
        \/ (fst (announce reasoning w) = Normal tt
            /\ accepted lower query fileId = true
            /\ journal (db w') = journal (db w) ++ [Query (limitedQueryOf lower query)]
            /\ store (db w') = store (db w)
            /\ let answer := fst (selectQuery (limitedQueryOf lower query) (db w)) in
               q_success result = success answer
               /\ (success answer = true ->
                   q_data result
                   = Some (match data answer with Some rows => rows | None => [] end)
                   /\ q_rowCount result
                      = Some (List.length
                                (match data answer with Some rows => rows | None => [] end)))
               /\ (success answer = false -> q_error result = error answer \/ error answer = None))).
Proof.
  unfold executeSqlTool, accepted, tryCatch, bind.
  destruct (announce reasoning w) as [[[]|e] w1] eqn:Ea;
    destruct (announce_frame _ _ Ea) as [Hdb [Hst _]].
  2:{ unfold throw, incrementErrorCount, shouldReplan, modify, get, ret.
      eexists. eexists. split; [reflexivity|]. left. cbn.
      repeat split; auto. left. exists e. auto. }
  destruct (startsWith (lit "select") (lower (trim query))) eqn:Hsel.
  2:{ cbn [negb].
      unfold throw, incrementErrorCount, shouldReplan, modify, get, ret.
      eexists. eexists. split; [reflexivity|]. left. cbn.
      repeat split; auto. }
  cbn [negb].
  destruct (find _ sqliteIncompatible) as [found|] eqn:Hfind.
  { unfold throw, incrementErrorCount, shouldReplan, modify, get, ret.
    eexists. eexists. split; [reflexivity|]. left. cbn.
    repeat split; auto. right. split; [reflexivity|]. right. left. eauto. }
  destruct (mentionsTable lower (tableNameOf fileId) query) eqn:Hment.
  2:{ cbn [negb].
      unfold throw, incrementErrorCount, shouldReplan, modify, get, ret.
      eexists. eexists. split; [reflexivity|]. left. cbn.
      repeat split; auto. right. split; [reflexivity|]. right. right. auto. }
  cbn [negb andb]. unfold onDb. rewrite Hdb.
  pose proof (select_frame (Query (limitedQueryOf lower query))
                (fun st => evalQuery (engine (db w)) st (limitedQueryOf lower query))
                (db w)) as [Hj [Hs _]].
  fold (selectQuery (limitedQueryOf lower query) (db w)) in Hj, Hs.
  destruct (selectQuery (limitedQueryOf lower query) (db w)) as [answer d] eqn:Eq.
  cbn [fst snd] in *.
  destruct (success answer) eqn:Hok; cbn [negb].
  - unfold ret. eexists. eexists. split; [reflexivity|]. right. cbn.
    repeat split; auto. intros; discriminate.
  - unfold throw, incrementErrorCount, shouldReplan, modify, get, ret.
    eexists. eexists. split; [reflexivity|]. right. cbn.
    repeat split; auto; try (intros; discriminate).
    intros _. unfold ChatHistory.errorOf.
    destruct (error answer); auto.
Qed.

End ExecuteSql.

(** C1, as stated, fails on a query whose first word merely begins with
    the letters of the keyword.  The first keyword of
    [SELECTED * FROM data_x] is not [SELECT], yet the text passes the
    check, is handed to the engine, and the failure that comes back is the
    engine's, not the validation error.  Nor is the validation error what
    [DELETE FROM data_x] is answered with when the reasoning callback
    throws: the callback is called first, inside the same [try]. *)
Lemma executeSqlTool_prefix_reaches_engine :
  toLowerCase (ReactTools.firstKeyword (lit "SELECTED * FROM data_x"))
    <> lit "select"
  /\ (let run := ReactTools.executeSqlTool toLowerCase toUpperCase
                   (lit "SELECTED * FROM data_x") (lit "x") None
                   Sample.sampleWorld in
      option_map (@ReactTools.q_success _) (Js.returned run) = Some false
      /\ option_map (@ReactTools.q_error _) (Js.returned run)
         = Some (Some Sample.syntaxError)
      /\ Sample.syntaxError <> ReactTools.selectOnlyMessage
      /\ Database.journal (ReactState.db (snd run))
         = [Database.Query (lit "SELECTED * FROM data_x LIMIT 1000")])
  /\ (let run := ReactTools.executeSqlTool toLowerCase toUpperCase
                   (lit "DELETE FROM data_x") (lit "x")
                   (Some (lit "remove the rows"))
                   Sample.worldWithClosedStream in
      option_map (@ReactTools.q_error _) (Js.returned run)
      = Some (Some (lit "Invalid state: Controller is already closed"))
      /\ lit "Invalid state: Controller is already closed"
         <> ReactTools.selectOnlyMessage
      /\ Database.journal (ReactState.db (snd run)) = []).
Proof.
  split; [vm_compute; discriminate|].
  cbv zeta. repeat split; try (vm_compute; reflexivity);
    vm_compute; discriminate.
Qed.

(** C1, amended.  A query that, trimmed and lower-cased, does not begin
    with the letters [select] is answered by a failure result; nothing is
    handed to the storage engine, the storage is as before, and the error
    count grows by one.  The failure carries the SELECT-only message,
    unless the reasoning callback threw before the check, in which case it
    carries the callback's error.  [DELETE FROM data_x] is so rejected. *)
Theorem executeSqlTool_rejects_non_select :
  (forall (lower upper : jsstring -> jsstring) (w : ReactState.World)
          (query fileId : jsstring) (reasoning : option jsstring),
     startsWith (lit "select") (lower (trim query)) = false ->
     exists result w',
       ReactTools.executeSqlTool lower upper
         query fileId reasoning w = (Js.Normal result, w')
       /\ ReactTools.q_success result = false
       /\ ReactTools.q_data result = None
       /\ ReactState.db w' = ReactState.db w
       /\ ReactState.errorCount (ReactState.globalReActState w')
          = S (ReactState.errorCount (ReactState.globalReActState w))
       /\ (fst (ReactTools.announce reasoning w) = Js.Normal tt ->
           ReactTools.q_error result = Some ReactTools.selectOnlyMessage)
       /\ (forall e, fst (ReactTools.announce reasoning w) = Js.Throw e ->
                     ReactTools.q_error result = Some e))
  /\ (let run := ReactTools.executeSqlTool toLowerCase toUpperCase
                   (lit "DELETE FROM data_x")
                   (lit "x") None Sample.sampleWorld in
      option_map (@ReactTools.q_success _) (Js.returned run) = Some false
      /\ option_map (@ReactTools.q_error _) (Js.returned run)
         = Some (Some ReactTools.selectOnlyMessage)
      /\ Database.journal (ReactState.db (snd run)) = []).
Proof.
  split.
  - intros lower upper w query fileId reasoning Hsel.
    unfold ReactTools.executeSqlTool, Js.tryCatch, Js.bind.
    destruct (ReactTools.announce reasoning w) as [[[]|e] w1] eqn:Ea;
      destruct (announce_frame _ _ Ea) as [Hdb [Hst _]].
    + rewrite Hsel. cbn [negb].
      unfold Js.throw, ReactState.incrementErrorCount, ReactState.shouldReplan,
        Js.modify, Js.get, Js.ret.
      eexists. eexists. split; [reflexivity|]. cbn.
      rewrite Hdb, Hst. repeat split; auto. intros e He. discriminate.
    + unfold Js.throw, ReactState.incrementErrorCount, ReactState.shouldReplan,
        Js.modify, Js.get, Js.ret.
      eexists. eexists. split; [reflexivity|]. cbn.
      rewrite Hdb, Hst. repeat split; auto.
      * intros He. discriminate.
      * intros e' He. injection He as <-. reflexivity.
  - cbv zeta. repeat split; vm_compute; reflexivity.
Qed.

(** The specification's own example, by way of the general statement. *)
Lemma executeSqlTool_rejects_non_select_witness :
  startsWith (lit "select") (toLowerCase (trim (lit "DELETE FROM data_x"))) = false
  /\ exists result w',
       ReactTools.executeSqlTool toLowerCase toUpperCase
         (lit "DELETE FROM data_x") (lit "x")
         (Some (lit "remove the rows")) Sample.worldWithClosedStream
       = (Js.Normal result, w')
       /\ ReactTools.q_success result = false
       /\ ReactState.db w' = ReactState.db Sample.worldWithClosedStream.
Proof.
  split; [reflexivity|].
  destruct (proj1 executeSqlTool_rejects_non_select toLowerCase toUpperCase
              Sample.worldWithClosedStream (lit "DELETE FROM data_x") (lit "x")
              (Some (lit "remove the rows")) eq_refl)
    as [result [w' [Hrun [Hfail [_ [Hdb _]]]]]].
  exists result, w'. auto.
Defined.

(** C2, as stated, fails twice over.  A query that neither is a SELECT
    nor names the table is refused with the SELECT-only message, not the
    scope message; and the check is passed by any text that holds the
    table name somewhere: asked about dataset [x], the tool runs
    [SELECT * FROM data_xy] and returns the three rows of dataset [xy]. *)
Lemma executeSqlTool_scope_is_substring :
  (ReactTools.mentionsTable toLowerCase (ReactTools.tableNameOf (lit "x"))
     (lit "DELETE FROM other") = false
   /\ option_map (@ReactTools.q_error _)
        (Js.returned (ReactTools.executeSqlTool toLowerCase toUpperCase
                        (lit "DELETE FROM other")
                        (lit "x") None Sample.sampleWorld))
      = Some (Some ReactTools.selectOnlyMessage)
   /\ ReactTools.selectOnlyMessage
      <> ReactTools.scopeMessage (ReactTools.tableNameOf (lit "x")))
  /\ (let run := ReactTools.executeSqlTool toLowerCase toUpperCase
                   (lit "SELECT * FROM data_xy")
                   (lit "x") None Sample.sampleWorld in
      option_map (@ReactTools.q_success _) (Js.returned run) = Some true
      /\ Database.journal (ReactState.db (snd run))
         = [Database.Query (lit "SELECT * FROM data_xy LIMIT 1000")]
      /\ option_map (@ReactTools.q_data _) (Js.returned run)
         = Some (option_map Database.tableRows
                   (Database.lookupTable (lit "data_xy") Sample.sampleStore))
      /\ option_map (@ReactTools.q_rowCount _) (Js.returned run) = Some (Some 3)).
Proof.
  split.
  - split; [vm_compute; reflexivity|].
    split; [vm_compute; reflexivity|]. vm_compute. discriminate.
  - cbv zeta. repeat split; vm_compute; reflexivity.
Qed.

(** C2, amended.  Whenever the query does not pass the table-name
    check, that is, its lower-cased text holds neither the lower-cased
    table name [data_<fileId>] nor one of its two quoted forms, the tool
    answers with a failure and hands nothing to the storage engine; the
    failure carries the scope message when the query had passed the
    SELECT and compatibility checks.  Hence whatever the tool hands to the
    engine comes from a query that passes the check, and it is handed over
    once, the storage being left as it was.  For the ASCII case mapping the
    check is the same as looking for the bare name alone. *)
Theorem executeSqlTool_requires_table_name :
  (forall (lower upper : jsstring -> jsstring) (w : ReactState.World)
          (query fileId : jsstring) (reasoning : option jsstring),
   exists result w',
     ReactTools.executeSqlTool lower upper query fileId reasoning w
     = (Js.Normal result, w')
     /\ (ReactTools.mentionsTable lower (ReactTools.tableNameOf fileId) query
         = false ->
         ReactTools.q_success result = false
         /\ ReactState.db w' = ReactState.db w
         /\ (fst (ReactTools.announce reasoning w) = Js.Normal tt ->
             startsWith (lit "select") (lower (trim query)) = true ->
             find (fun syntax => includes syntax (lower (trim query)))
                  ReactTools.sqliteIncompatible = None ->
             ReactTools.q_error result
             = Some (ReactTools.scopeMessage (ReactTools.tableNameOf fileId))))
     /\ (ReactState.db w' = ReactState.db w
         \/ (ReactTools.mentionsTable lower (ReactTools.tableNameOf fileId) query
             = true
             /\ Database.journal (ReactState.db w')
                = Database.journal (ReactState.db w)
                  ++ [Database.Query (ReactTools.limitedQueryOf lower query)]
             /\ Database.store (ReactState.db w')
                = Database.store (ReactState.db w))))
  /\ (forall tableName query,
        ReactTools.mentionsTable toLowerCase tableName query
        = includes (toLowerCase tableName) (toLowerCase query)).
Proof.
  split; [|apply mentionsTable_bare].
  intros lower upper w query fileId reasoning.
  destruct (executeSqlTool_outcome lower upper w query fileId reasoning)
    as [result [w' [Hrun Hcases]]].
  exists result, w'. split; [exact Hrun|].
  destruct Hcases as [[Hfail [Hdb Hwhy]] | [Hann [Hacc [Hj [Hs _]]]]].
  - split; [|left; exact Hdb].
    intros Hno. split; [exact Hfail|]. split; [exact Hdb|].
    intros Hnormal Hsel Hfind.
    destruct Hwhy as [[e [He _]] | [_ [[Hns _] | [[found [Hf _]] | [_ [_ [_ Hmsg]]]]]]];
      try congruence.
  - unfold ReactTools.accepted in Hacc.
    apply andb_true_iff in Hacc as [_ Hment].
    split; [intros Hno; congruence|].
    right. auto.
Qed.

(** A query about another table, asked for dataset [x]. *)
Lemma executeSqlTool_requires_table_name_witness :
  ReactTools.mentionsTable toLowerCase (ReactTools.tableNameOf (lit "x"))
    (lit "SELECT * FROM data_y") = false
  /\ exists result w',
       ReactTools.executeSqlTool toLowerCase toUpperCase
         (lit "SELECT * FROM data_y") (lit "x") None Sample.sampleWorld
       = (Js.Normal result, w')
       /\ ReactTools.q_success result = false
       /\ ReactState.db w' = ReactState.db Sample.sampleWorld
       /\ ReactTools.q_error result
          = Some (ReactTools.scopeMessage (ReactTools.tableNameOf (lit "x"))).
Proof.
  split; [reflexivity|].
  destruct (proj1 executeSqlTool_requires_table_name toLowerCase toUpperCase
              Sample.sampleWorld (lit "SELECT * FROM data_y") (lit "x") None)
    as [result [w' [Hrun [Hno _]]]].
  destruct (Hno eq_refl) as [Hfail [Hdb Hmsg]].
  exists result, w'. repeat split; auto.
Defined.

Section Cleaning.

Import ReactTools.

(** The cleaned query within the query: white space at the two ends and
    the semicolons before the trailing white space are what is taken
    away. *)
Lemma cleanQueryOf_between (query : jsstring) :
  exists lead semis trail,
    query = lead ++ cleanQueryOf query ++ semis ++ trail
    /\ Forall (fun c => isWhiteSpace c = true) lead
    /\ Forall (fun c => isWhiteSpace c = true) trail
    /\ Forall (fun c => c = 59%N) semis
    /\ trim query = cleanQueryOf query ++ semis
    /\ match rev (cleanQueryOf query) with
       | [] => True
       | c :: _ => c <> 59%N
       end.
Proof.
  destruct (trim_between query) as [lead [trail [E [Hl Ht]]]].
  destruct (dropWhileEnd_trail (N.eqb 59) (trim query)) as [semis [Es Hs]].
  exists lead, semis, trail. fold (cleanQueryOf query) in Es.
  split; [rewrite (app_assoc (cleanQueryOf query) semis trail), <- Es; exact E|].
  split; [exact Hl|]. split; [exact Ht|].
  split.
  { eapply Forall_impl; [|exact Hs]. intros c Hc. cbn beta in Hc.
    apply N.eqb_eq in Hc. congruence. }
  split; [exact Es|].
  pose proof (dropWhileEnd_last (N.eqb 59) (trim query)) as H.
  fold (cleanQueryOf query) in H.
  destruct (rev (cleanQueryOf query)) as [|c t]; [exact I|].
  intros ->. discriminate H.
Qed.

End Cleaning.

(** C6: the cap is added by a test for the letters [limit], not for a
    row cap.  A query that passes the checks is handed to the engine once,
    as the text that remains of it when the white space at its two ends
    and then the semicolons at its end are taken away, followed by
    [ LIMIT 1000] exactly when that text, lower-cased, does not hold the
    letters [limit] anywhere; the result reports what the engine answers to
    that text.  So [SELECT * FROM data_x] on the table of 5000 rows is run
    as [SELECT * FROM data_x LIMIT 1000] and returns 1000 rows, as the
    specification says; but [SELECT credit_limit FROM data_x], which has no
    row cap either, is run as it is and returns all 5000 rows. *)
Theorem executeSqlTool_row_cap :
  (forall (lower upper : jsstring -> jsstring) (w : ReactState.World)
          (query fileId : jsstring) (reasoning : option jsstring),
     fst (ReactTools.announce reasoning w) = Js.Normal tt ->
     ReactTools.accepted lower query fileId = true ->
     exists result w' lead cleaned semis trail,
       ReactTools.executeSqlTool lower upper
         query fileId reasoning w = (Js.Normal result, w')
       /\ query = lead ++ cleaned ++ semis ++ trail
       /\ Forall (fun c => isWhiteSpace c = true) lead
       /\ Forall (fun c => isWhiteSpace c = true) trail
       /\ Forall (fun c => c = 59%N) semis
       /\ match cleaned ++ semis with
          | [] => True
          | c :: _ => isWhiteSpace c = false
          end
       /\ match rev (cleaned ++ semis) with
          | [] => True
          | c :: _ => isWhiteSpace c = false
          end
       /\ match rev cleaned with
          | [] => True
          | c :: _ => c <> 59%N
          end
       /\ let sent := if includes (lit "limit") (lower cleaned)
                      then cleaned
                      else cleaned ++ lit " LIMIT 1000" in
          Database.journal (ReactState.db w')
          = Database.journal (ReactState.db w) ++ [Database.Query sent]
          /\ let answer := fst (Database.selectQuery sent (ReactState.db w)) in
             ReactTools.q_success result = Database.success answer
             /\ (Database.success answer = true ->
                 ReactTools.q_data result
                 = Some (match Database.data answer with
                         | Some rows => rows
                         | None => []
                         end)
                 /\ ReactTools.q_rowCount result
                    = Some (List.length (match Database.data answer with
                                         | Some rows => rows
                                         | None => []
                                         end))))
  /\ (let run := ReactTools.executeSqlTool toLowerCase toUpperCase
                   (lit "SELECT * FROM data_x")
                   (lit "x") None Sample.sampleWorld in
      option_map (@ReactTools.q_success _) (Js.returned run) = Some true
      /\ Database.journal (ReactState.db (snd run))
         = [Database.Query (lit "SELECT * FROM data_x LIMIT 1000")]
      /\ option_map (@ReactTools.q_rowCount _) (Js.returned run)
         = Some (Some 1000))
  /\ (ReactTools.hasRowCap (lit "SELECT credit_limit FROM data_x") = false
      /\ let run := ReactTools.executeSqlTool toLowerCase toUpperCase
                      (lit "SELECT credit_limit FROM data_x")
                      (lit "x") None Sample.sampleWorld in
         option_map (@ReactTools.q_success _) (Js.returned run) = Some true
         /\ Database.journal (ReactState.db (snd run))
            = [Database.Query (lit "SELECT credit_limit FROM data_x")]
         /\ option_map (@ReactTools.q_rowCount _) (Js.returned run)
            = Some (Some 5000)).
Proof.
  split; [|split].
  - intros lower upper w query fileId reasoning Hann Hacc.
    destruct (executeSqlTool_outcome lower upper w query fileId reasoning)
      as [result [w' [Hrun Hcases]]].
    destruct (cleanQueryOf_between query)
      as [lead [semis [trail [Eq [Hl [Ht [Hs [Etrim Hend]]]]]]]].
    exists result, w', lead, (ReactTools.cleanQueryOf query), semis, trail.
    split; [exact Hrun|]. split; [exact Eq|].
    split; [exact Hl|]. split; [exact Ht|]. split; [exact Hs|].
    split; [rewrite <- Etrim; apply trim_first|].
    split; [rewrite <- Etrim; apply trim_last|].
    split; [exact Hend|].
    destruct Hcases as [[_ [_ Hwhy]] | [_ [_ [Hj [_ Hans]]]]].
    + exfalso. unfold ReactTools.accepted in Hacc.
      apply andb_true_iff in Hacc as [Hacc Hment].
      apply andb_true_iff in Hacc as [Hsel Hfind].
      destruct Hwhy as [[e [He _]] | [_ [[Hns _] | [[found [Hf _]] | [_ [_ [Hnm _]]]]]]];
        try congruence.
      rewrite Hf in Hfind. discriminate.
    + cbn zeta in Hans |- *.
      change (if includes (lit "limit") (lower (ReactTools.cleanQueryOf query))
              then ReactTools.cleanQueryOf query
              else ReactTools.cleanQueryOf query ++ lit " LIMIT 1000")
        with (ReactTools.limitedQueryOf lower query).
      split; [exact Hj|].
      destruct Hans as [Hok [Hdata _]]. split; [exact Hok | exact Hdata].
  - cbv zeta. repeat split; vm_compute; reflexivity.
  - split; [vm_compute; reflexivity|].
    cbv zeta. repeat split; vm_compute; reflexivity.
Qed.

(** The specification's example, by way of the general statement. *)
Lemma executeSqlTool_row_cap_witness :
  fst (ReactTools.announce None Sample.sampleWorld) = Js.Normal tt
  /\ ReactTools.accepted toLowerCase (lit "  SELECT * FROM data_x;; ") (lit "x") = true
  /\ exists result w',
       ReactTools.executeSqlTool toLowerCase toUpperCase
         (lit "  SELECT * FROM data_x;; ") (lit "x") None
         Sample.sampleWorld = (Js.Normal result, w')
       /\ exists sent,
            Database.journal (ReactState.db w') = [Database.Query sent].
Proof.
  split; [reflexivity|]. split; [reflexivity|].
  destruct (proj1 executeSqlTool_row_cap toLowerCase toUpperCase
              Sample.sampleWorld
              (lit "  SELECT * FROM data_x;; ") (lit "x") None eq_refl eq_refl)
    as [result [w' [lead [cleaned [semis [trail [Hrun [_ [_ [_ [_ [_ [_ [_ Hj]]]]]]]]]]]]]].
  exists result, w'. split; [exact Hrun|].
  cbn zeta in Hj. destruct Hj as [Hj _]. eexists. exact Hj.
Defined.

(** ** The reasoning callback *)

(** C10, as stated, fails: nothing in [callReasoningCallback] catches
    what the callback throws.  With a callback that throws (a stream that
    was closed under it), the call ends by throwing the callback's error
    to its caller. *)
Lemma callReasoningCallback_propagates :
  Js.thrown (ReactState.callReasoningCallback (lit "look at the totals") None
               Sample.worldWithClosedStream)
  = Some (lit "Invalid state: Controller is already closed").
Proof. vm_compute. reflexivity. Qed.

(** C10, amended.  [callReasoningCallback] does nothing when no callback
    is registered or the reasoning is empty.  Otherwise it calls the
    callback once, with the scrubbed reasoning (after the prefix, if one
    is given), and ends as the callback ends: it throws exactly when the
    callback throws, with the callback's error.  The scrub itself never
    throws.  A storage tool calls it inside its [try], so a throwing
    callback makes the tool answer with a failure result instead of
    throwing: both tools always return normally. *)
Theorem callReasoningCallback_raises_as_callback :
  forall (reasoning : jsstring) (prefix : option jsstring) (w : ReactState.World),
    let finalMessage :=
      match prefix with
      | Some (c :: p) =>
          (c :: p) ++ lit " " ++ ReactState.convertToUserFriendlyMessage reasoning
      | _ => ReactState.convertToUserFriendlyMessage reasoning
      end in
    (ReactState.globalReasoningCallback w = None \/ reasoning = [] ->
     ReactState.callReasoningCallback reasoning prefix w = (Js.Normal tt, w))
    /\ (forall callback,
          ReactState.globalReasoningCallback w = Some callback ->
          reasoning <> [] ->
          exists w',
            ReactState.callReasoningCallback reasoning prefix w
            = (match callback finalMessage with
               | Some e => Js.Throw e
               | None => Js.Normal tt
               end, w')
            /\ ReactState.emitted w' = ReactState.emitted w ++ [finalMessage]
            /\ ReactState.db w' = ReactState.db w
            /\ ReactState.globalReActState w' = ReactState.globalReActState w)
    /\ (forall lower upper query fileId,
          exists result w',
            ReactTools.executeSqlTool lower upper
              query fileId (Some reasoning) w
            = (Js.Normal result, w'))
    /\ (forall fileId,
          exists result w',
            ReactTools.getTableSchemaTool fileId (Some reasoning) w
            = (Js.Normal result, w')).
Proof.
  intros reasoning prefix w finalMessage. repeat split.
  - intros [Hnone | ->]; unfold ReactState.callReasoningCallback, Js.bind, Js.get.
    + rewrite Hnone. reflexivity.
    + destruct (ReactState.globalReasoningCallback w); reflexivity.
  - intros callback Hcb Hne.
    unfold ReactState.callReasoningCallback, Js.bind, Js.get, ReactState.invoke.
    rewrite Hcb. destruct reasoning as [|c r]; [contradiction|].
    cbn [ReactState.truthy].
    assert (Hmsg :
      (if ReactState.truthy prefix
       then match prefix with
            | Some p => p ++ lit " " ++ ReactState.convertToUserFriendlyMessage (c :: r)
            | None => ReactState.convertToUserFriendlyMessage (c :: r)
            end
       else ReactState.convertToUserFriendlyMessage (c :: r)) = finalMessage).
    { unfold finalMessage. destruct prefix as [[|x p]|]; reflexivity. }
    rewrite Hmsg.
    destruct (callback finalMessage); eexists; (split; [reflexivity|]); cbn; auto.
  - intros lower upper query fileId.
    destruct (executeSqlTool_outcome lower upper w query fileId (Some reasoning))
      as [result [w' [Hrun _]]]. eauto.
  - intros fileId.
    unfold ReactTools.getTableSchemaTool, Js.tryCatch, Js.bind.
    destruct (ReactTools.announce (Some reasoning) w) as [[[]|e] w1].
    + unfold ReactState.onDb.
      destruct (Database.select _ _ (ReactState.db w1)) as [answer d].
      destruct (Database.success answer); cbn [negb].
      * unfold Js.ret. eexists. eexists. reflexivity.
      * unfold Js.throw, ReactState.incrementErrorCount, ReactState.shouldReplan,
          Js.modify, Js.get, Js.ret. eexists. eexists. reflexivity.
    + unfold Js.throw, ReactState.incrementErrorCount, ReactState.shouldReplan,
        Js.modify, Js.get, Js.ret. eexists. eexists. reflexivity.
Qed.

(** A callback that throws, met directly and then through the SQL tool. *)
Lemma callReasoningCallback_raises_as_callback_witness :
  ReactState.globalReasoningCallback Sample.worldWithClosedStream
    = Some Sample.closedStream
  /\ lit "look at the totals" <> []
  /\ exists w',
       ReactState.callReasoningCallback (lit "look at the totals") None
         Sample.worldWithClosedStream
       = (Js.Throw (lit "Invalid state: Controller is already closed"), w')
       /\ ReactState.emitted w' = [lit "look at the totals"].
Proof.
  split; [reflexivity|]. split; [discriminate|].
  destruct (proj1 (proj2 (callReasoningCallback_raises_as_callback
                            (lit "look at the totals") None
                            Sample.worldWithClosedStream))
              Sample.closedStream eq_refl)
    as [w' [Hrun [Hem _]]]; [discriminate|].
  exists w'. split; [exact Hrun | exact Hem].
Defined.


(** ** Dataset deletion *)

Section DeleteRoute.

Import Database Js FilesRoute.

Ltac reduce_js :=
  cbv beta iota zeta delta
    [engine store journal recorded success data error negb orb andb
     failed throw ret bind call tryCatch ChatHistory.errorOf status ok].

Lemma execute_raises (s : Stmt) (d : Db) (m : jsstring) :
  raises (engine d) s = Some m ->
  execute s d = (failed m, mkDb (engine d) (store d) (journal d ++ [s])).
Proof. intros H. unfold execute. rewrite H. reflexivity. Qed.

Lemma execute_runs (s : Stmt) (d : Db) :
  raises (engine d) s = None ->
  execute s d
  = (mkDatabaseResult true None None None None
       (Some (snd (applyStmt (foreign_keys (engine d)) s (store d)))),
     mkDb (engine d) (fst (applyStmt (foreign_keys (engine d)) s (store d)))
          (journal d ++ [s])).
Proof.
  intros H. unfold execute. rewrite H.
  destruct (applyStmt _ s (store d)). reflexivity.
Qed.

(** Whatever the history statement does, the inner [try] ends normally. *)
Lemma clearChatHistory_passed_over (fid : jsstring) (d : Db) :
  tryCatch (ChatHistory.clearChatHistory fid) (fun _ => ret tt) d
  = (Normal tt,
     mkDb (engine d) (afterHistory d fid) (journal d ++ [DeleteChatHistory fid])).
Proof.
  unfold tryCatch, ChatHistory.clearChatHistory, bind, call, afterHistory.
  destruct (raises (engine d) (DeleteChatHistory fid)) as [m|] eqn:H.
  - rewrite (execute_raises _ _ H). reflexivity.
  - rewrite (execute_runs _ _ H). reflexivity.
Qed.

(** Every way a deletion request can go. *)
Lemma DELETE_outcome (d : Db) (fid : jsstring) :
  exists resp d',
    DELETE fid d = (Normal resp, d')
    /\ engine d' = engine d
    /\ (((raises (engine d) (SelectFileById fid) <> None
          \/ filesById fid (store d) = [])
         /\ status resp = 404
         /\ journal d' = journal d ++ [SelectFileById fid]
         /\ store d' = store d)
        \/ (raises (engine d) (SelectFileById fid) = None
            /\ filesById fid (store d) <> []
            /\ ((raises (engine d) (DropTableIfExists (lit "data_" ++ fid)) <> None
                 /\ status resp = 500
                 /\ journal d' = journal d
                      ++ [SelectFileById fid; DeleteChatHistory fid;
                          DropTableIfExists (lit "data_" ++ fid)]
                 /\ store d' = afterHistory d fid)
                \/ (raises (engine d) (DropTableIfExists (lit "data_" ++ fid)) = None
                    /\ raises (engine d) (DeleteFileById fid) <> None
                    /\ status resp = 500
                    /\ journal d' = journal d
                         ++ [SelectFileById fid; DeleteChatHistory fid;
                             DropTableIfExists (lit "data_" ++ fid);
                             DeleteFileById fid]
                    /\ store d' = afterDrop d fid)
                \/ (raises (engine d) (DropTableIfExists (lit "data_" ++ fid)) = None
                    /\ raises (engine d) (DeleteFileById fid) = None
                    /\ status resp = 200
                    /\ ok resp = true
                    /\ journal d' = journal d
                         ++ [SelectFileById fid; DeleteChatHistory fid;
                             DropTableIfExists (lit "data_" ++ fid);
                             DeleteFileById fid]
                    /\ store d' = afterMetadata d fid)))).
Proof.
  destruct d as [e st j]. unfold afterMetadata, afterDrop, afterHistory.
  cbn [engine store journal].
  unfold DELETE.
  unfold tryCatch at 1. unfold bind at 1. unfold call at 1. unfold selectOne.
  cbn [engine store journal].
  destruct (raises e (SelectFileById fid)) as [m|] eqn:Hsel.
  { reduce_js. eexists. eexists. split; [reflexivity|]. reduce_js.
    split; [reflexivity|]. left. repeat split. left. discriminate. }
  destruct (filesById fid st) as [|row rows] eqn:Hrows.
  { reduce_js. eexists. eexists. split; [reflexivity|]. reduce_js.
    split; [reflexivity|]. left. repeat split. right. reflexivity. }
  cbn [engine store journal recorded fst snd success data negb orb].
  unfold bind at 1. cbv beta.
  rewrite clearChatHistory_passed_over. unfold afterHistory.
  reduce_js.
  destruct (raises e (DropTableIfExists (lit "data_" ++ fid))) as [md|] eqn:Hd.
  { rewrite execute_raises with (m := md) by exact Hd. reduce_js.
    eexists. eexists. split; [reflexivity|]. reduce_js.
    split; [reflexivity|]. right.
    split; [reflexivity|]. split; [discriminate|]. left.
    rewrite <- !app_assoc. repeat split. discriminate. }
  rewrite execute_runs by exact Hd. reduce_js.
  destruct (raises e (DeleteFileById fid)) as [mm|] eqn:Hm.
  { rewrite execute_raises with (m := mm) by exact Hm. reduce_js.
    eexists. eexists. split; [reflexivity|]. reduce_js.
    split; [reflexivity|]. right.
    split; [reflexivity|]. split; [discriminate|]. right. left.
    rewrite <- !app_assoc. repeat split. discriminate. }
  rewrite execute_runs by exact Hm. reduce_js.
  eexists. eexists. split; [reflexivity|]. reduce_js.
  split; [reflexivity|]. right.
  split; [reflexivity|]. split; [discriminate|]. right. right.
  rewrite <- !app_assoc. repeat split.
Qed.

Lemma filter_filter_negb {A} (p : A -> bool) (l : list A) :
  filter p (filter (fun x => negb (p x)) l) = [].
Proof.
  induction l as [|x l IH]; simpl; [reflexivity|].
  destruct (p x) eqn:E; simpl; [exact IH | rewrite E; exact IH].
Qed.

Lemma find_filter_negb {A} (p : A -> bool) (l : list A) :
  find p (filter (fun x => negb (p x)) l) = None.
Proof.
  induction l as [|x l IH]; simpl; [reflexivity|].
  destruct (p x) eqn:E; simpl; [exact IH | rewrite E; exact IH].
Qed.

Lemma filter_nil_filter {A} (p q : A -> bool) (l : list A) :
  filter p l = [] -> filter p (filter q l) = [].
Proof.
  induction l as [|x l IH]; simpl; [reflexivity|].
  destruct (p x) eqn:E; [discriminate|]. intros H.
  destruct (q x); simpl; [rewrite E|]; apply IH, H.
Qed.

(** Once the three statements have run, no turn of the dataset and no
    table of the dataset is left. *)
Lemma afterMetadata_clean (d : Db) (fid : jsstring) :
  raises (engine d) (DeleteChatHistory fid) = None ->
  historyOf fid (afterMetadata d fid) = []
  /\ lookupTable (lit "data_" ++ fid) (afterMetadata d fid) = None.
Proof.
  intros Hh. unfold afterMetadata, afterDrop, afterHistory. rewrite Hh.
  cbn [applyStmt fst store files chat_history tables]. split.
  - unfold historyOf. cbn [chat_history].
    set (gone := filter (fun h => negb (jseqb (fileId h) fid)) (chat_history (store d))).
    assert (Hgone : filter (fun h => jseqb (fileId h) fid) gone = [])
      by apply filter_filter_negb.
    destruct (foreign_keys (engine d)); [|exact Hgone].
    destruct (filter _ (files (store d))); [exact Hgone|].
    apply filter_nil_filter, Hgone.
  - unfold lookupTable. cbn [tables].
    rewrite (find_filter_negb (fun e => sameTable (lit "data_" ++ fid) (fst e))).
    reflexivity.
Qed.

End DeleteRoute.

(** C7, as stated, fails on the order.  For dataset [x] the statements
    reach the engine in the order: look the file up, clear the history,
    drop the table, delete the metadata.  When the engine then fails on
    the drop, the request ends in an error with the turns of [x] already
    gone and its table still there. *)
Lemma DELETE_clears_history_before_drop :
  Database.journal (snd (FilesRoute.DELETE (lit "x") Sample.sampleDb))
  = [Database.SelectFileById (lit "x");
     Database.DeleteChatHistory (lit "x");
     Database.DropTableIfExists (lit "data_x");
     Database.DeleteFileById (lit "x")]
  /\ let run := FilesRoute.DELETE (lit "x")
                  (Database.mkDb (Sample.failingOn Sample.isDrop)
                                 Sample.sampleStore []) in
     option_map FilesRoute.status (Js.returned run) = Some 500
     /\ List.length (Database.historyOf (lit "x") Sample.sampleStore) = 5
     /\ Database.historyOf (lit "x") (Database.store (snd run)) = []
     /\ Database.tableExists (lit "data_x") (Database.store (snd run)) = true.
Proof.
  split; [vm_compute; reflexivity|].
  cbv zeta. repeat split; vm_compute; reflexivity.
Qed.

(** C7, amended.  For a dataset that is found, a deletion hands the
    engine, in this order, the history deletion, the table drop and the
    metadata deletion.  What the history deletion does is of no
    consequence for what follows.  If the drop fails, the request fails
    (status 500) and the metadata deletion is not tried; if the metadata
    deletion fails, the request fails; otherwise it succeeds (status 200).
    So the request succeeds exactly when neither the drop nor the metadata
    deletion fails. *)
Theorem DELETE_order_and_failures :
  forall (d : Database.Db) (fid : jsstring),
    Database.raises (Database.engine d) (Database.SelectFileById fid) = None ->
    Database.filesById fid (Database.store d) <> [] ->
    let history := Database.DeleteChatHistory fid in
    let drop := Database.DropTableIfExists (lit "data_" ++ fid) in
    let metadata := Database.DeleteFileById fid in
    exists resp d',
      FilesRoute.DELETE fid d = (Js.Normal resp, d')
      /\ (exists rest,
            Database.journal d'
            = Database.journal d
              ++ [Database.SelectFileById fid; history; drop] ++ rest
            /\ (Database.raises (Database.engine d) drop <> None -> rest = [])
            /\ (Database.raises (Database.engine d) drop = None -> rest = [metadata]))
      /\ (Database.raises (Database.engine d) drop <> None ->
          FilesRoute.status resp = 500
          /\ Database.store d' = FilesRoute.afterHistory d fid)
      /\ (Database.raises (Database.engine d) drop = None ->
          Database.raises (Database.engine d) metadata <> None ->
          FilesRoute.status resp = 500
          /\ Database.store d' = FilesRoute.afterDrop d fid)
      /\ (FilesRoute.status resp = 200
          <-> Database.raises (Database.engine d) drop = None
              /\ Database.raises (Database.engine d) metadata = None)
      /\ (FilesRoute.status resp = 200 ->
          FilesRoute.ok resp = true
          /\ Database.store d' = FilesRoute.afterMetadata d fid).
Proof.
  intros d fid Hsel Hfound history drop metadata.
  destruct (DELETE_outcome d fid) as [resp [d' [Hrun [_ Hcases]]]].
  exists resp, d'. split; [exact Hrun|].
  destruct Hcases as [[[Hno | Hno] _] | [_ [_ Hcases]]]; try contradiction.
  destruct Hcases as [[Hd [Hst [Hj Hs]]]
                     | [[Hd [Hm [Hst [Hj Hs]]]]
                       | [Hd [Hm [Hst [Hok [Hj Hs]]]]]]];
    fold drop in Hd, Hj; fold metadata in Hj; fold history in Hj.
  - split.
    { exists []. rewrite app_nil_r. repeat split; auto. intros; contradiction. }
    repeat split; auto; try (intros; contradiction); try congruence.
    + intros [Hd' _]. contradiction.
  - fold metadata in Hm. split.
    { exists [metadata]. repeat split; auto. intros; contradiction. }
    repeat split; auto; try (intros; contradiction); try congruence.
    + intros [_ Hm']. contradiction.
  - fold metadata in Hm. split.
    { exists [metadata]. repeat split; auto. intros; contradiction. }
    repeat split; auto; try (intros; contradiction); try congruence.
Qed.

(** A deletion during which the engine fails on the history statement:
    the request still succeeds. *)
Lemma DELETE_order_and_failures_witness :
  let d := Database.mkDb (Sample.failingOn Sample.isHistoryDelete)
                         Sample.sampleStore [] in
  Database.raises (Database.engine d) (Database.SelectFileById (lit "x")) = None
  /\ Database.filesById (lit "x") (Database.store d) <> []
  /\ exists resp d',
       FilesRoute.DELETE (lit "x") d = (Js.Normal resp, d')
       /\ FilesRoute.status resp = 200.
Proof.
  cbv zeta. split; [reflexivity|].
  assert (Hfound : Database.filesById (lit "x") Sample.sampleStore <> [])
    by (vm_compute; discriminate).
  split; [exact Hfound|].
  destruct (DELETE_order_and_failures
              (Database.mkDb (Sample.failingOn Sample.isHistoryDelete)
                             Sample.sampleStore [])
              (lit "x") eq_refl Hfound)
    as [resp [d' [Hrun [_ [_ [_ [Hiff _]]]]]]].
  exists resp, d'. split; [exact Hrun|].
  apply Hiff. split; reflexivity.
Defined.

(** ** The schema tool after a deletion *)

(** C8: the turns are removed, but the schema tool does not fail.  After
    a deletion that went through on an engine without faults, no turn and
    no table of the dataset is left; [PRAGMA table_info] on the missing
    table yields no row and no error, and [getTableSchemaTool] reports
    success with an empty schema. *)
Theorem getTableSchemaTool_after_DELETE :
  forall (d : Database.Db) (fid : jsstring)
         (state : ReactState.ReActState) (sent : list jsstring),
    (forall s, Database.raises (Database.engine d) s = None) ->
    Database.filesById fid (Database.store d) <> [] ->
    exists resp d',
      FilesRoute.DELETE fid d = (Js.Normal resp, d')
      /\ FilesRoute.status resp = 200
      /\ Database.historyOf fid (Database.store d') = []
      /\ Database.tableExists (lit "data_" ++ fid) (Database.store d') = false
      /\ exists result w',
           ReactTools.getTableSchemaTool fid None
             (ReactState.mkWorld d' state None sent) = (Js.Normal result, w')
           /\ ReactTools.q_success result = true
           /\ ReactTools.q_data result = Some []
           /\ ReactTools.q_error result = None
           /\ ReactTools.q_message result = ReactTools.schemaMessage 0.
Proof.
  intros d fid state sent Hhealthy Hfound.
  destruct (DELETE_outcome d fid) as [resp [d' [Hrun [Heng Hcases]]]].
  exists resp, d'. split; [exact Hrun|].
  destruct Hcases as [[[Hno | Hno] _] | [_ [_ Hcases]]];
    try contradiction; try (rewrite Hhealthy in Hno; contradiction).
  destruct Hcases as [[Hd _] | [[_ [Hm _]] | [_ [_ [Hst [_ [_ Hs]]]]]]];
    try (rewrite Hhealthy in Hd; contradiction);
    try (rewrite Hhealthy in Hm; contradiction).
  destruct (afterMetadata_clean d fid (Hhealthy _)) as [Hhist Htab].
  split; [exact Hst|]. rewrite Hs. split; [exact Hhist|].
  split; [unfold Database.tableExists; rewrite Htab; reflexivity|].
  unfold ReactTools.getTableSchemaTool, Js.tryCatch, Js.bind, ReactTools.announce,
    Js.ret, ReactState.onDb, Database.select, ReactTools.tableNameOf.
  cbn [ReactState.db]. rewrite Heng, Hhealthy, Hs.
  unfold Database.tableInfo. rewrite Htab.
  eexists. eexists. split; [reflexivity|]. cbn. auto.
Qed.

(** Dataset [x] of the sample store, deleted and then asked about. *)
Lemma getTableSchemaTool_after_DELETE_witness :
  (forall s, Database.raises (Database.engine Sample.sampleDb) s = None)
  /\ Database.filesById (lit "x") (Database.store Sample.sampleDb) <> []
  /\ exists resp d',
       FilesRoute.DELETE (lit "x") Sample.sampleDb = (Js.Normal resp, d')
       /\ Database.historyOf (lit "x") (Database.store d') = []
       /\ exists result w',
            ReactTools.getTableSchemaTool (lit "x") None
              (ReactState.mkWorld d' Sample.freshState None [])
            = (Js.Normal result, w')
            /\ ReactTools.q_success result = true
            /\ ReactTools.q_data result = Some [].
Proof.
  assert (Hhealthy : forall s,
            Database.raises (Database.engine Sample.sampleDb) s = None)
    by (intros s; reflexivity).
  assert (Hfound : Database.filesById (lit "x") (Database.store Sample.sampleDb) <> [])
    by (vm_compute; discriminate).
  split; [exact Hhealthy|]. split; [exact Hfound|].
  destruct (getTableSchemaTool_after_DELETE Sample.sampleDb (lit "x")
              Sample.freshState [] Hhealthy Hfound)
    as [resp [d' [Hrun [_ [Hhist [_ [result [w' [Htool [Hok [Hdata _]]]]]]]]]]].
  exists resp, d'. split; [exact Hrun|]. split; [exact Hhist|].
  exists result, w'. auto.
Defined.

(** ** Conversation history *)

Section History.

Import Database Js ChatHistory.

Section OrderBy.

Variable le : N -> N -> bool.
Hypothesis le_total : forall a b, le a b = true \/ le b a = true.
Hypothesis le_trans : forall a b c, le a b = true -> le b c = true -> le a c = true.

Lemma insertBy_perm (x : ChatHistoryItem) (l : list ChatHistoryItem) :
  Permutation (insertBy le x l) (x :: l).
Proof.
  induction l as [|y l IH]; simpl; [reflexivity|].
  destruct (le (timestamp x) (timestamp y)); [reflexivity|].
  rewrite IH. apply perm_swap.
Qed.

Lemma orderBy_perm (l : list ChatHistoryItem) : Permutation (orderBy le l) l.
Proof.
  induction l as [|x l IH]; simpl; [reflexivity|].
  rewrite insertBy_perm. constructor. exact IH.
Qed.

Lemma insertBy_sorted (x : ChatHistoryItem) (l : list ChatHistoryItem) :
  StronglySorted (inOrder le) l -> StronglySorted (inOrder le) (insertBy le x l).
Proof.
  induction 1 as [|y l Hs IH Hy]; simpl.
  - repeat constructor.
  - destruct (le (timestamp x) (timestamp y)) eqn:E.
    + constructor; [constructor; assumption|].
      constructor; [exact E|].
      apply Forall_impl with (P := inOrder le y); [|exact Hy].
      intros z Hz. unfold inOrder in *. eapply le_trans; eassumption.
    + constructor; [exact IH|].
      eapply Permutation_Forall.
      * symmetry. apply insertBy_perm.
      * constructor; [|exact Hy].
        destruct (le_total (timestamp x) (timestamp y)) as [H|H];
          [congruence | exact H].
Qed.

Lemma orderBy_sorted (l : list ChatHistoryItem) : StronglySorted (inOrder le) (orderBy le l).
Proof.
  induction l as [|x l IH]; simpl; [constructor | apply insertBy_sorted, IH].
Qed.

End OrderBy.

Lemma orderAsc_sorted (l : list ChatHistoryItem) : StronglySorted older (orderAsc l).
Proof.
  assert (H : StronglySorted
                (fun a b => N.leb (timestamp a) (timestamp b) = true) (orderAsc l)).
  { apply orderBy_sorted.
    - intros a b. rewrite !N.leb_le. lia.
    - intros a b c. rewrite !N.leb_le. lia. }
  induction H; constructor; auto.
  eapply Forall_impl; [|eassumption]. intros z Hz. apply N.leb_le, Hz.
Qed.

Lemma orderDesc_sorted (l : list ChatHistoryItem) : StronglySorted newer (orderDesc l).
Proof.
  assert (H : StronglySorted
                (fun a b => N.leb (timestamp b) (timestamp a) = true) (orderDesc l)).
  { apply (orderBy_sorted (fun a b => N.leb b a)).
    - intros a b. rewrite !N.leb_le. lia.
    - intros a b c. rewrite !N.leb_le. lia. }
  induction H; constructor; auto.
  eapply Forall_impl; [|eassumption]. intros z Hz. apply N.leb_le, Hz.
Qed.

Lemma StronglySorted_skipn {A} (R : A -> A -> Prop) (n : nat) :
  forall l, StronglySorted R l -> StronglySorted R (skipn n l).
Proof.
  induction n as [|n IH]; intros l H; [exact H|].
  destruct l as [|x l]; [constructor|].
  simpl. apply IH. inversion H; assumption.
Qed.

Lemma Forall_firstn {A} (P : A -> Prop) (n : nat) :
  forall l, Forall P l -> Forall P (firstn n l).
Proof.
  induction n as [|n IH]; intros l H; [constructor|].
  destruct H as [|x l Hx Hl]; simpl; constructor; auto.
Qed.

Lemma StronglySorted_firstn {A} (R : A -> A -> Prop) (n : nat) :
  forall l, StronglySorted R l -> StronglySorted R (firstn n l).
Proof.
  induction n as [|n IH]; intros l H; [constructor|].
  destruct H as [|x l Hs Hx]; simpl; constructor; auto.
  apply Forall_firstn, Hx.
Qed.

Lemma StronglySorted_app_one {A} (R : A -> A -> Prop) (l : list A) (x : A) :
  StronglySorted R l -> Forall (fun y => R y x) l -> StronglySorted R (l ++ [x]).
Proof.
  induction 1 as [|y l Hs IH Hy]; intros Hx; simpl.
  - repeat constructor.
  - inversion Hx; subst. constructor; [apply IH; assumption|].
    apply Forall_app. split; [exact Hy | constructor; [assumption | constructor]].
Qed.

Lemma StronglySorted_rev {A} (R : A -> A -> Prop) (l : list A) :
  StronglySorted R l -> StronglySorted (fun a b => R b a) (rev l).
Proof.
  induction 1 as [|x l Hs IH Hx]; simpl; [constructor|].
  apply StronglySorted_app_one; [exact IH|].
  apply Forall_rev. exact Hx.
Qed.

(** Windows of [size] rows laid end to end. *)
Lemma windows_concat {A} (size : nat) (rows : list A) (n : nat) :
  flat_map (fun k => firstn size (skipn ((k - 1) * size) rows)) (seq 1 n)
  = firstn (n * size) rows.
Proof.
  induction n as [|n IH]; [reflexivity|].
  rewrite seq_S, flat_map_app, IH. cbn [flat_map]. rewrite app_nil_r.
  replace (1 + n - 1) with n by lia.
  replace (S n * size) with (n * size + size) by lia.
  generalize (n * size) as a. clear IH. intros a. revert rows.
  induction a as [|a IHa]; intros rows; simpl.
  - reflexivity.
  - destruct rows as [|r rows]; simpl.
    + rewrite firstn_nil. reflexivity.
    + rewrite IHa. reflexivity.
Qed.

Lemma flat_map_rev_perm {A B} (f : A -> list B) (l : list A) :
  Permutation (flat_map (fun a => rev (f a)) l) (flat_map f l).
Proof.
  induction l as [|a l IH]; simpl; [reflexivity|].
  apply Permutation_app; [symmetry; apply Permutation_rev | exact IH].
Qed.

Lemma skipn_nonempty {A} (n : nat) (l : list A) :
  skipn n l <> [] <-> n < List.length l.
Proof.
  rewrite <- skipn_all_iff. lia.
Qed.


Lemma getAllChatHistory_healthy (fid : jsstring) (d : Db) :
  (forall s, raises (engine d) s = None) ->
  getAllChatHistory fid d
  = (Normal (historyAsc fid (store d)),
     mkDb (engine d) (store d) (journal d ++ [SelectHistoryAsc fid])).
Proof.
  intros H. unfold getAllChatHistory, bind, call, select.
  rewrite H. reflexivity.
Qed.

Lemma getChatHistoryCount_healthy (fid : jsstring) (d : Db) :
  (forall s, raises (engine d) s = None) ->
  getChatHistoryCount fid d
  = (Normal (List.length (historyOf fid (store d))),
     mkDb (engine d) (store d) (journal d ++ [CountHistory fid])).
Proof.
  intros H. unfold getChatHistoryCount, bind, call, selectOne.
  rewrite H. reflexivity.
Qed.

Lemma getChatHistoryPaginated_healthy (fid : jsstring) (page limit : Z) (d : Db) :
  (forall s, raises (engine d) s = None) ->
  let offset := ((page - 1) * limit)%Z in
  getChatHistoryPaginated fid page limit d
  = (Normal (mkPage (rev (historyDesc fid limit offset (store d)))
                    (List.length (historyOf fid (store d)))
                    (offset + limit <? Z.of_nat (List.length (historyOf fid (store d))))%Z
                    page),
     mkDb (engine d) (store d)
          (journal d ++ [SelectHistoryDesc fid limit offset; CountHistory fid])).
Proof.
  intros H offset. unfold getChatHistoryPaginated, bind, call, select.
  fold offset. rewrite H.
  cbn [success negb data].
  rewrite getChatHistoryCount_healthy by exact H.
  unfold ret, recorded. cbn [engine store journal].
  rewrite <- app_assoc. reflexivity.
Qed.

(** A page of a positive size, numbered from 1, is a window of the
    newest-first order. *)
Lemma historyDesc_window (fid : jsstring) (limit : Z) (k : nat) (st : Store) :
  (0 < limit)%Z ->
  historyDesc fid limit ((Z.of_nat (S k) - 1) * limit) st
  = firstn (Z.to_nat limit)
           (skipn (k * Z.to_nat limit) (orderDesc (historyOf fid st))).
Proof.
  intros Hl. unfold historyDesc, limitOffset.
  destruct (limit <? 0)%Z eqn:E; [apply Z.ltb_lt in E; lia|].
  replace (Z.to_nat ((Z.of_nat (S k) - 1) * limit)) with (k * Z.to_nat limit)
    by nia.
  reflexivity.
Qed.

Lemma fetchPages_healthy (fid : jsstring) (limit : Z) (pages : list Z) :
  forall d,
    (forall s, raises (engine d) s = None) ->
    exists d',
      fetchPages fid limit pages d
      = (Normal (flat_map (fun p => rev (historyDesc fid limit ((p - 1) * limit) (store d)))
                          pages), d')
      /\ store d' = store d /\ engine d' = engine d.
Proof.
  induction pages as [|p pages IH]; intros d H.
  - exists d. repeat split.
  - cbn [fetchPages]. unfold bind at 1.
    rewrite getChatHistoryPaginated_healthy by exact H.
    cbn [history]. unfold bind at 1.
    match goal with
    | |- context [fetchPages fid limit pages ?d1] =>
        destruct (IH d1) as [d' [Hrun [Hs He]]]; [exact H|]
    end.
    rewrite Hrun. exists d'. cbn [store engine] in *. repeat split; auto.
Qed.

End History.

(** C9.  On an engine without faults and for a positive page size:
    [getAllChatHistory] returns the turns of the dataset in chronological
    order.  Page [page >= 1] returns, oldest first, the window of the
    newest-first order that begins after [(page - 1) * limit] turns and
    holds at most [limit] of them, with the number of stored turns as
    [totalCount], and with [hasMore] true exactly when turns remain beyond
    the window.  The pages 1 to [n] put end to end hold exactly the
    [n * limit] newest turns; once that covers the history, they hold the
    same turns as the whole history reversed. *)
Theorem pagination_reconstructs_history :
  forall (d : Database.Db) (fid : jsstring) (limit : Z),
    (forall s, Database.raises (Database.engine d) s = None) ->
    (0 < limit)%Z ->
    let turns := Database.historyOf fid (Database.store d) in
    let newestFirst := Database.orderDesc turns in
    exists all dAll,
      ChatHistory.getAllChatHistory fid d = (Js.Normal all, dAll)
      /\ Permutation all turns
      /\ StronglySorted ChatHistory.older all
      /\ (forall page, (1 <= page)%Z ->
            exists pg d',
              ChatHistory.getChatHistoryPaginated fid page limit d
              = (Js.Normal pg, d')
              /\ Database.store d' = Database.store d
              /\ ChatHistory.history pg
                 = rev (firstn (Z.to_nat limit)
                          (skipn (Z.to_nat ((page - 1) * limit)) newestFirst))
              /\ StronglySorted ChatHistory.older (ChatHistory.history pg)
              /\ ChatHistory.totalCount pg = List.length turns
              /\ (ChatHistory.hasMore pg = true
                  <-> skipn (Z.to_nat (page * limit)) newestFirst <> [])
              /\ ChatHistory.currentPage pg = page)
      /\ (forall n,
            exists items d',
              ChatHistory.fetchPages fid limit (ChatHistory.pageNumbers n) d
              = (Js.Normal items, d')
              /\ Permutation items (firstn (n * Z.to_nat limit) newestFirst)
              /\ (List.length turns <= n * Z.to_nat limit ->
                  Permutation items (rev all))).
Proof.
  intros d fid limit Hhealthy Hlimit turns newestFirst.
  assert (Hlen : List.length newestFirst = List.length turns).
  { apply Permutation_length, orderBy_perm. }
  exists (Database.historyAsc fid (Database.store d)). eexists.
  split; [apply getAllChatHistory_healthy, Hhealthy|].
  split; [apply orderBy_perm|].
  split; [apply orderAsc_sorted|].
  split.
  - intros page Hpage. eexists. eexists.
    split; [apply getChatHistoryPaginated_healthy, Hhealthy|].
    cbn [Database.store ChatHistory.history ChatHistory.totalCount
         ChatHistory.hasMore ChatHistory.currentPage].
    assert (Hwin : Database.historyDesc fid limit ((page - 1) * limit)
                     (Database.store d)
                   = firstn (Z.to_nat limit)
                       (skipn (Z.to_nat ((page - 1) * limit)) newestFirst)).
    { unfold Database.historyDesc, Database.limitOffset.
      destruct (limit <? 0)%Z eqn:E; [apply Z.ltb_lt in E; lia | reflexivity]. }
    rewrite Hwin. repeat split.
    + apply (StronglySorted_rev (R := ChatHistory.newer)).
      apply StronglySorted_firstn, StronglySorted_skipn, orderDesc_sorted.
    + intros H. apply Z.ltb_lt in H. apply skipn_nonempty.
      rewrite Hlen. fold turns in H. lia.
    + intros H. apply skipn_nonempty in H. rewrite Hlen in H.
      apply Z.ltb_lt. fold turns. lia.
  - intros n.
    destruct (fetchPages_healthy fid limit (ChatHistory.pageNumbers n) d Hhealthy)
      as [d' [Hrun _]].
    eexists. exists d'. split; [exact Hrun|].
    assert (Hitems :
      Permutation
        (flat_map (fun p => rev (Database.historyDesc fid limit ((p - 1) * limit)
                                   (Database.store d)))
                  (ChatHistory.pageNumbers n))
        (firstn (n * Z.to_nat limit) newestFirst)).
    { rewrite flat_map_rev_perm.
      unfold ChatHistory.pageNumbers. rewrite flat_map_concat_map, map_map,
        <- flat_map_concat_map.
      rewrite <- windows_concat.
      rewrite (flat_map_ext _ (fun k => firstn (Z.to_nat limit)
                 (skipn ((k - 1) * Z.to_nat limit) newestFirst))); [reflexivity|].
      intros k. destruct k as [|k].
      - unfold Database.historyDesc, Database.limitOffset.
        destruct (limit <? 0)%Z eqn:E; [apply Z.ltb_lt in E; lia|].
        replace (Z.to_nat ((Z.of_nat 0 - 1) * limit)) with 0 by lia.
        reflexivity.
      - rewrite historyDesc_window by exact Hlimit.
        replace (S k - 1) with k by lia. reflexivity. }
    split; [exact Hitems|].
    intros Hcover. rewrite Hitems.
    rewrite firstn_all2 by (rewrite Hlen; exact Hcover).
    rewrite <- Permutation_rev.
    transitivity turns; [apply orderBy_perm | symmetry; apply orderBy_perm].
Qed.

(** Dataset [x] of the sample store, read in pages of two. *)
Lemma pagination_reconstructs_history_witness :
  (forall s, Database.raises (Database.engine Sample.sampleDb) s = None)
  /\ (0 < 2)%Z
  /\ exists all dAll items d',
       ChatHistory.getAllChatHistory (lit "x") Sample.sampleDb
       = (Js.Normal all, dAll)
       /\ ChatHistory.fetchPages (lit "x") 2 (ChatHistory.pageNumbers 3)
            Sample.sampleDb = (Js.Normal items, d')
       /\ Permutation items (rev all).
Proof.
  assert (Hhealthy : forall s,
            Database.raises (Database.engine Sample.sampleDb) s = None)
    by (intros s; reflexivity).
  assert (Hsize : (0 < 2)%Z) by lia.
  split; [exact Hhealthy|]. split; [exact Hsize|].
  destruct (pagination_reconstructs_history Sample.sampleDb (lit "x")
              Hhealthy Hsize)
    as [all [dAll [Hall [_ [_ [_ Hpages]]]]]].
  destruct (Hpages 3) as [items [d' [Hrun [_ Hcover]]]].
  exists all, dAll, items, d'. split; [exact Hall|]. split; [exact Hrun|].
  apply Hcover. vm_compute. lia.
Defined.

(** ** The plan and its progress *)

Section PlanBookkeeping.

Import Js ReactState ReActStateManager.

Lemma NoDup_snoc {A} (l : list A) (x : A) :
  NoDup l -> ~ In x l -> NoDup (l ++ [x]).
Proof.
  intros Hl Hx. apply NoDup_app; [exact Hl | repeat constructor; intros [] |].
  intros a Ha [<-|[]]. exact (Hx Ha).
Qed.

Lemma filter_none {A} (p : A -> bool) (l : list A) :
  (forall x, In x l -> p x = false) -> filter p l = [].
Proof.
  induction l as [|x l IH]; intros H; [reflexivity|].
  cbn [filter]. rewrite (H x (or_introl eq_refl)).
  apply IH. intros y Hy. apply H. right. exact Hy.
Qed.

Lemma afterAll_cons {A} (call : M World A) (calls : list (M World A)) (w : World) :
  afterAll (call :: calls) w = afterAll calls (snd (call w)).
Proof. reflexivity. Qed.

Lemma addCompletedAction_all (done : list jsstring) (w : World) :
  let w1 := afterAll (map addCompletedAction done) w in
  let s := globalReActState w in
  let s1 := globalReActState w1 in
  db w1 = db w
  /\ currentPlan s1 = currentPlan s
  /\ observations s1 = observations s
  /\ needsReplan s1 = needsReplan s
  /\ errorCount s1 = errorCount s
  /\ apiCallCount s1 = apiCallCount s
  /\ (NoDup (completedActions s) -> NoDup (completedActions s1))
  /\ (forall a, In a (completedActions s1) <-> In a (completedActions s) \/ In a done).
Proof.
  revert w. induction done as [|action done IH]; intros w; cbn zeta.
  - simpl. repeat split; auto. intros [H|[]]; exact H.
  - cbn [map]. rewrite afterAll_cons.
    set (w0 := snd (addCompletedAction action w)).
    specialize (IH w0). cbn zeta in IH.
    destruct IH as (Hdb & Hplan & Hobs & Hre & Herr & Hapi & Hnd & Hin).
    assert (Hw0 :
      db w0 = db w
      /\ currentPlan (globalReActState w0) = currentPlan (globalReActState w)
      /\ observations (globalReActState w0) = observations (globalReActState w)
      /\ needsReplan (globalReActState w0) = needsReplan (globalReActState w)
      /\ errorCount (globalReActState w0) = errorCount (globalReActState w)
      /\ apiCallCount (globalReActState w0) = apiCallCount (globalReActState w)
      /\ (NoDup (completedActions (globalReActState w))
          -> NoDup (completedActions (globalReActState w0)))
      /\ (forall a, In a (completedActions (globalReActState w0))
                    <-> In a (completedActions (globalReActState w)) \/ a = action)).
    { subst w0. unfold addCompletedAction, update, modify. cbn [snd globalReActState db].
      destruct (has (completedActions (globalReActState w)) action) eqn:Hhas;
        cbn [negb]; cbn.
      - repeat split; auto.
        + intros [H| ->]; [exact H | apply has_In; exact Hhas].
      - repeat split; auto.
        + intros Hn. apply NoDup_snoc; [exact Hn|].
          apply has_not_In. exact Hhas.
        + intros H. apply in_app_or in H. destruct H as [H|[H|[]]]; auto.
        + intros [H|H]; apply in_or_app; [left; exact H | right; left; auto]. }
    destruct Hw0 as (Hdb0 & Hplan0 & Hobs0 & Hre0 & Herr0 & Hapi0 & Hnd0 & Hin0).
    do 6 (split; [congruence|]). split; [auto|].
    intros a. split.
    + intros H. apply Hin in H. destruct H as [H|H]; [|right; right; exact H].
      apply Hin0 in H. destruct H as [H| ->]; [left; exact H | right; left; reflexivity].
    + intros [H|[<-|H]]; apply Hin.
      * left. apply Hin0. left. exact H.
      * left. apply Hin0. right. reflexivity.
      * right. exact H.
Qed.

End PlanBookkeeping.

(** X1.  After a plan is set, however many actions are reported as
    completed and however often, the completed actions are recorded once
    each; the remaining plan is the plan without the reported actions, in
    plan order, and is empty exactly when every step of the plan was
    reported.  Setting the plan leaves the count of model calls alone. *)
Theorem plan_bookkeeping (plan done : list jsstring) (w : ReactState.World) :
  let w1 := ReActStateManager.afterAll
              (map ReActStateManager.addCompletedAction done)
              (snd (ReActStateManager.setPlan plan w)) in
  let s1 := ReactState.globalReActState w1 in
  ReactState.currentPlan s1 = plan
  /\ NoDup (ReactState.completedActions s1)
  /\ (forall a, In a (ReactState.completedActions s1) <-> In a done)
  /\ Js.returned (ReActStateManager.getRemainingPlan w1)
     = Some (filter (fun step => negb (has done step)) plan)
  /\ (Js.returned (ReActStateManager.getRemainingPlan w1) = Some []
      <-> incl plan done)
  /\ ReactState.errorCount s1 = 0
  /\ ReactState.apiCallCount s1
     = ReactState.apiCallCount (ReactState.globalReActState w).
Proof.
  cbn zeta.
  pose proof (addCompletedAction_all done (snd (ReActStateManager.setPlan plan w)))
    as H. cbn zeta in H.
  destruct H as (_ & Hplan & _ & _ & Herr & Hapi & Hnd & Hin).
  set (w1 := ReActStateManager.afterAll _ _) in *.
  assert (Hdone : forall a, In a (ReactState.completedActions
                                    (ReactState.globalReActState w1)) <-> In a done).
  { intros a. rewrite Hin. cbn. tauto. }
  assert (Hrem : Js.returned (ReActStateManager.getRemainingPlan w1)
                 = Some (filter (fun step => negb (has done step)) plan)).
  { unfold ReActStateManager.getRemainingPlan, Js.returned, Js.bind, Js.get, Js.ret.
    cbn [fst]. rewrite Hplan. cbn. f_equal. apply filter_ext. intros step.
    f_equal. apply eq_true_iff_eq. rewrite !has_In. apply Hdone. }
  split; [rewrite Hplan; reflexivity|].
  split; [apply Hnd; cbn; constructor|].
  split; [exact Hdone|].
  split; [exact Hrem|].
  split; [|split; [rewrite Herr; reflexivity | rewrite Hapi; reflexivity]].
  rewrite Hrem. split.
  - intros E. injection E as E. intros step Hstep.
    destruct (has done step) eqn:Hhas; [apply has_In; exact Hhas|].
    assert (Hf : In step (filter (fun step => negb (has done step)) plan)).
    { apply filter_In. split; [exact Hstep | rewrite Hhas; reflexivity]. }
    rewrite E in Hf. destruct Hf.
  - intros Hincl. f_equal. apply filter_none. intros step Hstep.
    apply negb_false_iff, has_In, Hincl, Hstep.
Qed.


Section ErrorCount.

Import Database Js ReactState ReActStateManager ReactTools AgentTools.

Lemma journal_grew (j : list Stmt) (s : Stmt) :
  Nat.eqb (List.length (j ++ [s])) (List.length j) = false.
Proof. rewrite length_app. cbn. apply Nat.eqb_neq. lia. Qed.

End ErrorCount.

(** X2.  The two tools that ask the storage count an error once when
    they fail before the engine is handed a statement (the callback threw,
    or the query was refused), and twice when the engine fails: the count
    is raised where the failure is found and again where it is caught.
    The [shouldReplan] flag of a failure result is computed from the count
    so raised, so the second engine failure after a plan was set already
    asks for a new plan. *)
Theorem storage_tools_count_errors
    (lower upper : jsstring -> jsstring) (w : ReactState.World)
    (query fileId : jsstring) (reasoning : option jsstring) :
  (exists result w',
     ReactTools.executeSqlTool lower upper query fileId reasoning w
     = (Js.Normal result, w')
     /\ ReactState.errorCount (ReactState.globalReActState w')
        = ReactState.errorCount (ReactState.globalReActState w)
          + AgentTools.errorsOf w w' result
     /\ ReactTools.q_shouldReplan result
        = if ReactTools.q_success result then None
          else Some (Nat.ltb 2 (ReactState.errorCount (ReactState.globalReActState w'))
                     || ReactState.needsReplan (ReactState.globalReActState w)))
  /\ (exists result w',
        ReactTools.getTableSchemaTool fileId reasoning w = (Js.Normal result, w')
        /\ ReactState.errorCount (ReactState.globalReActState w')
           = ReactState.errorCount (ReactState.globalReActState w)
             + AgentTools.errorsOf w w' result
        /\ ReactTools.q_shouldReplan result
           = if ReactTools.q_success result then None
             else Some (Nat.ltb 2 (ReactState.errorCount (ReactState.globalReActState w'))
                        || ReactState.needsReplan (ReactState.globalReActState w))).
Proof.
  split.
  - unfold ReactTools.executeSqlTool, Js.tryCatch, Js.bind.
    destruct (ReactTools.announce reasoning w) as [[[]|e] w1] eqn:Ea;
      destruct (announce_frame _ _ Ea) as [Hdb [Hst _]].
    2:{ unfold Js.throw, ReactState.incrementErrorCount, ReactState.shouldReplan,
          Js.modify, Js.get, Js.ret, AgentTools.errorsOf.
        eexists. eexists. split; [reflexivity|]. cbn.
        rewrite Hdb, Hst, Nat.eqb_refl. split; [lia | reflexivity]. }
    destruct (startsWith (lit "select") (lower (trim query))) eqn:Hsel; cbn [negb].
    2:{ unfold Js.throw, ReactState.incrementErrorCount, ReactState.shouldReplan,
          Js.modify, Js.get, Js.ret, AgentTools.errorsOf.
        eexists. eexists. split; [reflexivity|]. cbn.
        rewrite Hdb, Hst, Nat.eqb_refl. split; [lia | reflexivity]. }
    destruct (find _ ReactTools.sqliteIncompatible) as [found|] eqn:Hfind.
    { unfold Js.throw, ReactState.incrementErrorCount, ReactState.shouldReplan,
        Js.modify, Js.get, Js.ret, AgentTools.errorsOf.
      eexists. eexists. split; [reflexivity|]. cbn.
      rewrite Hdb, Hst, Nat.eqb_refl. split; [lia | reflexivity]. }
    destruct (ReactTools.mentionsTable lower (ReactTools.tableNameOf fileId) query)
      eqn:Hment; cbn [negb].
    2:{ unfold Js.throw, ReactState.incrementErrorCount, ReactState.shouldReplan,
          Js.modify, Js.get, Js.ret, AgentTools.errorsOf.
        eexists. eexists. split; [reflexivity|]. cbn.
        rewrite Hdb, Hst, Nat.eqb_refl. split; [lia | reflexivity]. }
    unfold ReactState.onDb. rewrite Hdb.
    pose proof (select_frame (Database.Query (ReactTools.limitedQueryOf lower query))
                  (fun st => Database.evalQuery (Database.engine (ReactState.db w)) st
                               (ReactTools.limitedQueryOf lower query))
                  (ReactState.db w)) as [Hj _].
    fold (Database.selectQuery (ReactTools.limitedQueryOf lower query) (ReactState.db w)) in Hj.
    destruct (Database.selectQuery (ReactTools.limitedQueryOf lower query) (ReactState.db w))
      as [answer d] eqn:Eq.
    cbn [fst snd] in Hj.
    destruct (Database.success answer) eqn:Hok; cbn [negb].
    + unfold Js.ret, AgentTools.errorsOf. eexists. eexists. split; [reflexivity|].
      cbn. rewrite Hst. split; [lia | reflexivity].
    + unfold Js.throw, ReactState.incrementErrorCount, ReactState.shouldReplan,
        Js.modify, Js.get, Js.ret, AgentTools.errorsOf.
      eexists. eexists. split; [reflexivity|]. cbn.
      rewrite Hj, journal_grew, Hst. split; [lia | reflexivity].
  - unfold ReactTools.getTableSchemaTool, Js.tryCatch, Js.bind.
    destruct (ReactTools.announce reasoning w) as [[[]|e] w1] eqn:Ea;
      destruct (announce_frame _ _ Ea) as [Hdb [Hst _]].
    2:{ unfold Js.throw, ReactState.incrementErrorCount, ReactState.shouldReplan,
          Js.modify, Js.get, Js.ret, AgentTools.errorsOf.
        eexists. eexists. split; [reflexivity|]. cbn.
        rewrite Hdb, Hst, Nat.eqb_refl. split; [lia | reflexivity]. }
    unfold ReactState.onDb. rewrite Hdb.
    pose proof (select_frame (Database.TableInfo (ReactTools.tableNameOf fileId))
                  (fun st => inr (Database.tableInfo (ReactTools.tableNameOf fileId) st))
                  (ReactState.db w)) as [Hj _].
    destruct (Database.select _ _ (ReactState.db w)) as [answer d] eqn:Eq.
    cbn [fst snd] in Hj.
    destruct (Database.success answer) eqn:Hok; cbn [negb].
    + unfold Js.ret, AgentTools.errorsOf. eexists. eexists. split; [reflexivity|].
      cbn. rewrite Hst. split; [lia | reflexivity].
    + unfold Js.throw, ReactState.incrementErrorCount, ReactState.shouldReplan,
        Js.modify, Js.get, Js.ret, AgentTools.errorsOf.
      eexists. eexists. split; [reflexivity|]. cbn.
      rewrite Hj, journal_grew, Hst. split; [lia | reflexivity].
Qed.

(** ** The planning and progress tools *)

Section Planning.

Import Database Js ReactState ReActStateManager ReactTools AgentTools.

Variable lower : jsstring -> jsstring.

(** The steps between the opening and the closing ones. *)
Lemma planStepsOf_middle (question : jsstring) :
  let q := lower question in
  planStepsOf lower question
  = step_structure
    :: ((if includes k_distribution q || includes k_frequency q
         then [step_distribution; step_statistics] else [])
        ++ (if includes k_correlation q || includes k_relation q
            then [step_correlation; step_association] else [])
        ++ (if includes k_trend q || includes k_change q
            then [step_trend; step_change] else [])
        ++ (if includes k_anomaly q || includes k_peculiar q
            then [step_outliers] else [])
        ++ (if includes k_forecast q || includes k_future q
            then [step_forecast] else [])
        ++ (if includes k_optimisation q || includes k_improvement q
            then [step_optimisation] else []))
    ++ [step_insights; step_implications; step_recommendations].
Proof.
  cbn zeta. unfold planStepsOf.
  destruct (includes k_distribution _ || includes k_frequency _);
  destruct (includes k_correlation _ || includes k_relation _);
  destruct (includes k_trend _ || includes k_change _);
  destruct (includes k_anomaly _ || includes k_peculiar _);
  destruct (includes k_forecast _ || includes k_future _);
  destruct (includes k_optimisation _ || includes k_improvement _);
  reflexivity.
Qed.

Lemma planStepsOf_shape (question : jsstring) :
  exists middle,
    planStepsOf lower question
    = step_structure :: middle
      ++ [step_insights; step_implications; step_recommendations]
    /\ List.length middle <= 9.
Proof.
  rewrite planStepsOf_middle. cbn zeta.
  eexists. split; [reflexivity|].
  rewrite !length_app.
  destruct (includes k_distribution _ || includes k_frequency _);
  destruct (includes k_correlation _ || includes k_relation _);
  destruct (includes k_trend _ || includes k_change _);
  destruct (includes k_anomaly _ || includes k_peculiar _);
  destruct (includes k_forecast _ || includes k_future _);
  destruct (includes k_optimisation _ || includes k_improvement _);
  cbn [List.length]; lia.
Qed.

End Planning.

(** X3.  The planning tool always returns.  Its plan opens with the
    structure analysis, closes with the same three steps and has at most
    nine steps in between, whatever the question.  When the reasoning
    callback returns, the plan replaces the agent state: no completed
    action, no observation, no pending replan, an error count of zero, the
    reasoning as current thought, the count of model calls kept.  When the
    callback throws, the result is a failure carrying its message and the
    agent state is as before; unlike the storage tools, no error is
    counted.  The storage is not touched either way. *)
Theorem planActionsTool_outcome (lower : jsstring -> jsstring)
    (question context reasoning : jsstring) (w : ReactState.World) :
  exists result w',
    AgentTools.planActionsTool lower question context reasoning w
    = (Js.Normal result, w')
    /\ ReactState.db w' = ReactState.db w
    /\ (exists middle,
          AgentTools.planStepsOf lower question
          = AgentTools.step_structure :: middle
            ++ [AgentTools.step_insights; AgentTools.step_implications;
                AgentTools.step_recommendations]
          /\ List.length middle <= 9)
    /\ match fst (ReactState.callReasoningCallback reasoning
                    (Some AgentTools.p_planning) w) with
       | Js.Normal _ =>
           ReactTools.q_success result = true
           /\ ReactTools.q_data result
              = Some (AgentTools.numbered (AgentTools.planStepsOf lower question))
           /\ ReactState.globalReActState w'
              = ReactState.mkReActState
                  (AgentTools.planStepsOf lower question) [] [] reasoning false 0
                  (ReactState.apiCallCount (ReactState.globalReActState w))
       | Js.Throw e =>
           ReactTools.q_success result = false
           /\ ReactTools.q_error result = Some e
           /\ ReactState.globalReActState w' = ReactState.globalReActState w
       end.
Proof.
  unfold AgentTools.planActionsTool, Js.tryCatch, Js.bind.
  destruct (ReactState.callReasoningCallback reasoning (Some AgentTools.p_planning) w)
    as [[[]|e] w1] eqn:Ec;
    destruct (callReasoningCallback_frame _ _ _ Ec) as [Hdb [Hst _]];
    cbn [fst].
  - unfold ReActStateManager.setPlan, ReActStateManager.setCurrentThought,
      ReActStateManager.update, Js.modify, Js.ret.
    eexists. eexists. split; [reflexivity|]. cbn.
    rewrite Hst. repeat split; auto. apply planStepsOf_shape.
  - unfold Js.ret. eexists. eexists. split; [reflexivity|]. cbn.
    repeat split; auto. apply planStepsOf_shape.
Qed.

(** X4.  The progress tool always returns.  When the reasoning callback
    returns, the reported action is among the completed actions (which
    stay free of repetitions), the reported result is appended to the
    observations, and a replan is pending afterwards exactly when one was
    pending before, or more than two errors are counted, or the result
    text contains 오류 or 실패: the tool can raise the flag but never
    clears it.  The result carries that flag.  When the callback throws,
    the failure counts as one error, asks for a replan, and records
    neither the action nor the observation. *)
Theorem trackProgressTool_outcome (roundPercent : nat -> nat -> nat)
    (currentAction result reasoning : jsstring) (w : ReactState.World) :
  let s := ReactState.globalReActState w in
  exists r w',
    AgentTools.trackProgressTool roundPercent currentAction result reasoning w
    = (Js.Normal r, w')
    /\ ReactState.db w' = ReactState.db w
    /\ let s' := ReactState.globalReActState w' in
       ReactState.currentPlan s' = ReactState.currentPlan s
       /\ match fst (ReactState.callReasoningCallback reasoning
                       (Some AgentTools.p_tracking) w) with
          | Js.Normal _ =>
              ReactTools.q_success r = true
              /\ In currentAction (ReactState.completedActions s')
              /\ (NoDup (ReactState.completedActions s)
                  -> NoDup (ReactState.completedActions s'))
              /\ ReactState.observations s' = ReactState.observations s ++ [result]
              /\ ReactState.needsReplan s'
                 = (Nat.ltb 2 (ReactState.errorCount s)
                    || ReactState.needsReplan s
                    || includes AgentTools.w_error result
                    || includes AgentTools.w_failure result)
              /\ (ReactState.needsReplan s = true -> ReactState.needsReplan s' = true)
              /\ ReactTools.q_shouldReplan r = Some (ReactState.needsReplan s')
              /\ ReactState.errorCount s' = ReactState.errorCount s
              /\ ReactState.currentThought s' = reasoning
          | Js.Throw e =>
              ReactTools.q_success r = false
              /\ ReactTools.q_error r = Some e
              /\ ReactTools.q_shouldReplan r = Some true
              /\ ReactState.errorCount s' = S (ReactState.errorCount s)
              /\ ReactState.completedActions s' = ReactState.completedActions s
              /\ ReactState.observations s' = ReactState.observations s
              /\ ReactState.needsReplan s' = ReactState.needsReplan s
          end.
Proof.
  cbn zeta.
  unfold AgentTools.trackProgressTool, Js.tryCatch, Js.bind.
  destruct (ReactState.callReasoningCallback reasoning (Some AgentTools.p_tracking) w)
    as [[[]|e] w1] eqn:Ec;
    destruct (callReasoningCallback_frame _ _ _ Ec) as [Hdb [Hst _]];
    cbn [fst].
  - unfold ReActStateManager.addCompletedAction, ReActStateManager.addObservation,
      ReActStateManager.getRemainingPlan, ReActStateManager.getProgress,
      ReActStateManager.getState, ReactState.shouldReplan,
      ReActStateManager.setNeedsReplan, ReActStateManager.setCurrentThought,
      ReActStateManager.update, Js.modify, Js.get, Js.ret, Js.bind.
    eexists. eexists. split; [reflexivity|]. cbn.
    rewrite Hst.
    destruct (has (ReactState.completedActions (ReactState.globalReActState w))
                  currentAction) eqn:Hhas; cbn.
    + repeat split; auto.
      * apply has_In. exact Hhas.
      * intros ->. rewrite orb_true_r. reflexivity.
    + repeat split; auto.
      * apply in_or_app. right. left. reflexivity.
      * intros Hn. apply NoDup_snoc; [exact Hn | apply has_not_In; exact Hhas].
      * intros ->. rewrite orb_true_r. reflexivity.
  - unfold ReactState.incrementErrorCount, Js.modify, Js.ret.
    eexists. eexists. split; [reflexivity|]. cbn.
    rewrite Hst. repeat split; auto.
Qed.

(** One step reported on the fresh state of the sample world, which has
    no callback. *)
Lemma trackProgressTool_outcome_witness :
  exists r w',
    AgentTools.trackProgressTool (fun done total => done * 100 / total)
      (lit "load") (lit "ok") (lit "next") Sample.sampleWorld
    = (Js.Normal r, w')
    /\ NoDup (ReactState.completedActions (ReactState.globalReActState w'))
    /\ ReactTools.q_shouldReplan r = Some false.
Proof.
  destruct (trackProgressTool_outcome (fun done total => done * 100 / total)
              (lit "load") (lit "ok") (lit "next") Sample.sampleWorld)
    as [r [w' [Hrun [_ [_ H]]]]].
  change (fst (ReactState.callReasoningCallback (lit "next")
                 (Some AgentTools.p_tracking) Sample.sampleWorld))
    with (@Js.Normal unit tt) in H.
  destruct H as [_ [_ [Hnd [_ [Hflag [_ [Hr _]]]]]]].
  exists r, w'. split; [exact Hrun|]. split; [apply Hnd; constructor|].
  rewrite Hr, Hflag. reflexivity.
Defined.

(** ** The sample, reflection and summary tools *)



(** X6.  When the reasoning callback returns, the reflection tool
    succeeds, and it lets the analysis end ([shouldReplan] false) exactly
    when the results text mentions no error (오류, 실패, ERROR), has at
    least 200 code units, contains 결론, mentions data, contains the first
    word of the question (both lower-cased) and mentions an insight; in
    every other case it asks to go on.  Whether the text holds a
    recommendation plays no part.  A replan is pending afterwards when one
    was pending or an error was mentioned; nothing else of the agent state
    changes and the storage is not touched. *)
Theorem reflectOnResultsTool_verdict (lower : jsstring -> jsstring)
    (results question reasoning : jsstring) (w : ReactState.World) :
  fst (ReactState.callReasoningCallback reasoning (Some AgentTools.p_reviewing) w)
  = Js.Normal tt ->
  exists r w',
    AgentTools.reflectOnResultsTool lower results question reasoning w
    = (Js.Normal r, w')
    /\ ReactTools.q_success r = true
    /\ ReactTools.q_data r = Some [AgentTools.reflectionOf lower results question]
    /\ (ReactTools.q_shouldReplan r = Some false
        <-> includes AgentTools.w_error results = false
            /\ includes AgentTools.w_failure results = false
            /\ includes (lit "ERROR") results = false
            /\ 200 <= List.length results
            /\ includes AgentTools.w_conclusion results = true
            /\ includes AgentTools.w_rowsOf results
               || includes ReactState.w_data results
               || includes ReactState.w_item results = true
            /\ includes (AgentTools.firstOfSplit (lower question)) (lower results)
               = true
            /\ includes AgentTools.w_insight results
               || includes AgentTools.w_pattern results
               || includes AgentTools.w_trendWord results = true)
    /\ (ReactTools.q_shouldReplan r = Some false
        \/ ReactTools.q_shouldReplan r = Some true)
    /\ ReactState.db w' = ReactState.db w
    /\ let s := ReactState.globalReActState w in
       ReactState.globalReActState w'
       = ReactState.mkReActState
           (ReactState.currentPlan s) (ReactState.completedActions s)
           (ReactState.observations s) (ReactState.currentThought s)
           (ReactState.needsReplan s
            || AgentTools.hasError (AgentTools.reflectionOf lower results question))
           (ReactState.errorCount s) (ReactState.apiCallCount s).
Proof.
  intros Hc.
  unfold AgentTools.reflectOnResultsTool, Js.tryCatch, Js.bind.
  destruct (ReactState.callReasoningCallback reasoning (Some AgentTools.p_reviewing) w)
    as [c w1] eqn:Ec.
  destruct (callReasoningCallback_frame _ _ _ Ec) as [Hdb [Hst _]].
  cbn [fst] in Hc. subst c.
  unfold AgentTools.reflectionOf.
  cbn [AgentTools.hasError AgentTools.needsMoreAnalysis AgentTools.hasData
       AgentTools.answersQuestion AgentTools.hasInsights].
  destruct (includes AgentTools.w_error results);
  destruct (includes AgentTools.w_failure results);
  destruct (includes (lit "ERROR") results);
  destruct (Nat.ltb_spec (List.length results) 200) as [Hlen|Hlen];
  destruct (includes AgentTools.w_conclusion results);
  destruct (includes AgentTools.w_rowsOf results || includes ReactState.w_data results
            || includes ReactState.w_item results);
  destruct (includes (AgentTools.firstOfSplit (lower question)) (lower results));
  destruct (includes AgentTools.w_insight results || includes AgentTools.w_pattern results
            || includes AgentTools.w_trendWord results);
  cbn [orb andb negb];
  unfold ReActStateManager.setNeedsReplan, ReActStateManager.update,
    Js.modify, Js.ret;
  (eexists; eexists; split; [reflexivity|]); cbn;
  rewrite ?Hst, ?orb_true_r, ?orb_false_r;
  (split; [reflexivity|]); (split; [reflexivity|]);
  (split; [split; [intros H; try discriminate H; repeat split; auto; lia
                  | intros (H1 & H2 & H3 & H4 & H5 & H6 & H7 & H8);
                    try discriminate; try reflexivity; lia]|]);
  (split; [auto|]); (split; [exact Hdb|]);
  destruct (ReactState.globalReActState w); reflexivity.
Qed.

Lemma reflectOnResultsTool_verdict_witness :
  exists r w',
    AgentTools.reflectOnResultsTool toLowerCase (lit "ERROR: no such table")
      (lit "which region sells most") (lit "check") Sample.sampleWorld
    = (Js.Normal r, w')
    /\ ReactTools.q_success r = true.
Proof.
  destruct (@reflectOnResultsTool_verdict toLowerCase (lit "ERROR: no such table")
              (lit "which region sells most") (lit "check") Sample.sampleWorld eq_refl)
    as [r [w' [Hrun [Hok _]]]].
  exists r, w'. split; [exact Hrun | exact Hok].
Defined.

Section Summaries.

Import AgentTools.

Lemma filter_length_le' {A} (p : A -> bool) (l : list A) :
  List.length (filter p l) <= List.length l.
Proof.
  induction l as [|x l IH]; cbn; [lia|]. destruct (p x); cbn; lia.
Qed.

End Summaries.

(** X7.  The summary tool always returns and changes neither the agent
    state nor the storage.  Its quality score is ten points per finding,
    five more per finding that mentions 통계 and three more per finding
    that mentions 분석, capped at 100: it never exceeds 100, is at least
    ten times the number of findings up to ten, reaches 100 with any ten
    findings whatever they say, and is zero only when there is no
    finding.  The three selections are sub-lists of the findings. *)
Theorem summarizeFindingsTool_score (findings : list jsstring)
    (question reasoning : jsstring) (w : ReactState.World) :
  let summary := AgentTools.summaryOf findings in
  (exists r w',
     AgentTools.summarizeFindingsTool findings question reasoning w
     = (Js.Normal r, w')
     /\ ReactState.db w' = ReactState.db w
     /\ ReactState.globalReActState w' = ReactState.globalReActState w
     /\ match fst (ReactState.callReasoningCallback reasoning
                     (Some AgentTools.p_summarising) w) with
        | Js.Normal _ =>
            ReactTools.q_success r = true
            /\ ReactTools.q_data r = Some [summary]
            /\ ReactTools.q_message r = AgentTools.summaryMessage summary question
        | Js.Throw e =>
            ReactTools.q_success r = false /\ ReactTools.q_error r = Some e
        end)
  /\ AgentTools.totalFindings summary = List.length findings
  /\ AgentTools.qualityScore summary <= 100
  /\ Nat.min 100 (10 * List.length findings) <= AgentTools.qualityScore summary
  /\ (10 <= List.length findings -> AgentTools.qualityScore summary = 100)
  /\ (AgentTools.qualityScore summary = 0 <-> findings = [])
  /\ incl (AgentTools.keyInsights summary) findings
  /\ incl (AgentTools.dataPoints summary) findings
  /\ incl (AgentTools.conclusions summary) findings
  /\ List.length (AgentTools.keyInsights summary) <= List.length findings
  /\ List.length (AgentTools.dataPoints summary) <= List.length findings
  /\ List.length (AgentTools.conclusions summary) <= List.length findings.
Proof.
  cbn zeta. split.
  - unfold AgentTools.summarizeFindingsTool, Js.tryCatch, Js.bind.
    destruct (ReactState.callReasoningCallback reasoning
                (Some AgentTools.p_summarising) w) as [[[]|e] w1] eqn:Ec;
      destruct (callReasoningCallback_frame _ _ _ Ec) as [Hdb [Hst _]];
      cbn [fst]; unfold Js.ret;
      eexists; eexists; (split; [reflexivity|]); cbn; repeat split; auto.
  - unfold AgentTools.summaryOf.
    cbn [AgentTools.totalFindings AgentTools.qualityScore AgentTools.keyInsights
         AgentTools.dataPoints AgentTools.conclusions].
    pose proof (filter_length_le'
                  (fun f => includes AgentTools.w_statistics f) findings) as H5.
    pose proof (filter_length_le'
                  (fun f => includes ReactState.w_analysis f) findings) as H3.
    split; [reflexivity|].
    split; [apply Nat.le_min_l|].
    split; [lia|].
    split; [intros; lia|].
    split.
    { split.
      - intros H. destruct findings; [reflexivity|]. cbn [List.length] in H. lia.
      - intros ->. reflexivity. }
    repeat split; try (intros f Hf; apply filter_In in Hf; tauto);
      apply filter_length_le'.
Qed.

(** Ten findings that say nothing. *)
Lemma summarizeFindingsTool_score_witness :
  AgentTools.qualityScore (AgentTools.summaryOf (repeat (lit "x") 10)) = 100.
Proof.
  destruct (summarizeFindingsTool_score (repeat (lit "x") 10) (lit "q") (lit "r")
              Sample.sampleWorld)
    as [_ [_ [_ [_ [H _]]]]].
  apply H. cbn. lia.
Defined.

(** ** Saving turns and the context window *)

Section Turns.

Import Database Js ChatHistory DatabaseManager Conversation.

Lemma insertBy_last (le : N -> N -> bool) (x y : ChatHistoryItem)
    (l : list ChatHistoryItem) :
  le (timestamp x) (timestamp y) = true ->
  insertBy le x (l ++ [y]) = insertBy le x l ++ [y].
Proof.
  intros H. induction l as [|z l IH]; cbn [insertBy app].
  - rewrite H. reflexivity.
  - destruct (le (timestamp x) (timestamp z)); [reflexivity|].
    rewrite IH. reflexivity.
Qed.

(** A row that is no older than the rows before it sorts last. *)
Lemma orderAsc_last (l : list ChatHistoryItem) (y : ChatHistoryItem) :
  Forall (fun h => (timestamp h <= timestamp y)%N) l ->
  orderAsc (l ++ [y]) = orderAsc l ++ [y].
Proof.
  unfold orderAsc, orderBy.
  induction 1 as [|x l Hx Hl IH]; [reflexivity|].
  cbn [app fold_right]. rewrite IH.
  apply insertBy_last. apply N.leb_le. exact Hx.
Qed.

Lemma historyOf_app (f : jsstring) (st : Store) (extra : list ChatHistoryItem) :
  historyOf f (mkStore (files st) (chat_history st ++ extra) (tables st))
  = historyOf f st ++ filter (fun h => jseqb (fileId h) f) extra.
Proof. unfold historyOf. cbn [chat_history]. apply filter_app. Qed.

Lemma StronglySorted_app_cross {A} (R : A -> A -> Prop) (l1 l2 : list A) :
  StronglySorted R (l1 ++ l2) ->
  forall a b, In a l1 -> In b l2 -> R a b.
Proof.
  induction l1 as [|x l1 IH]; intros H a b Ha Hb; [destruct Ha|].
  cbn [app] in H. inversion H as [|? ? Hs Hx]; subst.
  destruct Ha as [<-|Ha].
  - rewrite Forall_forall in Hx. apply Hx. apply in_or_app. right. exact Hb.
  - apply IH; assumption.
Qed.

Lemma formatHistoryAsContext_empty (history : list ChatHistoryItem) :
  formatHistoryAsContext history = [] <-> history = [].
Proof.
  destruct history as [|item history]; [tauto|].
  split; intros H; discriminate H.
Qed.

End Turns.

(** X8.  On an engine that does not fail, saving a turn for a
    registered dataset (or for any dataset when foreign keys are not
    enforced) returns, and then the count of the dataset's turns is one
    more, its whole history is the former one with the new turn sorted in
    by time stamp: at its end when the clock has not gone back; the
    history of every other dataset, the registry and the tables are as
    before.  With foreign keys enforced, saving a turn for a dataset that
    is not registered throws the engine's error and stores nothing. *)
Theorem saveChatHistory_round_trip (assigned : Conversation.Assigned)
    (fileId userMessage aiResponse : jsstring) (d : Database.Db) :
  (forall s, Database.raises (Database.engine d) s = None) ->
  let turn := Database.mkChatHistoryItem (Conversation.rowid assigned) fileId
                userMessage aiResponse (Conversation.now assigned) in
  let refused :=
    Database.foreign_keys (Database.engine d)
    && negb (existsb (fun r => jseqb (Database.file_id r) fileId)
                     (Database.files (Database.store d))) in
  let run := Conversation.saveChatHistory assigned fileId userMessage aiResponse d in
  let d' := snd run in
  (refused = true ->
   Js.thrown run = Some (lit "FOREIGN KEY constraint failed")
   /\ Database.store d' = Database.store d)
  /\ (refused = false ->
      Js.returned run = Some tt
      /\ Js.returned (ChatHistory.getChatHistoryCount fileId d')
         = Some (S (List.length (Database.historyOf fileId (Database.store d))))
      /\ (exists after,
            Js.returned (ChatHistory.getAllChatHistory fileId d') = Some after
            /\ Permutation after (turn :: Database.historyOf fileId (Database.store d))
            /\ StronglySorted ChatHistory.older after
            /\ (Forall (fun h => (Database.timestamp h <= Conversation.now assigned)%N)
                       (Database.historyOf fileId (Database.store d)) ->
                after = Database.historyAsc fileId (Database.store d) ++ [turn]))
      /\ (forall other, other <> fileId ->
            Database.historyOf other (Database.store d')
            = Database.historyOf other (Database.store d))
      /\ Database.files (Database.store d') = Database.files (Database.store d)
      /\ Database.tables (Database.store d') = Database.tables (Database.store d)).
Proof.
  intros Hh. cbn zeta.
  unfold Conversation.saveChatHistory, Js.bind, Js.call,
    DatabaseManager.executeWith, Conversation.insertTurn.
  rewrite Hh.
  destruct (Database.foreign_keys (Database.engine d)
            && negb (existsb (fun r => jseqb (Database.file_id r) fileId)
                             (Database.files (Database.store d)))) eqn:Eref.
  - split; [|discriminate]. intros _. split; reflexivity.
  - split; [discriminate|]. intros _.
    cbn [Database.success negb snd fst Js.ret Js.returned].
    set (turn := Database.mkChatHistoryItem _ _ _ _ _).
    set (st' := Database.mkStore _ _ _).
    set (d' := Database.mkDb _ _ _).
    assert (Hd' : forall s, Database.raises (Database.engine d') s = None)
      by exact Hh.
    assert (Hown : Database.historyOf fileId st'
                   = Database.historyOf fileId (Database.store d) ++ [turn]).
    { subst st'. rewrite historyOf_app. cbn [filter Database.fileId turn].
      rewrite jseqb_refl. reflexivity. }
    split; [reflexivity|].
    split.
    { rewrite getChatHistoryCount_healthy by exact Hd'.
      cbn [Js.returned fst Database.store d']. rewrite Hown, length_app.
      cbn [List.length]. f_equal. lia. }
    split.
    { rewrite getAllChatHistory_healthy by exact Hd'.
      cbn [Js.returned fst Database.store d'].
      eexists. split; [reflexivity|]. unfold Database.historyAsc.
      rewrite Hown. split; [|split].
      - unfold Database.orderAsc. rewrite orderBy_perm.
        rewrite Permutation_app_comm. reflexivity.
      - apply orderAsc_sorted.
      - intros Hclock. rewrite orderAsc_last; [reflexivity | exact Hclock]. }
    split.
    { intros other Hother. subst d' st'. cbn [Database.store snd].
      rewrite historyOf_app.
      cbn [filter Database.fileId turn].
      assert (E : jseqb fileId other = false).
      { apply jseqb_neq. congruence. }
      rewrite E, app_nil_r. reflexivity. }
    split; reflexivity.
Qed.

(** A second turn for dataset [x] of the sample store, at a later time. *)
Lemma saveChatHistory_round_trip_witness :
  Js.returned (ChatHistory.getChatHistoryCount (lit "x")
                 (snd (Conversation.saveChatHistory (Conversation.mkAssigned 8 21)
                         (lit "x") (lit "and then?") (lit "more")
                         Sample.sampleDb)))
  = Some 6.
Proof.
  destruct (@saveChatHistory_round_trip (Conversation.mkAssigned 8 21)
              (lit "x") (lit "and then?") (lit "more") Sample.sampleDb
              (fun _ => eq_refl)) as [_ H].
  destruct (H eq_refl) as [_ [Hcount _]].
  exact Hcount.
Defined.

(** On an engine that does not fail, the recent history is what the
    statement yields, turned round. *)
Lemma getRecentChatHistory_healthy (env : option jsstring) (fileId : jsstring)
    (d : Database.Db) (limit : Z) :
  (forall s, Database.raises (Database.engine d) s = None) ->
  Conversation.getChatContextLimit env = Some limit ->
  DatabaseManager.fitsInteger limit = true ->
  Conversation.getRecentChatHistory env fileId d
  = (Js.Normal (rev (Database.historyDesc fileId limit 0 (Database.store d))),
     Database.recorded (Database.Query Conversation.recentTurnsSql) d).
Proof.
  intros Hh Henv Hfits.
  unfold Conversation.getRecentChatHistory, Js.bind, Js.call, Database.select.
  rewrite Hh, Henv. unfold Conversation.recentTurns. rewrite Hfits.
  reflexivity.
Qed.

Lemma historyDesc_length (fileId : jsstring) (limit : Z) (st : Database.Store) :
  (0 <= limit)%Z ->
  List.length (Database.historyDesc fileId limit 0 st)
  = Nat.min (Z.to_nat limit) (List.length (Database.historyOf fileId st)).
Proof.
  intros Hpos.
  unfold Database.historyDesc, Database.limitOffset. cbn [Z.to_nat skipn].
  destruct (Z.ltb_spec limit 0) as [Hneg|_]; [lia|].
  rewrite length_firstn. unfold Database.orderDesc.
  rewrite (Permutation_length
             (orderBy_perm (fun a b => N.leb b a) (Database.historyOf fileId st))).
  reflexivity.
Qed.

(** X9.  The context window.  The limit is 3 when [CHAT_CONTEXT_LIMIT]
    is unset or empty, and what [parseInt] makes of it otherwise.  On an
    engine that does not fail and for a limit that is a 64-bit integer,
    the recent history is the first page of the paginated history of that
    size: the newest turns, oldest first.  With a limit that is not
    negative it has the limit's number of turns, or all there are if they
    are fewer, and no turn left out is newer than a turn kept.  The
    context text made of it is empty exactly when it holds no turn.  The
    storage is only read. *)
Theorem getRecentChatHistory_window :
  Conversation.getChatContextLimit None = Some 3%Z
  /\ Conversation.getChatContextLimit (Some []) = Some 3%Z
  /\ forall (env : option jsstring) (fileId : jsstring) (d : Database.Db) (limit : Z),
       (forall s, Database.raises (Database.engine d) s = None) ->
       Conversation.getChatContextLimit env = Some limit ->
       DatabaseManager.fitsInteger limit = true ->
       let turns := Database.historyOf fileId (Database.store d) in
       let run := Conversation.getRecentChatHistory env fileId d in
       exists recent,
         Js.returned run = Some recent
         /\ Database.store (snd run) = Database.store d
         /\ option_map ChatHistory.history
              (Js.returned (ChatHistory.getChatHistoryPaginated fileId 1 limit d))
            = Some recent
         /\ StronglySorted ChatHistory.older recent
         /\ (Conversation.formatHistoryAsContext recent = [] <-> recent = [])
         /\ ((0 <= limit)%Z ->
             List.length recent = Nat.min (Z.to_nat limit) (List.length turns)
             /\ exists older,
                  Permutation (older ++ recent) turns
                  /\ forall a b, In a older -> In b recent -> ChatHistory.older a b).
Proof.
  split; [reflexivity|]. split; [reflexivity|].
  intros env fileId d limit Hh Henv Hfits. cbn zeta.
  unfold Conversation.getRecentChatHistory, Js.bind, Js.call, Database.select.
  rewrite Hh, Henv. unfold Conversation.recentTurns. rewrite Hfits.
  cbn [Database.success negb Database.data Js.ret Js.returned fst snd
       Database.recorded Database.store].
  eexists. split; [reflexivity|]. split; [reflexivity|].
  split.
  { rewrite getChatHistoryPaginated_healthy by exact Hh.
    cbn [Js.returned fst option_map ChatHistory.history].
    replace ((1 - 1) * limit)%Z with 0%Z by lia. reflexivity. }
  split.
  { unfold Database.historyDesc, Database.limitOffset. cbn [Z.to_nat skipn].
    assert (Hs : StronglySorted ChatHistory.newer
                   (if (limit <? 0)%Z
                    then Database.orderDesc (Database.historyOf fileId (Database.store d))
                    else firstn (Z.to_nat limit)
                           (Database.orderDesc
                              (Database.historyOf fileId (Database.store d))))).
    { destruct (limit <? 0)%Z;
        [|apply StronglySorted_firstn]; apply orderDesc_sorted. }
    apply StronglySorted_rev in Hs. exact Hs. }
  split; [apply formatHistoryAsContext_empty|].
  intros Hpos.
  unfold Database.historyDesc, Database.limitOffset. cbn [Z.to_nat skipn].
  destruct (Z.ltb_spec limit 0) as [Hneg|_]; [lia|].
  set (turns := Database.historyOf fileId (Database.store d)).
  assert (Hperm : Permutation (Database.orderDesc turns) turns).
  { apply orderBy_perm. }
  split.
  { rewrite length_rev, length_firstn. rewrite (Permutation_length Hperm).
    reflexivity. }
  exists (rev (skipn (Z.to_nat limit) (Database.orderDesc turns))). split.
  - rewrite <- rev_app_distr, firstn_skipn.
    transitivity (Database.orderDesc turns);
      [symmetry; apply Permutation_rev | exact Hperm].
  - intros a b Ha Hb. apply in_rev in Ha. apply in_rev in Hb.
    pose proof (orderDesc_sorted turns) as Hs.
    rewrite <- (firstn_skipn (Z.to_nat limit) (Database.orderDesc turns)) in Hs.
    exact (@StronglySorted_app_cross _ _ _ _ Hs b a Hb Ha).
Qed.

(** The sample store with the limit unset: three of the five turns of
    dataset [x]. *)
Lemma getRecentChatHistory_window_witness :
  option_map (map Database.id)
    (Js.returned (Conversation.getRecentChatHistory None (lit "x") Sample.sampleDb))
  = Some [3; 5; 7].
Proof.
  destruct (proj2 (proj2 getRecentChatHistory_window) None (lit "x") Sample.sampleDb
              3%Z (fun _ => eq_refl) eq_refl eq_refl)
    as [recent [Hrun [_ [Hpage _]]]].
  rewrite Hrun.
  assert (E : option_map ChatHistory.history
                (Js.returned (ChatHistory.getChatHistoryPaginated (lit "x") 1 3
                                Sample.sampleDb))
              = Some (map (fun i => Sample.turn (fst i) "x" (snd i))
                          [(3, 12%N); (5, 15%N); (7, 20%N)])).
  { vm_compute. reflexivity. }
  rewrite E in Hpage. injection Hpage as <-. reflexivity.
Defined.

(** ** Renaming a dataset *)

Section Renaming.

Import Database.

Lemma map_unmatched {A} (p : A -> bool) (f : A -> A) (l : list A) :
  existsb p l = false -> map (fun r => if p r then f r else r) l = l.
Proof.
  induction l as [|x l IH]; cbn; [reflexivity|].
  destruct (p x); cbn; [discriminate|]. intros H. f_equal. auto.
Qed.

Lemma filter_map_matched {A} (p q : A -> bool) (f : A -> A) (l : list A) :
  (forall r, q (f r) = q r) ->
  filter q (map (fun r => if p r then f r else r) l)
  = map (fun r => if p r then f r else r) (filter q l).
Proof.
  intros Hq. induction l as [|x l IH]; cbn; [reflexivity|].
  assert (E : q (if p x then f x else x) = q x) by (destruct (p x); auto).
  rewrite E. destruct (q x); cbn; rewrite IH; reflexivity.
Qed.

Lemma existsb_filter_length {A} (p : A -> bool) (l : list A) :
  existsb p l = negb (Nat.eqb (List.length (filter p l)) 0).
Proof.
  induction l as [|x l IH]; cbn; [reflexivity|].
  destruct (p x); cbn; [reflexivity | exact IH].
Qed.

End Renaming.

(** X10.  Renaming a dataset.  A display name that is not a non-empty
    string is refused with status 400 and the storage is not asked.
    Otherwise one UPDATE is handed to the engine.  When the dataset is
    registered the answer is 200 with the trimmed name, the registry row of
    the dataset carries that name (even if trimming left nothing of it),
    and every other row, the turns and the tables are as before.  When no
    dataset has that id the answer is status 500, not 404, with the
    not-found message, and nothing is stored; an engine failure is a 500
    with the engine's message. *)
Theorem PUT_outcome (id : jsstring) (displayName : Upload.JsValue) (d : Database.Db) :
  exists response d',
    FileTitleRoute.PUT id displayName d = (Js.Normal response, d')
    /\ match displayName with
       | Upload.JString (c :: text) =>
           Database.journal d'
           = Database.journal d ++ [Database.Query FileTitleRoute.updateTitleSql]
           /\ match Database.raises (Database.engine d)
                      (Database.Query FileTitleRoute.updateTitleSql) with
              | Some message =>
                  response
                  = FileTitleRoute.Failed (FileTitleRoute.renameFailureMessage message)
                  /\ Database.store d' = Database.store d
              | None =>
                  match Database.filesById id (Database.store d) with
                  | [] =>
                      response
                      = FileTitleRoute.Failed
                          (FileTitleRoute.renameFailureMessage FilesRoute.notFoundMessage)
                      /\ Database.store d' = Database.store d
                  | _ :: _ =>
                      response
                      = FileTitleRoute.Renamed FileTitleRoute.renamedMessage
                          (trim (c :: text))
                      /\ Database.filesById id (Database.store d')
                         = map (fun r => Database.mkFileRow (Database.file_id r)
                                           (Database.file_name r)
                                           (Some (trim (c :: text))))
                               (Database.filesById id (Database.store d))
                      /\ (forall other, other <> id ->
                            Database.filesById other (Database.store d')
                            = Database.filesById other (Database.store d))
                      /\ map Database.file_id (Database.files (Database.store d'))
                         = map Database.file_id (Database.files (Database.store d))
                      /\ Database.chat_history (Database.store d')
                         = Database.chat_history (Database.store d)
                      /\ Database.tables (Database.store d')
                         = Database.tables (Database.store d)
                  end
              end
       | _ => response = FileTitleRoute.Invalid FileTitleRoute.invalidTitleMessage
              /\ d' = d
       end.
Proof.
  unfold FileTitleRoute.PUT, Js.tryCatch.
  destruct displayName as [| |[|c text]|r];
    try (unfold Js.ret; eexists; eexists; split; [reflexivity | split; reflexivity]).
  unfold Js.bind, Js.call, DatabaseManager.executeWith.
  destruct (Database.raises (Database.engine d)
              (Database.Query FileTitleRoute.updateTitleSql)) as [message|] eqn:Er.
  { cbn [Database.success Database.failed negb].
    unfold Js.throw, Js.ret. eexists. eexists. split; [reflexivity|].
    cbn. auto. }
  unfold FileTitleRoute.updateTitle.
  cbn [Database.success Database.changes negb].
  destruct (Database.filesById id (Database.store d)) as [|row rows] eqn:Ef.
  - cbn [List.length]. unfold Js.throw, Js.ret.
    eexists. eexists. split; [reflexivity|]. cbn.
    split; [reflexivity|]. split; [reflexivity|].
    rewrite map_unmatched.
    + destruct (Database.store d); reflexivity.
    + rewrite existsb_filter_length. unfold Database.filesById in Ef.
      rewrite Ef. reflexivity.
  - cbn [List.length]. unfold Js.ret.
    eexists. eexists. split; [reflexivity|].
    cbn [Database.journal Database.store Database.files Database.chat_history
         Database.tables].
    split; [reflexivity|]. split; [reflexivity|].
    split.
    { unfold Database.filesById. cbn [Database.files].
      rewrite filter_map_matched by reflexivity.
      fold (Database.filesById id (Database.store d)). rewrite Ef.
      apply map_ext_in. intros r Hr. rewrite <- Ef in Hr.
      apply filter_In in Hr. destruct Hr as [_ Hr]. rewrite Hr. reflexivity. }
    split.
    { intros other Hother. unfold Database.filesById. cbn [Database.files].
      rewrite filter_map_matched by reflexivity.
      rewrite <- (map_id (filter _ (Database.files (Database.store d)))) at 2.
      apply map_ext_in. intros r Hr. apply filter_In in Hr. destruct Hr as [_ Hr].
      destruct (jseqb (Database.file_id r) id) eqn:E; [|reflexivity].
      apply jseqb_eq in E. apply jseqb_eq in Hr. congruence. }
    split; [|split; reflexivity].
    rewrite map_map. apply map_ext. intros r.
    destruct (jseqb (Database.file_id r) id); reflexivity.
Qed.

(** Renaming dataset [x] of the sample store leaves the row of [xy]. *)
Lemma PUT_outcome_witness :
  exists response d',
    FileTitleRoute.PUT (lit "x") (Upload.JString (lit " Sales ")) Sample.sampleDb
    = (Js.Normal response, d')
    /\ response = FileTitleRoute.Renamed FileTitleRoute.renamedMessage (lit "Sales")
    /\ Database.filesById (lit "xy") (Database.store d')
       = [Database.mkFileRow (lit "xy") (lit "staff.csv") None].
Proof.
  destruct (PUT_outcome (lit "x") (Upload.JString (lit " Sales ")) Sample.sampleDb)
    as [response [d' [Hrun H]]].
  change (lit " Sales ") with (32%N :: lit "Sales ") in H.
  cbv beta iota in H. destruct H as [_ H].
  change (Database.raises (Database.engine Sample.sampleDb)
            (Database.Query FileTitleRoute.updateTitleSql))
    with (@None jsstring) in H.
  change (Database.filesById (lit "x") (Database.store Sample.sampleDb))
    with [Database.mkFileRow (lit "x") (lit "sales.csv") None] in H.
  cbv beta iota in H.
  destruct H as [Hresp [_ [Hother _]]].
  exists response, d'. split; [exact Hrun|]. split; [exact Hresp|].
  rewrite Hother by discriminate. reflexivity.
Defined.

(** ** The history route *)

Section HistoryRoute.

Import Database.

Lemma filter_negb_none {A} (p : A -> bool) (l : list A) :
  filter p (filter (fun x => negb (p x)) l) = [].
Proof.
  induction l as [|x l IH]; cbn; [reflexivity|].
  destruct (p x) eqn:E; cbn; [exact IH | rewrite E; exact IH].
Qed.

Lemma filter_negb_other {A} (p q : A -> bool) (l : list A) :
  (forall x, q x = true -> p x = false) ->
  filter q (filter (fun x => negb (p x)) l) = filter q l.
Proof.
  intros H. induction l as [|x l IH]; cbn; [reflexivity|].
  destruct (q x) eqn:Eq.
  - rewrite (H x Eq). cbn. rewrite Eq, IH. reflexivity.
  - destruct (p x); cbn; [exact IH | rewrite Eq; exact IH].
Qed.

End HistoryRoute.

(** X11.  Reading the history over HTTP, on an engine that does not
    fail.  Without a dataset id the answer is status 400 and the storage
    is not asked.  With [all=true] the whole history is listed, oldest
    first, with matching counts.  A request for page 1 with limit 10,
    which is also what a request without these parameters means, is not
    served by the pagination: it lists the context window, that is, the
    three newest turns unless [CHAT_CONTEXT_LIMIT] says otherwise, and
    reports as partial exactly when the dataset has more turns than
    that.  Any other page or limit is served by the pagination.  The
    storage is only read. *)
Theorem GET_history_branches (env fileId all page limit : option jsstring)
    (d : Database.Db) :
  (forall s, Database.raises (Database.engine d) s = None) ->
  let run := HistoryRoute.GET env fileId all page limit d in
  let p := HistoryRoute.numberParameter page (lit "1") in
  let l := HistoryRoute.numberParameter limit (lit "10") in
  match fileId with
  | Some (c :: f) =>
      let turns := Database.historyOf (c :: f) (Database.store d) in
      (all = Some (lit "true") ->
       Js.returned run
       = Some (HistoryRoute.Listing (Database.historyAsc (c :: f) (Database.store d))
                 (List.length turns) (List.length turns) None None false)
       /\ Database.store (snd run) = Database.store d)
      /\ (all <> Some (lit "true") ->
          (exists n, p = Some n /\ (n <= 1)%Z) -> l = Some 10%Z ->
          forall window,
            Conversation.getChatContextLimit env = Some window ->
            (0 <= window < 2 ^ 63)%Z ->
            exists recent,
              Js.returned (Conversation.getRecentChatHistory env (c :: f) d)
              = Some recent
              /\ List.length recent = Nat.min (Z.to_nat window) (List.length turns)
              /\ Js.returned run
                 = Some (HistoryRoute.Listing recent (List.length recent)
                           (List.length turns) None None
                           (Nat.ltb (List.length recent) (List.length turns)))
              /\ Database.store (snd run) = Database.store d)
      /\ (all <> Some (lit "true") ->
          forall n m, p = Some n -> l = Some m -> (1 < n)%Z \/ m <> 10%Z ->
          exists pg,
            Js.returned (ChatHistory.getChatHistoryPaginated (c :: f) n m d) = Some pg
            /\ Js.returned run
               = Some (HistoryRoute.Listing (ChatHistory.history pg)
                         (List.length (ChatHistory.history pg))
                         (ChatHistory.totalCount pg)
                         (Some (ChatHistory.hasMore pg))
                         (Some (ChatHistory.currentPage pg)) true)
            /\ Database.store (snd run) = Database.store d)
  | _ => run = (Js.Normal (HistoryRoute.BadRequest HistoryRoute.fileIdParameterMessage), d)
  end.
Proof.
  intros Hh. cbn zeta.
  destruct fileId as [[|c f]|]; try reflexivity.
  assert (Hnot : all <> Some (lit "true") ->
                 match all with Some a => jseqb a (lit "true") | None => false end
                 = false).
  { intros Hn. destruct all as [a|]; [|reflexivity].
    apply jseqb_neq. congruence. }
  split; [|split].
  - (* the whole history *)
    intros ->. unfold HistoryRoute.GET, Js.tryCatch.
    rewrite jseqb_refl. unfold Js.bind.
    rewrite getAllChatHistory_healthy by exact Hh. cbv beta iota.
    rewrite getChatHistoryCount_healthy by exact Hh. cbv beta iota.
    cbn [Js.ret Js.returned fst snd Database.store].
    split; [|reflexivity].
    unfold Database.historyAsc, Database.orderAsc.
    rewrite (Permutation_length (orderBy_perm N.leb _)). reflexivity.
  - (* the context window *)
    intros Hn [n [Hp Hle]] Hl window Hw Hrange.
    assert (Hfits : DatabaseManager.fitsInteger window = true).
    { unfold DatabaseManager.fitsInteger.
      apply andb_true_iff. split; [apply Z.leb_le | apply Z.ltb_lt]; lia. }
    pose proof (getRecentChatHistory_healthy env (c :: f) d Hh Hw Hfits) as Hrun.
    exists (rev (Database.historyDesc (c :: f) window 0 (Database.store d))).
    split; [rewrite Hrun; reflexivity|].
    split; [rewrite length_rev; apply historyDesc_length; lia|].
    unfold HistoryRoute.GET, Js.tryCatch.
    rewrite (Hnot Hn), Hp, Hl.
    assert (E : ((1 <? n)%Z || negb (10 =? 10)%Z) = false).
    { apply orb_false_iff. split; [apply Z.ltb_ge; exact Hle | reflexivity]. }
    rewrite E. unfold Js.bind. rewrite Hrun. cbv beta iota.
    rewrite getChatHistoryCount_healthy by exact Hh.
    cbv beta iota. cbn [Js.ret Js.returned fst snd Database.store Database.recorded].
    split; reflexivity.
  - (* the pagination *)
    intros Hn n m Hp Hl Hor.
    unfold HistoryRoute.GET, Js.tryCatch.
    rewrite (Hnot Hn), Hp, Hl.
    assert (E : ((1 <? n)%Z || negb (m =? 10)%Z) = true).
    { apply orb_true_iff. destruct Hor as [H|H];
        [left; apply Z.ltb_lt; exact H
        | right; apply negb_true_iff, Z.eqb_neq; exact H]. }
    rewrite E. unfold Js.bind.
    rewrite getChatHistoryPaginated_healthy by exact Hh. cbv beta iota.
    cbn [Js.ret Js.returned fst snd Database.store].
    eexists. split; [reflexivity|]. split; reflexivity.
Qed.

(** The sample store, the limit unset: page 1 of ten lists three turns
    of the five and says that the listing is partial. *)
Lemma GET_history_branches_witness :
  exists recent,
    Js.returned (HistoryRoute.GET None (Some (lit "x")) None (Some (lit "1"))
                   (Some (lit "10")) Sample.sampleDb)
    = Some (HistoryRoute.Listing recent 3 5 None None true).
Proof.
  pose proof (@GET_history_branches None (Some (lit "x")) None (Some (lit "1"))
                (Some (lit "10")) Sample.sampleDb (fun _ => eq_refl)) as H.
  cbn zeta in H. destruct H as [_ [H _]].
  assert (Hn : @None jsstring <> Some (lit "true")) by discriminate.
  assert (Hp : exists n,
             HistoryRoute.numberParameter (Some (lit "1")) (lit "1") = Some n
             /\ (n <= 1)%Z).
  { exists 1%Z. split; [reflexivity | discriminate]. }
  assert (Hr : (0 <= 3 < 2 ^ 63)%Z) by (split; [discriminate | reflexivity]).
  destruct (H Hn Hp eq_refl 3%Z eq_refl Hr) as [recent [_ [Hlen [Hrun _]]]].
  exists recent. rewrite Hrun, Hlen. reflexivity.
Defined.

(** X12.  Clearing the history over HTTP.  Without a dataset id the
    answer is status 400 and the storage is not asked.  Otherwise the one
    statement that deletes the turns of the dataset is handed to the
    engine: when the engine raises, the answer is status 500 with the
    engine's message and the store is as before; when it does not, the
    answer is the success message, no turn of the dataset is left, and
    the turns of every other dataset, the registry and the data tables
    are as before. *)
Theorem DELETE_history_outcome (fileId : option jsstring) (d : Database.Db) :
  let run := HistoryRoute.DELETE fileId d in
  match fileId with
  | Some (c :: f) =>
      let id := c :: f in
      Database.journal (snd run)
      = Database.journal d ++ [Database.DeleteChatHistory id]
      /\ match Database.raises (Database.engine d) (Database.DeleteChatHistory id) with
         | Some message =>
             fst run
             = Js.Normal (HistoryRoute.ServerError
                            (HistoryRoute.clearFailureMessage message))
             /\ Database.store (snd run) = Database.store d
         | None =>
             fst run
             = Js.Normal (HistoryRoute.Cleared (HistoryRoute.clearedMessage id))
             /\ Database.historyOf id (Database.store (snd run)) = []
             /\ (forall other,
                   other <> id ->
                   Database.historyOf other (Database.store (snd run))
                   = Database.historyOf other (Database.store d))
             /\ Database.files (Database.store (snd run))
                = Database.files (Database.store d)
             /\ Database.tables (Database.store (snd run))
                = Database.tables (Database.store d)
         end
  | _ =>
      run = (Js.Normal (HistoryRoute.BadRequest HistoryRoute.fileIdNeededMessage), d)
  end.
Proof.
  cbn zeta. destruct fileId as [[|c f]|]; try reflexivity.
  unfold HistoryRoute.DELETE, ChatHistory.clearChatHistory.
  unfold Js.tryCatch, Js.bind, Js.call, Database.execute.
  destruct (Database.raises (Database.engine d)
              (Database.DeleteChatHistory (c :: f))) as [message|].
  - cbn. split; [reflexivity|]. split; reflexivity.
  - cbn [Database.applyStmt]. cbv beta iota zeta.
    cbn [Database.success negb Js.ret Js.bind fst snd Database.journal
         Database.store Database.files Database.tables Database.chat_history].
    split; [reflexivity|]. split; [reflexivity|].
    split; [apply filter_negb_none|].
    split; [|split; reflexivity].
    intros other Hne. unfold Database.historyOf. cbn [Database.chat_history].
    apply filter_negb_other. intros h Hh.
    apply jseqb_eq in Hh. apply jseqb_neq. congruence.
Qed.

(** Clearing the turns of [x] in the sample store leaves those of [xy]. *)
Lemma DELETE_history_outcome_witness :
  map Database.id
    (Database.historyOf (lit "xy")
       (Database.store (snd (HistoryRoute.DELETE (Some (lit "x")) Sample.sampleDb))))
  = [2; 6].
Proof.
  pose proof (DELETE_history_outcome (Some (lit "x")) Sample.sampleDb) as H.
  change (lit "x") with (120%N :: []) in H.
  cbv beta iota zeta in H. destruct H as [_ H].
  change (Database.raises (Database.engine Sample.sampleDb)
            (Database.DeleteChatHistory [120%N]))
    with (@None jsstring) in H.
  cbv beta iota in H.
  destruct H as [_ [_ [Hother _]]].
  change (lit "x") with (120%N :: []).
  rewrite (Hother (lit "xy")) by discriminate. reflexivity.
Defined.
